(** * convert_assets.py: metric parsing, joint classification and catalog
    assembly of the avatar viewer's batch converter.

    The development embeds [src/convert_assets.py] function by function.
    Texts (tool output, file names, warning strings) are strings over the
    code points 0..255; Python integers are [Z]; Python floats are finite
    binary64 numbers, carried as the rational they denote; the external
    [assimp] tool and the file discovery are parameters of the model.
    What the script prints and the files it writes are left out: a run is
    followed up to the manifest that [json.dumps] receives.  The library
    calls are those of CPython 3.11 to 3.13 with its default settings. *)

From Stdlib Require Import ZArith QArith Qround Qabs Qpower Ascii String List.
From Stdlib Require Import Lia Lqa.
From Stdlib Require Import DecimalString.
From Stdlib Require Import Sorted DecimalPos.
From stdpp Require Import gmap strings.

Local Open Scope string_scope.
Local Open Scope Z_scope.

(** ** Characters and strings *)

Module Text.

Definition code (c : ascii) : Z := Z.of_N (N_of_ascii c).

Definition dquote : ascii := Eval cbv in ascii_of_nat 34.
Definition backslash : ascii := Eval cbv in ascii_of_nat 92.
Definition newline : ascii := Eval cbv in ascii_of_nat 10.
Definition nl : string := String newline "".

(** [\d] of a Python [str] pattern, on code points below 256. *)
Definition is_digit (c : ascii) : bool :=
  (48 <=? code c) && (code c <=? 57).

(** [\s] of a Python [str] pattern, and [str.isspace], on code points
    below 256: tab to carriage return, the four separators 28..31, the
    space, NEL and the no-break space. *)
Definition is_space (c : ascii) : bool :=
  let n := code c in
  ((9 <=? n) && (n <=? 13)) || ((28 <=? n) && (n <=? 32))
  || (n =? 133) || (n =? 160).

(** [str.lower] on code points below 256. *)
Definition lower_char (c : ascii) : ascii :=
  let n := code c in
  if ((65 <=? n) && (n <=? 90))
     || ((192 <=? n) && (n <=? 222) && negb (n =? 215))
  then ascii_of_N (Z.to_N (n + 32)) else c.

Fixpoint lower (s : string) : string :=
  match s with
  | "" => ""
  | String c s' => String (lower_char c) (lower s')
  end.

(** [strip_prefix p s] is the rest of [s] after the literal [p], when [s]
    starts with it ([s.startswith(p)] is [is_Some (strip_prefix p s)]). *)
Fixpoint strip_prefix (p s : string) : option string :=
  match p, s with
  | "", _ => Some s
  | String a p', String b s' =>
      if Ascii.eqb a b then strip_prefix p' s' else None
  | String _ _, "" => None
  end.

Definition startswith (s p : string) : bool :=
  match strip_prefix p s with Some _ => true | None => false end.

(** [p in s]. *)
Fixpoint contains (p s : string) : bool :=
  match strip_prefix p s with
  | Some _ => true
  | None => match s with
            | "" => false
            | String _ s' => contains p s'
            end
  end.

(** [s.endswith(p)]. *)
Fixpoint endswith (s p : string) : bool :=
  if String.eqb s p then true
  else match s with
       | "" => false
       | String _ s' => endswith s' p
       end.

(** The longest prefix of [s] made of characters in [f], and the rest. *)
Fixpoint span (f : ascii -> bool) (s : string) : string * string :=
  match s with
  | "" => ("", "")
  | String c s' =>
      if f c then let '(a, b) := span f s' in (String c a, b)
      else ("", s)
  end.

(** Every character of [s] is in [f]. *)
Fixpoint all_chars (f : ascii -> bool) (s : string) : bool :=
  match s with
  | "" => true
  | String c s' => f c && all_chars f s'
  end.

Fixpoint drop_while (f : ascii -> bool) (s : string) : string :=
  match s with
  | "" => ""
  | String c s' => if f c then drop_while f s' else s
  end.

Fixpoint rev_onto (s acc : string) : string :=
  match s with
  | "" => acc
  | String c s' => rev_onto s' (String c acc)
  end.

Definition rev (s : string) : string := rev_onto s "".

(** [s.strip()]. *)
Definition strip (s : string) : string :=
  rev (drop_while is_space (rev (drop_while is_space s))).

(** [s.split(sep)] for a one-character separator: always at least one
    piece. *)
Fixpoint split_on (sep : ascii) (s : string) : list string :=
  match s with
  | "" => [""]
  | String c s' =>
      if Ascii.eqb c sep then "" :: split_on sep s'
      else match split_on sep s' with
           | [] => [String c ""]
           | piece :: pieces => String c piece :: pieces
           end
  end.

(** [s.replace(a, b)] for one-character [a] and [b]. *)
Fixpoint replace_char (a b : ascii) (s : string) : string :=
  match s with
  | "" => ""
  | String c s' =>
      String (if Ascii.eqb c a then b else c) (replace_char a b s')
  end.

(** [sep.join(parts)]. *)
Fixpoint join (sep : string) (parts : list string) : string :=
  match parts with
  | [] => ""
  | [p] => p
  | p :: rest => p ++ sep ++ join sep rest
  end.

(** The number a run of decimal digits denotes. *)
Definition digit_value (c : ascii) : Z := code c - 48.

Fixpoint int_of_digits_from (acc : Z) (ds : string) : Z :=
  match ds with
  | "" => acc
  | String c ds' => int_of_digits_from (10 * acc + digit_value c) ds'
  end.

Definition int_of_digits (ds : string) : Z := int_of_digits_from 0 ds.

(** [str(n)], and an integer in an f-string with no format. *)
Definition str_of_int (n : Z) : string :=
  NilZero.string_of_int (Z.to_int n).

(** The digits of [ds] in groups of three from the right, separated by
    commas; [fuel] bounds the number of groups. *)
Fixpoint group3 (fuel : nat) (rev_ds : string) : string :=
  match fuel, rev_ds with
  | S k, String a (String b (String c (String d rest))) =>
      String a (String b (String c (String "," (group3 k (String d rest)))))
  | _, _ => rev_ds
  end.

(** An integer in an f-string with the format [:,]. *)
Definition str_of_int_grouped (n : Z) : string :=
  let ds := str_of_int (Z.abs n) in
  let body := rev (group3 (String.length ds) (rev ds)) in
  if n <? 0 then "-" ++ body else body.

End Text.

(** ** Exceptions *)

Inductive exn : Type :=
  | OverflowError
  | ZeroDivisionError
  | ValueError (digits : nat).

(** [str(e)]. *)
Definition exn_message (e : exn) : string :=
  match e with
  | OverflowError => "integer division result too large for a float"
  | ZeroDivisionError => "division by zero"
  | ValueError digits =>
      "Exceeds the limit (4300 digits) for integer string conversion: "
      ++ "value has " ++ Text.str_of_int (Z.of_nat digits) ++ " digits; "
      ++ "use sys.set_int_max_str_digits() to increase the limit"
  end.

Inductive result (A : Type) : Type :=
  | Ok (a : A)
  | Raise (e : exn).

Arguments Ok {A} a.
Arguments Raise {A} e.

Definition rbind {A B : Type} (r : result A) (k : A -> result B) : result B :=
  match r with
  | Ok a => k a
  | Raise e => Raise e
  end.

Notation "'let*' x ':=' r 'in' k" := (rbind r (fun x => k))
  (at level 10, x name, r at level 100, k at level 200).

(** A [for] loop whose body can raise: the turns run in order and the
    first exception ends the loop. *)
Fixpoint for_each {A B : Type} (body : B -> A -> result B) (l : list A)
    (b : B) : result B :=
  match l with
  | [] => Ok b
  | x :: l' => let* b' := body b x in for_each body l' b'
  end.

(** [sys.get_int_max_str_digits()] at its default. *)
Definition max_str_digits : Z := 4300.

(** [int(ds)] for a run of decimal digits: a run of more than 4300
    digits, leading zeros counted, is refused with a [ValueError]. *)
Definition int_of_str (ds : string) : result Z :=
  if max_str_digits <? Z.of_nat (String.length ds)
  then Raise (ValueError (String.length ds))
  else Ok (Text.int_of_digits ds).

(** ** Python floats

    A finite binary64 number is carried as the rational it denotes.
    [nearest] is the rounding every float operation ends with: to 53
    significant bits, ties to even, with the subnormal spacing below
    2^-1022. *)

Module Binary64.

Local Open Scope Q_scope.

(** The nearest integer, ties to the even one. *)
Definition rhe (q : Q) : Z :=
  let f := Qfloor q in
  match ((q - inject_Z f) ?= (1 # 2))%Q with
  | Lt => f
  | Gt => (f + 1)%Z
  | Eq => if Z.even f then f else (f + 1)%Z
  end.

Definition pow2 (e : Z) : Q := Qpower 2 e.

(** The exponent of the leading bit of a positive rational. *)
Definition ilog2 (q : Q) : Z :=
  let e0 := (Z.log2 (Qnum q) - Z.log2 (Zpos (Qden q)))%Z in
  if Qle_bool (pow2 e0) q then e0 else (e0 - 1)%Z.

(** The exponent of the spacing of binary64 numbers around [q]. *)
Definition quantum (q : Q) : Z :=
  (Z.max (ilog2 (Qabs q)) (-1022) - 52)%Z.

Definition nearest (q : Q) : Q :=
  if Qeq_bool q 0 then 0
  else let u := pow2 (quantum q) in Qred (inject_Z (rhe (q / u)) * u).

(** The magnitude is below 2^1024: the rounding did not overflow. *)
Definition finite (q : Q) : bool :=
  negb (Qle_bool (pow2 1024) (Qabs q)).

(** [a / b] on integers: the correctly rounded quotient. *)
Definition truediv (a b : Z) : result Q :=
  if (b =? 0)%Z then Raise ZeroDivisionError
  else let r := nearest (inject_Z a / inject_Z b) in
       if finite r then Ok r else Raise OverflowError.

(** The decimal with [nd] places nearest to [x], ties to even. *)
Definition decimal_round (nd : Z) (x : Q) : Q :=
  let scale := Qpower 10 nd in
  inject_Z (rhe (x * scale)) / scale.

(** [round(x, nd)] on a float, [0 <= nd]: the float nearest to the
    correctly rounded decimal.  The decimal of a finite binary64 number
    is never beyond the largest one, so the overflow branch of CPython's
    [double_round] is not reachable and [round] does not raise. *)
Definition round_float (x : Q) (nd : Z) : Q :=
  nearest (decimal_round nd x).

(** [x + y] on floats ([None]: the sum overflows to an infinity). *)
Definition add (x y : Q) : option Q :=
  let r := nearest (x + y) in
  if finite r then Some r else None.

End Binary64.

(** A JSON number as Python loads it: an [int] or a [float]. *)
Inductive num : Type :=
  | NInt (z : Z)
  | NFloat (q : Q).

(** [round(x, nd)], [0 <= nd]: an [int] is returned as it is. *)
Definition py_round (x : num) (nd : Z) : num :=
  match x with
  | NInt z => NInt z
  | NFloat q => NFloat (Binary64.round_float q nd)
  end.

(** ** The regular expressions of the script

    Each pattern is a literal followed by runs of character classes whose
    members cannot start what follows the run, so the greedy run is the only
    way to match and Python's backtracking never finds another one. *)

Module Re.
Import Text.

(** One attempt of [LABEL\s*(\d+)] at the start of [s]: group 1. *)
Definition match_label (label s : string) : option string :=
  match strip_prefix label s with
  | None => None
  | Some rest =>
      match fst (span is_digit (drop_while is_space rest)) with
      | "" => None
      | ds => Some ds
      end
  end.

(** [re.search(LABEL\s*(\d+), s)]: group 1 of the leftmost match. *)
Fixpoint search_label (label s : string) : option string :=
  match match_label label s with
  | Some ds => Some ds
  | None => match s with
            | "" => None
            | String _ s' => search_label label s'
            end
  end.

Definition node_open : string := "<Node name=" ++ String dquote "".

Definition not_dquote (c : ascii) : bool := negb (Ascii.eqb c dquote).

(** One attempt of the node pattern at the start of [s]: the literal
    [<Node name=] and an opening double quote, then group 1, the longest
    run of characters other than the double quote (at least one), then
    the closing double quote.  Returns group 1 and the number of
    characters the match spans. *)
Definition match_node (s : string) : option (string * nat) :=
  match strip_prefix node_open s with
  | None => None
  | Some rest =>
      match span not_dquote rest with
      | ("", _) => None
      | (_, "") => None
      | (name, String _ _) =>
          Some (name, (String.length node_open + String.length name + 1)%nat)
      end
  end.

(** [re.findall] of the node pattern: group 1 of the matches from left
    to right, each search resuming where the match before it ended.
    [skip] counts the characters of [s] that the last match still
    covers. *)
Fixpoint findall_nodes_from (skip : nat) (s : string) : list string :=
  match s with
  | "" => []
  | String _ s' =>
      match skip with
      | S k => findall_nodes_from k s'
      | O =>
          match match_node s with
          | Some (name, span_len) =>
              name :: findall_nodes_from (Nat.pred span_len) s'
          | None => findall_nodes_from 0 s'
          end
      end
  end.

Definition findall_nodes (s : string) : list string :=
  findall_nodes_from 0 s.

(** The text before the first occurrence of [stop], or before the place
    where [$] holds: the end of the text, or a newline that ends it. *)
Fixpoint until_stop (stop s : string) : string :=
  match strip_prefix stop s with
  | Some _ => ""
  | None =>
      match s with
      | "" => ""
      | String c s' =>
          if String.eqb s nl then "" else String c (until_stop stop s')
      end
  end.

(** The text after the first newline of [s]. *)
Fixpoint after_newline (s : string) : option string :=
  match s with
  | "" => None
  | String c s' => if Ascii.eqb c newline then Some s' else after_newline s'
  end.

(** [re.search] with [re.DOTALL] of the mesh-section pattern: the
    literal [Meshes:], a lazy run up to a newline, the lazy group 1, and
    a lookahead for [Named Materials:] or the end.  The lazy run stops at
    the first newline after the leftmost [Meshes:], the group at the
    first place where the lookahead holds; a [Meshes:] with no newline
    after it has none after any later one either. *)
Fixpoint search_mesh_section (s : string) : option string :=
  match strip_prefix "Meshes:" s with
  | Some rest =>
      match after_newline rest with
      | Some body => Some (until_stop "Named Materials:" body)
      | None => None
      end
  | None =>
      match s with
      | "" => None
      | String _ s' => search_mesh_section s'
      end
  end.

(** A run of at least one digit at the start of [s], and the rest. *)
Definition digits1 (s : string) : option (string * string) :=
  match span is_digit s with
  | ("", _) => None
  | (ds, rest) => Some (ds, rest)
  end.

(** The literal character [c] at the start of [s]. *)
Definition char1 (c : ascii) (s : string) : option string :=
  match s with
  | String d s' => if Ascii.eqb c d then Some s' else None
  | "" => None
  end.

(** [\s+] at the start of [s]. *)
Definition spaces1 (s : string) : option string :=
  match s with
  | String c s' => if is_space c then Some (drop_while is_space s') else None
  | "" => None
  end.

Definition not_rparen (c : ascii) : bool := negb (Ascii.eqb c ")").

Definition obind {A B : Type} (o : option A) (k : A -> option B) : option B :=
  match o with
  | Some a => k a
  | None => None
  end.

(** [re.match] of the mesh-line pattern on a line: optional spaces, an
    index, spaces, a parenthesised name (group 1), a colon, optional
    spaces, and in square brackets the vertex, bone and face counts
    (groups 2 to 4) separated by slashes and closed by a vertical bar. *)
Definition match_mesh_line (line : string)
  : option (string * string * string * string) :=
  obind (digits1 (drop_while is_space line)) (fun '(_, s1) =>
  obind (spaces1 s1) (fun s2 =>
  obind (char1 "(" s2) (fun s3 =>
  let '(name, s4) := span not_rparen s3 in
  match name with
  | "" => None
  | _ =>
    obind (char1 ")" s4) (fun s5 =>
    obind (char1 ":" s5) (fun s6 =>
    obind (char1 "[" (drop_while is_space s6)) (fun s7 =>
    obind (digits1 s7) (fun '(g2, s8) =>
    obind (char1 "/" (drop_while is_space s8)) (fun s9 =>
    obind (digits1 (drop_while is_space s9)) (fun '(g3, s10) =>
    obind (char1 "/" (drop_while is_space s10)) (fun s11 =>
    obind (digits1 (drop_while is_space s11)) (fun '(g4, s12) =>
    obind (char1 "|" (drop_while is_space s12)) (fun _ =>
    Some (name, g2, g3, g4))))))))))
  end))).

End Re.

(** ** The metrics record of [parse_assimp_info] *)

Record mesh : Type := {
  mesh_name : string;
  mesh_vertices : Z;
  mesh_bones : Z;
  mesh_faces : Z
}.

(** The dictionary [parse_assimp_info] builds: every key is present from
    the first statement on.  The four kilobyte fields start as the integer
    0 and are floats once the estimates are stored. *)
Record metrics : Type := {
  total_vertices : Z;
  total_faces : Z;
  mesh_count : Z;
  node_count : Z;
  max_depth : Z;
  material_count : Z;
  texture_count : Z;
  memory_bytes : Z;
  vertex_buffer_kb : num;
  index_buffer_kb : num;
  bone_matrices_kb : num;
  total_gpu_memory_kb : num;
  meshes : list mesh;
  warnings : list string
}.

(** The keys of the [patterns] dictionary. *)
Inductive scalar_key : Type :=
  | KMemoryBytes
  | KNodeCount
  | KMaxDepth
  | KMeshCount
  | KMaterialCount
  | KTextureCount
  | KTotalVertices
  | KTotalFaces.

(** The literal each pattern starts with; every pattern continues with
    optional spaces and a captured run of digits. *)
Definition label_of (key : scalar_key) : string :=
  match key with
  | KMemoryBytes => "Memory consumption:"
  | KNodeCount => "Nodes:"
  | KMaxDepth => "Maximum depth"
  | KMeshCount => "Meshes:"
  | KMaterialCount => "Materials:"
  | KTextureCount => "Textures (embed.):"
  | KTotalVertices => "Vertices:"
  | KTotalFaces => "Faces:"
  end.

(** The keys in the order the dictionary lists them. *)
Definition patterns : list scalar_key :=
  [KMemoryBytes; KNodeCount; KMaxDepth; KMeshCount; KMaterialCount;
   KTextureCount; KTotalVertices; KTotalFaces].

(** [metrics[key]]. *)
Definition get_scalar (key : scalar_key) (m : metrics) : Z :=
  match key with
  | KMemoryBytes => memory_bytes m
  | KNodeCount => node_count m
  | KMaxDepth => max_depth m
  | KMeshCount => mesh_count m
  | KMaterialCount => material_count m
  | KTextureCount => texture_count m
  | KTotalVertices => total_vertices m
  | KTotalFaces => total_faces m
  end.

(** [metrics[key] = v]. *)
Definition set_scalar (key : scalar_key) (v : Z) (m : metrics) : metrics :=
  {| total_vertices := match key with KTotalVertices => v | _ => total_vertices m end;
     total_faces := match key with KTotalFaces => v | _ => total_faces m end;
     mesh_count := match key with KMeshCount => v | _ => mesh_count m end;
     node_count := match key with KNodeCount => v | _ => node_count m end;
     max_depth := match key with KMaxDepth => v | _ => max_depth m end;
     material_count := match key with KMaterialCount => v | _ => material_count m end;
     texture_count := match key with KTextureCount => v | _ => texture_count m end;
     memory_bytes := match key with KMemoryBytes => v | _ => memory_bytes m end;
     vertex_buffer_kb := vertex_buffer_kb m;
     index_buffer_kb := index_buffer_kb m;
     bone_matrices_kb := bone_matrices_kb m;
     total_gpu_memory_kb := total_gpu_memory_kb m;
     meshes := meshes m;
     warnings := warnings m |}.

Definition set_meshes (ms : list mesh) (m : metrics) : metrics :=
  {| total_vertices := total_vertices m; total_faces := total_faces m;
     mesh_count := mesh_count m; node_count := node_count m;
     max_depth := max_depth m; material_count := material_count m;
     texture_count := texture_count m; memory_bytes := memory_bytes m;
     vertex_buffer_kb := vertex_buffer_kb m;
     index_buffer_kb := index_buffer_kb m;
     bone_matrices_kb := bone_matrices_kb m;
     total_gpu_memory_kb := total_gpu_memory_kb m;
     meshes := ms;
     warnings := warnings m |}.

Definition set_estimates (vbk ibk bmk total : Q) (m : metrics) : metrics :=
  {| total_vertices := total_vertices m; total_faces := total_faces m;
     mesh_count := mesh_count m; node_count := node_count m;
     max_depth := max_depth m; material_count := material_count m;
     texture_count := texture_count m; memory_bytes := memory_bytes m;
     vertex_buffer_kb := NFloat vbk;
     index_buffer_kb := NFloat ibk;
     bone_matrices_kb := NFloat bmk;
     total_gpu_memory_kb := NFloat total;
     meshes := meshes m;
     warnings := warnings m |}.

(** [metrics["warnings"].append(w)]. *)
Definition append_warning (w : string) (m : metrics) : metrics :=
  {| total_vertices := total_vertices m; total_faces := total_faces m;
     mesh_count := mesh_count m; node_count := node_count m;
     max_depth := max_depth m; material_count := material_count m;
     texture_count := texture_count m; memory_bytes := memory_bytes m;
     vertex_buffer_kb := vertex_buffer_kb m;
     index_buffer_kb := index_buffer_kb m;
     bone_matrices_kb := bone_matrices_kb m;
     total_gpu_memory_kb := total_gpu_memory_kb m;
     meshes := meshes m;
     warnings := (warnings m ++ [w])%list |}.

Definition initial_metrics : metrics :=
  {| total_vertices := 0; total_faces := 0; mesh_count := 0; node_count := 0;
     max_depth := 0; material_count := 0; texture_count := 0;
     memory_bytes := 0;
     vertex_buffer_kb := NInt 0; index_buffer_kb := NInt 0;
     bone_matrices_kb := NInt 0; total_gpu_memory_kb := NInt 0;
     meshes := []; warnings := [] |}.

(** ** [parse_assimp_info] *)

(** One turn of the loop over [patterns.items()]. *)
Definition scan_scalar (output : string) (m : metrics) (key : scalar_key)
  : result metrics :=
  match Re.search_label (label_of key) output with
  | Some ds => let* v := int_of_str ds in Ok (set_scalar key v m)
  | None => Ok m
  end.

Definition scan_scalars (output : string) (m : metrics) : result metrics :=
  for_each (scan_scalar output) patterns m.

(** What one turn of the loop over the lines of the mesh section appends:
    nothing for a line the pattern does not match. *)
Definition mesh_of_line (line : string) : result (option mesh) :=
  match Re.match_mesh_line line with
  | Some (name, g2, g3, g4) =>
      let* vertices := int_of_str g2 in
      let* bones := int_of_str g3 in
      let* faces := int_of_str g4 in
      Ok (Some {| mesh_name := name;
                  mesh_vertices := vertices;
                  mesh_bones := bones;
                  mesh_faces := faces |})
  | None => Ok None
  end.

Definition mesh_breakdown (output : string) (m : metrics) : result metrics :=
  match Re.search_mesh_section output with
  | Some body =>
      for_each
        (fun acc line =>
           let* row := mesh_of_line line in
           Ok (match row with
               | Some entry => set_meshes (meshes acc ++ [entry])%list acc
               | None => acc
               end))
        (Text.split_on Text.newline (Text.strip body)) m
  | None => Ok m
  end.

(** The GPU memory estimates; each division can raise [OverflowError]. *)
Definition gpu_estimates (m : metrics) : result metrics :=
  let vb := total_vertices m * 64 in
  let ib := total_faces m * 3 * 4 in
  let bm := node_count m * 64 in
  let* vbk := Binary64.truediv vb 1024 in
  let* ibk := Binary64.truediv ib 1024 in
  let* bmk := Binary64.truediv bm 1024 in
  let* total := Binary64.truediv (vb + ib + bm) 1024 in
  Ok (set_estimates (Binary64.round_float vbk 2) (Binary64.round_float ibk 2)
        (Binary64.round_float bmk 2) (Binary64.round_float total 2) m).

Definition triangle_warning (faces : Z) : string :=
  "HIGH TRIANGLE COUNT: " ++ Text.str_of_int_grouped faces
  ++ " (budget: 15,000)".

Definition vertex_warning (vertices : Z) : string :=
  "HIGH VERTEX COUNT: " ++ Text.str_of_int_grouped vertices
  ++ " (budget: 20,000)".

Definition material_warning (materials : Z) : string :=
  "MANY MATERIALS: " ++ Text.str_of_int materials ++ " (budget: 5)".

Definition mesh_warning (count : Z) : string :=
  "MANY MESHES: " ++ Text.str_of_int count
  ++ " (may cause draw call overhead)".

Definition budget_warnings (m : metrics) : metrics :=
  let m := if 15000 <? total_faces m
           then append_warning (triangle_warning (total_faces m)) m else m in
  let m := if 20000 <? total_vertices m
           then append_warning (vertex_warning (total_vertices m)) m else m in
  let m := if 5 <? material_count m
           then append_warning (material_warning (material_count m)) m else m in
  let m := if 20 <? mesh_count m
           then append_warning (mesh_warning (mesh_count m)) m else m in
  m.

Definition parse_assimp_info (output : string) : result metrics :=
  let* m := scan_scalars output initial_metrics in
  let* m := mesh_breakdown output m in
  let* m := gpu_estimates m in
  Ok (budget_warnings m).

(** ** Paths

    An input file is given by its POSIX path relative to [AVATAR_DIR], as
    [pathlib] normalises it: components separated by single slashes. *)

Module Path.
Import Text.

Definition t : Type := string.

(** [p.parts]. *)
Definition parts (p : t) : list string := split_on "/" p.

(** [p.name]: the last component. *)
Definition name (p : t) : string := List.last (parts p) "".

(** [s.rfind(".")] as the number of characters before the last dot. *)
Fixpoint rfind_dot (s : string) : option nat :=
  match s with
  | "" => None
  | String c s' =>
      match rfind_dot s' with
      | Some i => Some (S i)
      | None => if Ascii.eqb c "." then Some O else None
      end
  end.

Fixpoint take (n : nat) (s : string) : string :=
  match n, s with
  | S k, String c s' => String c (take k s')
  | _, _ => ""
  end.

(** The stem of a file name: the name up to its last dot, unless that dot
    is the first or the last character (pathlib through Python 3.13). *)
Definition stem_of_name (nm : string) : string :=
  match rfind_dot nm with
  | Some i =>
      if (0 <? i)%nat && (i <? String.length nm - 1)%nat
      then take i nm else nm
  | None => nm
  end.

(** [p.stem]. *)
Definition stem (p : t) : string := stem_of_name (name p).

(** [p.relative_to(AVATAR_DIR).as_posix().lower()]. *)
Definition rel_lower (p : t) : string := lower p.

(** [Path(s).name] for any string [s]: the last of the components that
    are neither empty nor a single dot, and the empty string when there is
    none. *)
Definition name_of_str (s : string) : string :=
  List.last
    (List.filter
       (fun part => negb (String.eqb part "") && negb (String.eqb part "."))
       (split_on "/" s))
    "".

End Path.

Definition SKIP_PREFIXES : list string := ["cage_deformer/layered_clothing"].

Definition categorize (fbx_path : Path.t) : string :=
  let rel := Path.rel_lower fbx_path in
  if Text.startswith rel "rigs/" then "rigs"
  else if Text.startswith rel "cage_deformer/cube/" then "cage_deformers"
  else "clothing".

Definition should_skip (fbx_path : Path.t) : bool :=
  let rel := Path.rel_lower fbx_path in
  existsb (fun prefix => Text.startswith rel prefix) SKIP_PREFIXES.

Definition make_display_name (file_name : string) : string :=
  let name := Path.stem_of_name (Path.name_of_str file_name) in
  let name :=
    fold_left
      (fun name prefix =>
         match Text.strip_prefix prefix name with
         | Some rest => rest
         | None => name
         end)
      ["LCL_"; "LC_"] name in
  Text.replace_char "_" " " name.

(** ** The joint classifier's filter *)

(** The body of the loop over [all_names]: [name] is added unless one of
    the six tests sends the loop to its next turn. *)
Definition is_real_joint (name : string) : bool :=
  if Text.contains "AssimpFbx" name then false
  else if String.eqb name "RootNode" then false
  else if Text.endswith name "_Geo" then false
  else if Text.endswith name "_Att" then false
  else if Text.contains "/" name
          || Text.contains (String Text.backslash "") name then false
  else if String.eqb name "Texture" then false
  else true.

Definition all_names (stdout : string) : gset string :=
  list_to_set (Re.findall_nodes stdout).

Definition real_joints (names : gset string) : gset string :=
  set_fold
    (fun name acc => if is_real_joint name then {[name]} ∪ acc else acc)
    ∅ names.

(** The value [count_real_joints] returns for a dump that succeeded. *)
Definition count_names (stdout : string) : Z :=
  Z.of_nat (size (real_joints (all_names stdout))).

(** ** The dictionaries [main] reads and writes *)

(** The record [main] holds in [metrics]: a precomputed entry loaded from
    JSON, or what [analyze_fbx] returned.  A field is [None] when the key is
    absent.  Precomputed entries are taken to be metrics-shaped: a key that
    is present holds a value of the type [parse_assimp_info] would store. *)
Module Dict.
Record t : Type := {
  file_size_mb : option num;
  total_vertices : option Z;
  total_faces : option Z;
  mesh_count : option Z;
  node_count : option Z;
  real_joint_count : option Z;
  max_depth : option Z;
  material_count : option Z;
  texture_count : option Z;
  memory_bytes : option Z;
  total_gpu_memory_kb : option num;
  vertex_buffer_kb : option num;
  index_buffer_kb : option num;
  bone_matrices_kb : option num;
  meshes : option (list mesh);
  warnings : option (list string);
  error : option string
}.

(** The dictionary with the single key [error]. *)
Definition of_error (msg : string) : t :=
  {| file_size_mb := None; total_vertices := None; total_faces := None;
     mesh_count := None; node_count := None; real_joint_count := None;
     max_depth := None; material_count := None; texture_count := None;
     memory_bytes := None; total_gpu_memory_kb := None;
     vertex_buffer_kb := None; index_buffer_kb := None;
     bone_matrices_kb := None; meshes := None; warnings := None;
     error := Some msg |}.

(** [d.get(key, default)]. *)
Definition get {A : Type} (field : option A) (default : A) : A :=
  match field with
  | Some v => v
  | None => default
  end.
End Dict.

(** The parser's dictionary once [analyze_fbx] has stored [joints] under
    the key [real_joint_count]. *)
Definition dict_of_metrics (m : metrics) (joints : Z) : Dict.t :=
  {| Dict.file_size_mb := None;
     Dict.total_vertices := Some (total_vertices m);
     Dict.total_faces := Some (total_faces m);
     Dict.mesh_count := Some (mesh_count m);
     Dict.node_count := Some (node_count m);
     Dict.real_joint_count := Some joints;
     Dict.max_depth := Some (max_depth m);
     Dict.material_count := Some (material_count m);
     Dict.texture_count := Some (texture_count m);
     Dict.memory_bytes := Some (memory_bytes m);
     Dict.total_gpu_memory_kb := Some (total_gpu_memory_kb m);
     Dict.vertex_buffer_kb := Some (vertex_buffer_kb m);
     Dict.index_buffer_kb := Some (index_buffer_kb m);
     Dict.bone_matrices_kb := Some (bone_matrices_kb m);
     Dict.meshes := Some (meshes m);
     Dict.warnings := Some (warnings m);
     Dict.error := None |}.

(** One element of the manifest. *)
Module Entry.
Record t : Type := {
  id : string;
  name : string;
  file : string;
  category : string;
  file_size_mb : num;
  total_vertices : Z;
  total_faces : Z;
  mesh_count : Z;
  node_count : Z;
  real_joint_count : Z;
  max_depth : Z;
  material_count : Z;
  texture_count : Z;
  total_gpu_memory_kb : num;
  vertex_buffer_kb : num;
  index_buffer_kb : num;
  bone_matrices_kb : num;
  meshes : list mesh;
  warnings : list string
}.
End Entry.

(** ** The external tool and the state of a run *)

(** One [subprocess.run] of [assimp]. *)
Inductive call : Type :=
  | Export (src : Path.t) (dst : string)
  | Info (src : Path.t)
  | Dump (src : Path.t).

Record completed : Type := {
  returncode : Z;
  stdout : string;
  stderr : string
}.

(** What [subprocess.run] does: it returns a completed process, or raises
    (the timeout expired, the tool is missing); [msg] is the exception's
    text. *)
Inductive run_outcome : Type :=
  | Completed (r : completed)
  | RunRaised (msg : string).

(** The tool's answer may depend on everything run before. *)
Definition tool : Type := list call -> call -> run_outcome.

Record state : Type := {
  calls : list call;
  manifest : gmap string (list Entry.t);
  converted : Z;
  skipped : Z
}.

Definition M (A : Type) : Type := state -> A * state.

Definition ret {A : Type} (a : A) : M A := fun st => (a, st).

Definition bind {A B : Type} (m : M A) (k : A -> M B) : M B :=
  fun st => let '(a, st') := m st in k a st'.

Notation "x <- m ;; k" := (bind m (fun x => k))
  (at level 100, m at next level, right associativity).

Definition log_call (c : call) (st : state) : state :=
  {| calls := (calls st ++ [c])%list; manifest := manifest st;
     converted := converted st; skipped := skipped st |}.

Definition count_converted (st : state) : state :=
  {| calls := calls st; manifest := manifest st;
     converted := converted st + 1; skipped := skipped st |}.

Definition count_skipped (st : state) : state :=
  {| calls := calls st; manifest := manifest st;
     converted := converted st; skipped := skipped st + 1 |}.

(** [manifest[category].append(entry)]; [category] is always one of the
    three keys. *)
Definition append_entry (category : string) (e : Entry.t) (st : state)
  : state :=
  {| calls := calls st;
     manifest := alter (fun l => (l ++ [e])%list) category (manifest st);
     converted := converted st; skipped := skipped st |}.

Definition update (f : state -> state) : M unit := fun st => (tt, f st).

Definition joint_warning (joints : Z) : string :=
  "HIGH JOINT COUNT: " ++ Text.str_of_int joints ++ " (budget: 75)".

(** The comprehension that rebuilds the warnings: the strings without
    [BONE COUNT] in them, in a new list. *)
Definition kept_warnings (ws : list string) : list string :=
  List.filter (fun w => negb (Text.contains "BONE COUNT" w)) ws.

(** The warnings of an entry, from the upstream list and the joint count
    [main] settled on. *)
Definition rebuild_warnings (upstream : list string) (joints : Z)
  : list string :=
  let ws := kept_warnings upstream in
  if 75 <? joints then (ws ++ [joint_warning joints])%list else ws.

Definition build_entry (stem fname glb_rel category : string)
    (d : Dict.t) (joints : Z) : Entry.t :=
  {| Entry.id := stem;
     Entry.name := make_display_name fname;
     Entry.file := glb_rel;
     Entry.category := category;
     Entry.file_size_mb := py_round (Dict.get (Dict.file_size_mb d) (NInt 0)) 2;
     Entry.total_vertices := Dict.get (Dict.total_vertices d) 0;
     Entry.total_faces := Dict.get (Dict.total_faces d) 0;
     Entry.mesh_count := Dict.get (Dict.mesh_count d) 0;
     Entry.node_count := Dict.get (Dict.node_count d) 0;
     Entry.real_joint_count := joints;
     Entry.max_depth := Dict.get (Dict.max_depth d) 0;
     Entry.material_count := Dict.get (Dict.material_count d) 0;
     Entry.texture_count := Dict.get (Dict.texture_count d) 0;
     Entry.total_gpu_memory_kb :=
       py_round (Dict.get (Dict.total_gpu_memory_kb d) (NInt 0)) 1;
     Entry.vertex_buffer_kb :=
       py_round (Dict.get (Dict.vertex_buffer_kb d) (NInt 0)) 1;
     Entry.index_buffer_kb :=
       py_round (Dict.get (Dict.index_buffer_kb d) (NInt 0)) 1;
     Entry.bone_matrices_kb :=
       py_round (Dict.get (Dict.bone_matrices_kb d) (NInt 0)) 1;
     Entry.meshes := Dict.get (Dict.meshes d) [];
     Entry.warnings := rebuild_warnings (Dict.get (Dict.warnings d) []) joints |}.

(** A stable sort: each element goes behind the ones not above it. *)
Fixpoint insert_behind {A : Type} (leb : A -> A -> bool) (x : A) (l : list A)
  : list A :=
  match l with
  | [] => [x]
  | y :: l' => if leb y x then y :: insert_behind leb x l' else x :: l
  end.

Definition stable_sort {A : Type} (leb : A -> A -> bool) (l : list A)
  : list A :=
  fold_left (fun acc x => insert_behind leb x acc) l [].

(** The order of two paths: that of their lists of components. *)
Fixpoint parts_leb (a b : list string) : bool :=
  match a, b with
  | [], _ => true
  | _ :: _, [] => false
  | x :: a', y :: b' =>
      if String.eqb x y then parts_leb a' b' else String.leb x y
  end.

Section Run.

Variable assimp : tool.

(** [subprocess.run([ASSIMP, ...], capture_output=True, text=True,
    timeout=30)]. *)
Definition run (c : call) : M run_outcome :=
  fun st => (assimp (calls st) c, log_call c st).

Definition convert_fbx_to_glb (fbx_path : Path.t) (glb_path : string)
  : M bool :=
  out <- run (Export fbx_path glb_path) ;;
  ret (match out with
       | Completed r => returncode r =? 0
       | RunRaised _ => false
       end).

Definition count_real_joints (fbx_path : Path.t) : M Z :=
  out <- run (Dump fbx_path) ;;
  ret (match out with
       | Completed r =>
           if negb (returncode r =? 0) then -1
           else count_names (stdout r)
       | RunRaised _ => -1
       end).

Definition analyze_fbx (fbx_path : Path.t) : M Dict.t :=
  out <- run (Info fbx_path) ;;
  match out with
  | Completed r =>
      if negb (returncode r =? 0)
      then ret (Dict.of_error (Text.strip (stderr r)))
      else match parse_assimp_info (stdout r) with
           | Ok m =>
               joints <- count_real_joints fbx_path ;;
               ret (dict_of_metrics m joints)
           | Raise e => ret (Dict.of_error (exn_message e))
           end
  | RunRaised msg => ret (Dict.of_error msg)
  end.

(** [load_precomputed]: each data file is [None] when it does not exist,
    else its entries, each with its [file_name]. *)
Definition load_precomputed
    (files : list (option (list (string * Dict.t)))) : gmap string Dict.t :=
  fold_left
    (fun lookup data =>
       match data with
       | Some entries =>
           fold_left (fun lookup '(file_name, entry) =>
                        <[file_name := entry]> lookup) entries lookup
       | None => lookup
       end)
    files ∅.

(** The metrics of a converted file: precomputed or fresh analysis. *)
Definition select_metrics (precomputed : gmap string Dict.t)
    (fbx_path : Path.t) : M Dict.t :=
  match precomputed !! Path.name fbx_path with
  | Some d => ret d
  | None => analyze_fbx fbx_path
  end.

(** The joint count of an entry: the record's if it has one that is not
    negative, else a count made now. *)
Definition settle_joints (d : Dict.t) (fbx_path : Path.t) : M Z :=
  let real_joints := Dict.get (Dict.real_joint_count d) (-1) in
  if real_joints <? 0 then count_real_joints fbx_path
  else ret real_joints.

(** One turn of the loop over [unique_fbx]; the result is the entry the
    turn appended to the manifest, if it appended one. *)
Definition process_file (precomputed : gmap string Dict.t)
    (fbx_path : Path.t) : M (option Entry.t) :=
  if should_skip fbx_path then
    _ <- update count_skipped ;; ret None
  else
    let category := categorize fbx_path in
    let stem := Path.stem fbx_path in
    let glb_rel := "models/" ++ category ++ "/" ++ stem ++ ".glb" in
    ok <- convert_fbx_to_glb fbx_path glb_rel ;;
    if ok then
      _ <- update count_converted ;;
      let fname := Path.name fbx_path in
      d <- select_metrics precomputed fbx_path ;;
      real_joints <- settle_joints d fbx_path ;;
      let entry := build_entry stem fname glb_rel category d real_joints in
      _ <- update (append_entry category entry) ;;
      ret (Some entry)
    else ret None.

Fixpoint process_files (precomputed : gmap string Dict.t)
    (files : list Path.t) : M (list (option Entry.t)) :=
  match files with
  | [] => ret []
  | f :: rest =>
      e <- process_file precomputed f ;;
      es <- process_files precomputed rest ;;
      ret (e :: es)
  end.

(** The files to process: sorted, and one per resolved path. *)
Fixpoint dedup_resolved (resolve : Path.t -> string) (seen : gset string)
    (files : list Path.t) : list Path.t :=
  match files with
  | [] => []
  | f :: rest =>
      if decide (resolve f ∈ seen) then dedup_resolved resolve seen rest
      else f :: dedup_resolved resolve ({[resolve f]} ∪ seen) rest
  end.

Definition unique_fbx (resolve : Path.t -> string) (fbx_files : list Path.t)
  : list Path.t :=
  dedup_resolved resolve ∅
    (stable_sort (fun a b => parts_leb (Path.parts a) (Path.parts b))
       fbx_files).

Definition initial_state : state :=
  {| calls := [];
     manifest := {[ "rigs" := []; "clothing" := []; "cage_deformers" := [] ]};
     converted := 0; skipped := 0 |}.

Definition sort_manifest (st : state) : state :=
  {| calls := calls st;
     manifest :=
       stable_sort (fun a b => String.leb (Entry.name a) (Entry.name b))
         <$> manifest st;
     converted := converted st; skipped := skipped st |}.

(** [main], from the data files and the discovered paths to the state
    that holds the manifest as it is written. *)
Definition main (files : list (option (list (string * Dict.t))))
    (resolve : Path.t -> string) (fbx_files : list Path.t) : state :=
  let precomputed := load_precomputed files in
  let '(_, st) :=
    process_files precomputed (unique_fbx resolve fbx_files) initial_state in
  sort_manifest st.

End Run.

(** ** Notions the properties are stated with *)

(** [p] occurs in [s]; [s] ends with [p]. *)
Definition occurs_in (p s : string) : Prop :=
  exists a b : string, s = a ++ p ++ b.

Definition ends_with (s p : string) : Prop :=
  exists a : string, s = a ++ p.

(** A warning about the number of bones or joints, whichever of the two
    words it uses. *)
Definition is_joint_count_warning (w : string) : bool :=
  Text.contains "JOINT COUNT" w || Text.contains "BONE COUNT" w.

(** The value of a number. *)
Definition value_of (x : num) : Q :=
  match x with
  | NInt z => inject_Z z
  | NFloat q => q
  end.

(** The sum of the three per-buffer fields, rounded to one place, as a
    Python expression over the record's floats would compute it:
    [round(vertex_buffer_kb + index_buffer_kb + bone_matrices_kb, 1)]. *)
Definition rounded_sum_of_buffers (m : metrics) : option Q :=
  match Binary64.add (value_of (vertex_buffer_kb m))
                     (value_of (index_buffer_kb m)) with
  | Some s1 =>
      match Binary64.add s1 (value_of (bone_matrices_kb m)) with
      | Some s2 => Some (Binary64.round_float s2 1)
      | None => None
      end
  | None => None
  end.

(** A dump text that declares the nodes [names], one per line. *)
Definition node_line (name : string) : string :=
  Re.node_open ++ name ++ String Text.dquote ">" ++ Text.nl.

Definition dump_of (names : list string) : string :=
  fold_right (fun name rest => node_line name ++ rest) "" names.

(** A tool that always succeeds, with fixed outputs. *)
Definition fixed_tool (info_out dump_out : string) : tool :=
  fun _ c =>
    Completed {| returncode := 0;
                 stdout := match c with
                           | Export _ _ => ""
                           | Info _ => info_out
                           | Dump _ => dump_out
                           end;
                 stderr := "" |}.

(** A tool whose dump fails with a non-zero exit status. *)
Definition dump_failing_tool (info_out : string) : tool :=
  fun _ c =>
    match c with
    | Dump _ => Completed {| returncode := 1; stdout := ""; stderr := "" |}
    | Export _ _ => Completed {| returncode := 0; stdout := ""; stderr := "" |}
    | Info _ =>
        Completed {| returncode := 0; stdout := info_out; stderr := "" |}
    end.

(** A dictionary with no key. *)
Definition empty_dict : Dict.t :=
  {| Dict.file_size_mb := None; Dict.total_vertices := None;
     Dict.total_faces := None; Dict.mesh_count := None;
     Dict.node_count := None; Dict.real_joint_count := None;
     Dict.max_depth := None; Dict.material_count := None;
     Dict.texture_count := None; Dict.memory_bytes := None;
     Dict.total_gpu_memory_kb := None; Dict.vertex_buffer_kb := None;
     Dict.index_buffer_kb := None; Dict.bone_matrices_kb := None;
     Dict.meshes := None; Dict.warnings := None; Dict.error := None |}.

(** A precomputed entry that holds a joint count and a warning list. *)
Definition dict_with (joints : option Z) (ws : list string) : Dict.t :=
  {| Dict.file_size_mb := None; Dict.total_vertices := None;
     Dict.total_faces := None; Dict.mesh_count := None;
     Dict.node_count := None; Dict.real_joint_count := joints;
     Dict.max_depth := None; Dict.material_count := None;
     Dict.texture_count := None; Dict.memory_bytes := None;
     Dict.total_gpu_memory_kb := None; Dict.vertex_buffer_kb := None;
     Dict.index_buffer_kb := None; Dict.bone_matrices_kb := None;
     Dict.meshes := None; Dict.warnings := Some ws; Dict.error := None |}.

(** The warnings the four budget tests add, in the order of the tests. *)
Definition budget_list (m : metrics) : list string :=
  ((if 15000 <? total_faces m then [triangle_warning (total_faces m)] else [])
   ++ (if 20000 <? total_vertices m
       then [vertex_warning (total_vertices m)] else [])
   ++ (if 5 <? material_count m
       then [material_warning (material_count m)] else [])
   ++ (if 20 <? mesh_count m then [mesh_warning (mesh_count m)] else []))%list.

Definition scalar_key_eq_dec (a b : scalar_key) : {a = b} + {a <> b}.
Proof. decide equality. Defined.


(** The path [main] exports a file to: [glb_rel]. *)
Definition glb_rel_of (fbx_path : Path.t) : string :=
  "models/" ++ categorize fbx_path ++ "/" ++ Path.stem fbx_path ++ ".glb".

(** The dump of [fbx_path] failed in state [st]: [subprocess.run] raised,
    or the exit status is not zero. *)
Definition dump_fails (assimp : tool) (fbx_path : Path.t) (st : state)
  : Prop :=
  match assimp (calls st) (Dump fbx_path) with
  | Completed r => returncode r <> 0
  | RunRaised _ => True
  end.

(** The record has no joint count that [main] trusts. *)
Definition joints_untrusted (d : Dict.t) : Prop :=
  match Dict.real_joint_count d with
  | Some n => n < 0
  | None => True
  end.

(** ** Sample inputs *)

(** The diagnostic text of scenario A. *)
Definition scenario_A_text : string :=
  "Vertices: 25000" ++ Text.nl ++ "Faces: 16000" ++ Text.nl
  ++ "Materials: 6" ++ Text.nl.

(** The node names of scenario B. *)
Definition scenario_B_names : list string :=
  ["Hips"; "Hips_$AssimpFbxNull$_Translation"; "Mesh_Geo"; "RootNode";
   "clothing/tex.png"].

(** A text with eight faces and one node. *)
Definition small_scene_text : string :=
  "Nodes: 1" ++ Text.nl ++ "Faces: 8" ++ Text.nl.

(** Precomputed entries for a file [a.fbx]. *)
Definition stale_joint_entry : gmap string Dict.t :=
  {[ "a.fbx" := dict_with (Some 80) ["HIGH JOINT COUNT: 200 (budget: 75)"] ]}.

Definition stale_bone_entry : gmap string Dict.t :=
  {[ "a.fbx" := dict_with (Some 80)
                  ["HIGH BONE COUNT: 300 (budget: 75)";
                   "MANY MATERIALS: 6 (budget: 5)"] ]}.

Definition unknown_joint_entry : gmap string Dict.t :=
  {[ "a.fbx" := dict_with (Some (-1)) ["HIGH BONE COUNT: 300 (budget: 75)"] ]}.

(** The state of a turn once the export of [fbx_path] has succeeded and
    been counted. *)
Definition after_conversion (fbx_path : Path.t) (st : state) : state :=
  count_converted (log_call (Export fbx_path (glb_rel_of fbx_path)) st).

(** ** Notions for the properties of a whole run *)

(** The order [main] sorts a category by: the entries' display names. *)
Definition name_le (a b : Entry.t) : Prop :=
  String.leb (Entry.name a) (Entry.name b) = true.

Definition has_name (n : string) (e : Entry.t) : bool :=
  String.eqb (Entry.name e) n.

(** [s] is empty or starts with a character outside [f]. *)
Definition starts_outside (f : ascii -> bool) (s : string) : bool :=
  match s with
  | "" => true
  | String c _ => negb (f c)
  end.

(** [st'] is [st] after the runs [l] of the tool and nothing else. *)
Definition ran (st : state) (l : list call) (st' : state) : Prop :=
  calls st' = (calls st ++ l)%list /\ manifest st' = manifest st
  /\ converted st' = converted st /\ skipped st' = skipped st.

(** The analysis of [fbx_path] in state [st] ends in the dictionary that
    holds only an error: [subprocess.run] raised, the exit status is not
    zero, or the parser raised. *)
Definition info_fails (assimp : tool) (fbx_path : Path.t) (st : state)
  : Prop :=
  match assimp (calls st) (Info fbx_path) with
  | Completed r =>
      returncode r <> 0 \/ exists e, parse_assimp_info (stdout r) = Raise e
  | RunRaised _ => True
  end.

(** [e] is the entry of one of [files]: a file that is not skipped, with
    the id, display name, category and output path [main] gives it. *)
Definition entry_of (files : list Path.t) (e : Entry.t) : Prop :=
  exists fbx_path : Path.t,
    In fbx_path files /\ should_skip fbx_path = false
    /\ Entry.id e = Path.stem fbx_path
    /\ Entry.name e = make_display_name (Path.name fbx_path)
    /\ Entry.category e = categorize fbx_path
    /\ Entry.file e = glb_rel_of fbx_path.

(** [c] is a run of the tool on one of [files], a file that is not
    skipped: its export to its output path, its analysis or its dump. *)
Definition call_of (files : list Path.t) (c : call) : Prop :=
  exists fbx_path : Path.t,
    In fbx_path files /\ should_skip fbx_path = false
    /\ (c = Export fbx_path (glb_rel_of fbx_path) \/ c = Info fbx_path
        \/ c = Dump fbx_path).

(** The runs one turn of the loop can make for [fbx_path]. *)
Definition turn_patterns (fbx_path : Path.t) : list (list call) :=
  let E := Export fbx_path (glb_rel_of fbx_path) in
  let I := Info fbx_path in
  let D := Dump fbx_path in
  [[]; [E]; [E; D]; [E; I; D]; [E; I; D; D]].

(** The entries of [l] whose category is [cat]. *)
Definition in_category (cat : string) (l : list Entry.t) : list Entry.t :=
  List.filter (fun e => String.eqb (Entry.category e) cat) l.

(** The entries a run of the loop appended, in the order of the turns. *)
Definition appended (results : list (option Entry.t)) : list Entry.t :=
  omap id results.

(** The exports among the runs [l]: source and destination. *)
Definition exports (l : list call) : list (Path.t * string) :=
  omap (fun c => match c with
                 | Export src dst => Some (src, dst)
                 | _ => None
                 end) l.

(** The files of [files] that are not skipped. *)
Definition not_skipped (files : list Path.t) : list Path.t :=
  List.filter (fun f => negb (should_skip f)) files.

(** The state of the loop of [main] when it ends, before the sort. *)
Definition loop_end (assimp : tool)
    (files : list (option (list (string * Dict.t))))
    (resolve : Path.t -> string) (fbx_files : list Path.t) : state :=
  snd (process_files assimp (load_precomputed files)
         (unique_fbx resolve fbx_files) initial_state).

(** The characters of a rendered integer: digits, the thousands
    separator and the sign. *)
Definition is_number_char (c : ascii) : bool :=
  Text.is_digit c || Ascii.eqb c "," || Ascii.eqb c "-".

(** A character other than [c]. *)
Definition other_than (c : ascii) (d : ascii) : bool := negb (Ascii.eqb c d).

(** The mesh row a line denotes, when the mesh-line pattern matches it:
    the row [mesh_of_line] gives whenever it raises nothing. *)
Definition mesh_row (line : string) : option mesh :=
  match Re.match_mesh_line line with
  | Some (name, g2, g3, g4) =>
      Some {| mesh_name := name;
              mesh_vertices := Text.int_of_digits g2;
              mesh_bones := Text.int_of_digits g3;
              mesh_faces := Text.int_of_digits g4 |}
  | None => None
  end.

(** The rows of the mesh breakdown: the lines of the mesh section that
    the mesh-line pattern matches, in their order. *)
Definition mesh_rows (output : string) : list mesh :=
  match Re.search_mesh_section output with
  | Some body =>
      omap mesh_row (Text.split_on Text.newline (Text.strip body))
  | None => []
  end.

(** No count of a mesh row is negative. *)
Definition mesh_nonneg (r : mesh) : Prop :=
  0 <= mesh_vertices r /\ 0 <= mesh_bones r /\ 0 <= mesh_faces r.

(** The entries of the data files that exist, in the order in which
    [load_precomputed] reads them. *)
Definition loaded_entries (files : list (option (list (string * Dict.t))))
  : list (string * Dict.t) :=
  flat_map (fun data => match data with
                        | Some entries => entries
                        | None => []
                        end) files.

(** A run of white space, possibly empty. *)
Definition blank (s : string) : Prop :=
  Text.all_chars Text.is_space s = true.

(** The count that the first match of a metric's pattern denotes, and 0
    when the pattern has no match: the value the field has in every record
    that [parse_assimp_info] returns. *)
Definition stored_count (key : scalar_key) (output : string) : Z :=
  match Re.search_label (label_of key) output with
  | Some ds => Text.int_of_digits ds
  | None => 0
  end.

(** The first occurrence of the label of [key] in [output] is followed by
    optional white space and the decimal [n], and then by something other
    than a digit. *)
Definition reads (key : scalar_key) (n : Z) (output : string) : Prop :=
  0 <= n
  /\ exists pre ws rest : string,
       output = pre ++ label_of key ++ ws ++ Text.str_of_int n ++ rest
       /\ blank ws
       /\ starts_outside Text.is_digit rest = true
       /\ forall a b : string,
            output = a ++ label_of key ++ b ->
            (String.length pre <= String.length a)%nat.

(** [ds] is a run of digits of [output] that the parser converts: the
    capture of the first match of a scalar pattern, or one of the three
    counts of a line of the mesh section that the mesh-line pattern
    matches. *)
Definition scalar_capture (output ds : string) : Prop :=
  exists key : scalar_key, Re.search_label (label_of key) output = Some ds.

Definition mesh_capture (output ds : string) : Prop :=
  exists (body line name g2 g3 g4 : string),
    Re.search_mesh_section output = Some body
    /\ In line (Text.split_on Text.newline (Text.strip body))
    /\ Re.match_mesh_line line = Some (name, g2, g3, g4)
    /\ (ds = g2 \/ ds = g3 \/ ds = g4).

Definition captured (output ds : string) : Prop :=
  scalar_capture output ds \/ mesh_capture output ds.

(** The number of characters of [ds] is within the limit of [int]. *)
Definition within_limit (ds : string) : Prop :=
  Z.of_nat (String.length ds) <= max_str_digits.

(** ** Further sample inputs *)

(** A tool whose analysis fails with a non-zero exit status, while the
    export succeeds and the dump declares two joints. *)
Definition info_failing_tool : tool :=
  fun _ c =>
    match c with
    | Info _ =>
        Completed {| returncode := 1; stdout := ""; stderr := "no scene" |}
    | Export _ _ => Completed {| returncode := 0; stdout := ""; stderr := "" |}
    | Dump _ =>
        Completed {| returncode := 0; stdout := dump_of ["Hips"; "Spine"];
                     stderr := "" |}
    end.

(** A diagnostic text with one mesh row in its mesh section. *)
Definition cube_text : string :=
  "Nodes: 3" ++ Text.nl ++ "Meshes: 1" ++ Text.nl
  ++ "Vertices: 24" ++ Text.nl ++ "Faces: 12" ++ Text.nl
  ++ "Meshes:  (name) [vertices / bones / faces | primitive_types]" ++ Text.nl
  ++ "    0 (Cube): [24 / 0 / 12 | triangle]" ++ Text.nl
  ++ "Named Materials:" ++ Text.nl ++ "    Material" ++ Text.nl.

(** A vertex count of 401 digits, and no node count. *)
Fixpoint zeros (n : nat) : string :=
  match n with
  | O => ""
  | S k => String "0" (zeros k)
  end.

Definition huge_count_text : string :=
  "Vertices: 1" ++ zeros 400 ++ Text.nl.

(** A text with a line of the shape of a mesh row and no mesh section. *)
Definition stray_row_text : string :=
  "Vertices: 24" ++ Text.nl
  ++ "    0 (Cube): [24 / 0 / 12 | triangle]" ++ Text.nl.

(** Discovered files: two garments whose display names sort against the
    order of their paths, a rig and a skipped duplicate. *)
Definition sample_files : list Path.t :=
  ["clothing/LC_Shirt.fbx"; "clothing/LCL_Jacket.fbx"; "rigs/Hero.fbx";
   "cage_deformer/layered_clothing/Shirt.fbx"].

(** Two data files that both hold a record for [a.fbx]. *)
Definition sample_data : list (option (list (string * Dict.t))) :=
  [Some [("a.fbx", dict_with (Some 10) []); ("b.fbx", dict_with None [])];
   Some [("a.fbx", dict_with (Some 20) [])]].


(** * Lemmas *)

(** ** Strings *)

Section TextFacts.
Import Text.

Lemma append_nil_l (s : string) : "" ++ s = s.
Proof. reflexivity. Qed.

Lemma append_cons (c : ascii) (a b : string) :
  String c a ++ b = String c (a ++ b).
Proof. reflexivity. Qed.

Lemma append_assoc (a b c : string) : (a ++ b) ++ c = a ++ (b ++ c).
Proof.
  induction a as [|x a IH]; [reflexivity|].
  rewrite !append_cons. now rewrite IH.
Qed.

Lemma append_nil_r (a : string) : a ++ "" = a.
Proof.
  induction a as [|x a IH]; [reflexivity|].
  rewrite append_cons. now rewrite IH.
Qed.

Lemma strip_prefix_spec (p s r : string) :
  strip_prefix p s = Some r <-> s = p ++ r.
Proof.
  revert s; induction p as [|a p IH]; intros s.
  - rewrite append_nil_l. simpl.
    split; [intros [= ->] | intros ->]; reflexivity.
  - rewrite append_cons. destruct s as [|b s]; simpl.
    + split; discriminate.
    + destruct (Ascii.eqb_spec a b) as [->|Hne].
      * rewrite IH. split; [intros -> | intros [= ->]]; reflexivity.
      * split; [discriminate | intros [= E _]; congruence].
Qed.

Lemma strip_prefix_None (p s : string) :
  strip_prefix p s = None <-> forall r, s <> p ++ r.
Proof.
  split.
  - intros H r E. apply strip_prefix_spec in E. congruence.
  - intros H. destruct (strip_prefix p s) as [r|] eqn:E; [|reflexivity].
    apply strip_prefix_spec in E. now destruct (H r).
Qed.

Lemma contains_here (p s : string) :
  contains p s =
    match strip_prefix p s with
    | Some _ => true
    | None => match s with
              | "" => false
              | String _ s' => contains p s'
              end
    end.
Proof. destruct s; reflexivity. Qed.

Lemma contains_spec (p s : string) :
  contains p s = true <-> occurs_in p s.
Proof.
  induction s as [|c s IH]; rewrite contains_here;
    match goal with
    | |- context [strip_prefix p ?t] =>
        destruct (strip_prefix p t) as [r|] eqn:E
    end.
  - apply strip_prefix_spec in E. split; [|reflexivity].
    intros _. exists "", r. exact E.
  - split; [discriminate|]. intros (a & b & H).
    destruct a as [|x a]; [|discriminate].
    rewrite strip_prefix_None in E. now destruct (E b).
  - apply strip_prefix_spec in E. split; [|reflexivity].
    intros _. exists "", r. exact E.
  - rewrite IH. split.
    + intros (a & b & ->). now exists (String c a), b.
    + intros (a & b & H). destruct a as [|x a].
      * rewrite strip_prefix_None in E. now destruct (E b).
      * rewrite append_cons in H. injection H as _ ->. now exists a, b.
Qed.

Lemma endswith_here (s p : string) :
  endswith s p =
    if String.eqb s p then true
    else match s with
         | "" => false
         | String _ s' => endswith s' p
         end.
Proof. destruct s; reflexivity. Qed.

Lemma endswith_spec (s p : string) :
  endswith s p = true <-> ends_with s p.
Proof.
  induction s as [|c s IH]; rewrite endswith_here;
    match goal with
    | |- context [String.eqb ?t p] =>
        destruct (String.eqb_spec t p) as [<-|Hne]
    end.
  - split; [|reflexivity]. intros _. now exists "".
  - split; [discriminate|]. intros (a & H).
    destruct a; [now rewrite append_nil_l in H | discriminate].
  - split; [|reflexivity]. intros _. now exists "".
  - rewrite IH. split.
    + intros (a & ->). now exists (String c a).
    + intros (a & H). destruct a as [|x a].
      * now rewrite append_nil_l in H.
      * rewrite append_cons in H. injection H as _ ->. now exists a.
Qed.

End TextFacts.

(** ** The joint classifier *)

Lemma real_joints_spec (names : gset string) (x : string) :
  x ∈ real_joints names <-> x ∈ names /\ is_real_joint x = true.
Proof.
  unfold real_joints.
  apply (set_fold_ind_L
           (fun (acc names : gset string) =>
              x ∈ acc <-> x ∈ names /\ is_real_joint x = true)).
  - split; [intros H | intros [H _]]; now apply elem_of_empty in H.
  - intros y X acc Hy IH.
    destruct (is_real_joint y) eqn:Ey.
    + rewrite !elem_of_union, !elem_of_singleton, IH.
      split; [intros [->|[? ?]] | intros [[->|?] ?]]; auto.
    + rewrite elem_of_union, elem_of_singleton, IH.
      split; [intros [? ?] | intros [[->|?] ?]]; auto; congruence.
Qed.

Lemma real_joints_of_list (l : list string) :
  real_joints (list_to_set l) = list_to_set (List.filter is_real_joint l).
Proof.
  apply set_eq. intros x.
  rewrite real_joints_spec, !elem_of_list_to_set, !list_elem_of_In.
  now rewrite filter_In.
Qed.

Lemma size_of_list (l : list string) :
  size (list_to_set l : gset string) = length (remove_dups l).
Proof.
  rewrite <- (size_list_to_set (C := gset string) (remove_dups l))
    by apply NoDup_remove_dups.
  f_equal. apply set_eq. intros x.
  now rewrite !elem_of_list_to_set, elem_of_remove_dups.
Qed.

Lemma count_names_distinct (dump : string) :
  count_names dump =
    Z.of_nat
      (length (remove_dups (List.filter is_real_joint (Re.findall_nodes dump)))).
Proof.
  unfold count_names, all_names.
  now rewrite real_joints_of_list, size_of_list.
Qed.

Lemma count_names_same_set (d1 d2 : string) :
  (forall name, In name (Re.findall_nodes d1) <-> In name (Re.findall_nodes d2)) ->
  count_names d1 = count_names d2.
Proof.
  intros H. unfold count_names, all_names. do 3 f_equal.
  apply set_eq. intros x.
  now rewrite !elem_of_list_to_set, !list_elem_of_In.
Qed.

Lemma is_real_joint_spec (name : string) :
  is_real_joint name = true <->
    ~ occurs_in "AssimpFbx" name /\ name <> "RootNode"
    /\ ~ ends_with name "_Geo" /\ ~ ends_with name "_Att"
    /\ ~ occurs_in "/" name /\ ~ occurs_in (String Text.backslash "") name
    /\ name <> "Texture".
Proof.
  unfold is_real_joint.
  rewrite <- !contains_spec, <- !endswith_spec.
  destruct (Text.contains "AssimpFbx" name);
    [split; [discriminate | intros (H & _); now destruct H]|].
  destruct (String.eqb_spec name "RootNode") as [->|H1];
    [split; [discriminate | intros (_ & H & _); now destruct H]|].
  destruct (Text.endswith name "_Geo");
    [split; [discriminate | intros (_ & _ & H & _); now destruct H]|].
  destruct (Text.endswith name "_Att");
    [split; [discriminate | intros (_ & _ & _ & H & _); now destruct H]|].
  destruct (Text.contains "/" name);
    [split; [discriminate | intros (_ & _ & _ & _ & H & _); now destruct H]|].
  destruct (Text.contains (String Text.backslash "") name);
    [split; [discriminate | intros (_ & _ & _ & _ & _ & H & _); now destruct H]|].
  destruct (String.eqb_spec name "Texture") as [->|H2];
    [split; [discriminate | intros (_ & _ & _ & _ & _ & _ & H); now destruct H]|].
  simpl. split; [|reflexivity]. intros _.
  repeat split; auto; discriminate.
Qed.

Lemma count_real_joints_result (assimp : tool) (fbx : Path.t) (st : state) :
  count_real_joints assimp fbx st =
    (match assimp (calls st) (Dump fbx) with
     | Completed r =>
         if negb (returncode r =? 0) then -1 else count_names (stdout r)
     | RunRaised _ => -1
     end, log_call (Dump fbx) st).
Proof. reflexivity. Qed.

(** ** Binary64 rounding *)

Section Binary64Facts.
Import Binary64.
Local Open Scope Q_scope.

Lemma rhe_bounds (q : Q) :
  q - (1 # 2) <= inject_Z (rhe q) /\ inject_Z (rhe q) <= q + (1 # 2).
Proof.
  unfold rhe.
  pose proof (Qfloor_le q) as Hlo.
  pose proof (Qlt_floor q) as Hhi.
  rewrite inject_Z_plus in Hhi. change (inject_Z 1) with 1 in Hhi.
  destruct (Qcompare_spec (q - inject_Z (Qfloor q)) (1 # 2)) as [E|L|G].
  - destruct (Z.even (Qfloor q)).
    + split; lra.
    + rewrite inject_Z_plus. change (inject_Z 1) with 1. split; lra.
  - split; lra.
  - rewrite inject_Z_plus. change (inject_Z 1) with 1. split; lra.
Qed.

Lemma rhe_integer (z : Z) : rhe (inject_Z z) = z.
Proof.
  unfold rhe. rewrite Qfloor_Z.
  destruct (Qcompare_spec (inject_Z z - inject_Z z) (1 # 2)) as [E|L|G];
    [lra | reflexivity | lra].
Qed.

Lemma pow2_pos (e : Z) : 0 < pow2 e.
Proof. apply Qpower_0_lt. reflexivity. Qed.

Lemma pow2_le (a b : Z) : (a <= b)%Z -> pow2 a <= pow2 b.
Proof. intros H. apply Qpower_le_compat_l; [exact H | discriminate]. Qed.

Lemma pow2_lt_inv (a b : Z) : pow2 a < pow2 b -> (a < b)%Z.
Proof. intros H. apply (Qpower_lt_compat_l_inv 2); [exact H | reflexivity]. Qed.

Lemma pow2_of_Z (a : Z) : (0 <= a)%Z -> pow2 a == inject_Z (2 ^ a).
Proof. intros H. unfold pow2. now rewrite Zpower_Qpower. Qed.

(** The leading-bit exponent is a lower bound. *)
Lemma ilog2_le (q : Q) : 0 < q -> pow2 (ilog2 q) <= q.
Proof.
  intros Hq. unfold ilog2.
  destruct (Qle_bool _ q) eqn:E; [now apply Qle_bool_iff|].
  destruct q as [n d]. cbn [Qnum Qden] in *.
  assert (Hn : (0 < n)%Z).
  { unfold Qlt in Hq. simpl in Hq. lia. }
  set (a := Z.log2 n). set (b := Z.log2 (Z.pos d)).
  assert (Ha : (0 <= a)%Z) by apply Z.log2_nonneg.
  assert (Hb : (0 <= b)%Z) by apply Z.log2_nonneg.
  destruct (Z.log2_spec n Hn) as [Hn1 _]. fold a in Hn1.
  destruct (Z.log2_spec (Z.pos d) (Pos2Z.is_pos d)) as [_ Hd2]. fold b in Hd2.
  replace (a - b - 1)%Z with (a - (b + 1))%Z by lia.
  unfold pow2. rewrite Qpower_minus by discriminate.
  fold (pow2 a). fold (pow2 (b + 1)).
  rewrite (pow2_of_Z a), (pow2_of_Z (b + 1)) by lia.
  assert (HB : (0 < 2 ^ (b + 1))%Z) by (apply Z.pow_pos_nonneg; lia).
  assert (HA : (0 < 2 ^ a)%Z) by (apply Z.pow_pos_nonneg; lia).
  apply Qle_shift_div_r; [change 0 with (inject_Z 0); now rewrite <- Zlt_Qlt|].
  unfold Qle, Qmult, inject_Z. simpl.
  rewrite !Z.mul_1_r.
  rewrite Pos2Z.inj_mul. 
  nia.
Qed.

Lemma ilog2_lt (q : Q) (k : Z) : 0 < q -> q < pow2 k -> (ilog2 q < k)%Z.
Proof.
  intros Hq Hk. apply pow2_lt_inv.
  apply Qle_lt_trans with q; [now apply ilog2_le | exact Hk].
Qed.

Lemma pow2_succ (e : Z) : pow2 (e + 1) == 2 * pow2 e.
Proof.
  unfold pow2. rewrite Qpower_plus by discriminate.
  rewrite Qpower_1_r. ring.
Qed.

Lemma quantum_le (q : Q) (k : Z) :
  ~ q == 0 -> (-1021 <= k)%Z -> Qabs q < pow2 k ->
  (quantum q <= k - 53)%Z.
Proof.
  intros Hq Hk Hlt. unfold quantum.
  assert (0 < Qabs q).
  { pose proof (Qabs_nonneg q) as H0. apply Qle_lteq in H0.
    destruct H0 as [H|H]; [exact H|].
    exfalso. apply Hq. revert H.
    apply Qabs_case; intros; lra. }
  pose proof (ilog2_lt (Qabs q) k ltac:(assumption) Hlt). lia.
Qed.

(** Rounding to binary64 moves a number below 2^k by at most half the
    spacing there. *)
Lemma nearest_error (q : Q) (k : Z) :
  (-1021 <= k)%Z -> Qabs q < pow2 k ->
  Qabs (nearest q - q) <= pow2 (k - 54).
Proof.
  intros Hk Hlt. unfold nearest.
  destruct (Qeq_bool q 0) eqn:E.
  - apply Qeq_bool_eq in E.
    pose proof (pow2_pos (k - 54)).
    apply Qabs_Qle_condition. split; lra.
  - apply Qeq_bool_neq in E. rewrite Qred_correct.
    pose proof (quantum_le q k E Hk Hlt) as Hu.
    apply pow2_le in Hu.
    pose proof (pow2_pos (quantum q)) as Hpos.
    pose proof (pow2_pos (k - 54)) as Hpos'.
    pose proof (pow2_succ (k - 54)) as Hs.
    replace (k - 54 + 1)%Z with (k - 53)%Z in Hs by lia.
    set (u := pow2 (quantum q)) in *.
    destruct (rhe_bounds (q / u)) as [Hlo Hhi].
    set (r := inject_Z (rhe (q / u))) in *.
    assert (Hq : q == (q / u) * u) by (field; lra).
    set (y := q / u) in *.
    apply Qabs_Qle_condition. split.
    + assert ((y - (1 # 2)) * u <= r * u)
        by (apply Qmult_le_compat_r; lra).
      lra.
    + assert (r * u <= (y + (1 # 2)) * u)
        by (apply Qmult_le_compat_r; lra).
      lra.
Qed.

End Binary64Facts.

(** ** The scalar fields of the parser *)

Section ParserFacts.
Import Text.

Lemma span_all (f : ascii -> bool) (s : string) :
  all_chars f (fst (span f s)) = true.
Proof.
  induction s as [|c s IH]; simpl; [reflexivity|].
  destruct (f c) eqn:E; [|reflexivity].
  destruct (span f s) as [a b]. simpl in *. now rewrite E, IH.
Qed.

Lemma digit_value_range (c : ascii) :
  is_digit c = true -> 0 <= digit_value c <= 9.
Proof. unfold is_digit, digit_value. lia. Qed.

Lemma int_of_digits_from_nonneg (ds : string) (acc : Z) :
  all_chars is_digit ds = true -> 0 <= acc -> 0 <= int_of_digits_from acc ds.
Proof.
  revert acc; induction ds as [|c ds IH]; intros acc H Hacc; simpl in *;
    [exact Hacc|].
  apply andb_prop in H as [Hc Hds].
  apply IH; [exact Hds|]. pose proof (digit_value_range c Hc). lia.
Qed.

Lemma match_label_digits (label s ds : string) :
  Re.match_label label s = Some ds -> all_chars is_digit ds = true.
Proof.
  unfold Re.match_label. destruct (strip_prefix label s) as [rest|]; [|discriminate].
  pose proof (span_all is_digit (drop_while is_space rest)) as H.
  destruct (fst (span is_digit (drop_while is_space rest))); [discriminate|].
  now intros [= <-].
Qed.

Lemma match_label_occurs (label s ds : string) :
  Re.match_label label s = Some ds -> exists rest, s = label ++ rest.
Proof.
  unfold Re.match_label.
  destruct (strip_prefix label s) as [rest|] eqn:E; [|discriminate].
  intros _. exists rest. now apply strip_prefix_spec.
Qed.

Lemma search_label_here (label s : string) :
  Re.search_label label s =
    match Re.match_label label s with
    | Some ds => Some ds
    | None => match s with
              | "" => None
              | String _ s' => Re.search_label label s'
              end
    end.
Proof. destruct s; reflexivity. Qed.

Lemma search_label_digits (label s ds : string) :
  Re.search_label label s = Some ds -> all_chars is_digit ds = true.
Proof.
  induction s as [|c s IH]; rewrite search_label_here;
    destruct (Re.match_label label _) as [d|] eqn:E;
    try discriminate; try (intros [= <-]; eapply match_label_digits; eassumption).
  exact IH.
Qed.

(** A pattern matches only where its label stands in the text. *)
Lemma search_label_occurs (label s ds : string) :
  Re.search_label label s = Some ds -> occurs_in label s.
Proof.
  induction s as [|c s IH]; rewrite search_label_here;
    destruct (Re.match_label label _) as [d|] eqn:E;
    try discriminate.
  - intros _. apply match_label_occurs in E as [rest ->]. now exists "", rest.
  - intros _. apply match_label_occurs in E as [rest ->]. now exists "", rest.
  - intros H. destruct (IH H) as (a & b & ->). now exists (String c a), b.
Qed.

Lemma search_label_absent (label s : string) :
  contains label s = false -> Re.search_label label s = None.
Proof.
  intros H. destruct (Re.search_label label s) as [ds|] eqn:E; [|reflexivity].
  apply search_label_occurs, contains_spec in E. congruence.
Qed.

Lemma search_label_nonneg (label s ds : string) :
  Re.search_label label s = Some ds -> 0 <= int_of_digits ds.
Proof.
  intros H. apply int_of_digits_from_nonneg; [|lia].
  eapply search_label_digits; eassumption.
Qed.

End ParserFacts.

Lemma get_set_same (key : scalar_key) (v : Z) (m : metrics) :
  get_scalar key (set_scalar key v m) = v.
Proof. destruct key; reflexivity. Qed.

Lemma get_set_other (key key' : scalar_key) (v : Z) (m : metrics) :
  key <> key' -> get_scalar key (set_scalar key' v m) = get_scalar key m.
Proof. destruct key, key'; intros H; try reflexivity; now destruct H. Qed.

(** ** Conversions and loops that can raise *)

Lemma int_of_str_Ok (ds : string) (v : Z) :
  int_of_str ds = Ok v -> v = Text.int_of_digits ds /\ within_limit ds.
Proof.
  unfold int_of_str, within_limit.
  destruct (Z.ltb_spec max_str_digits (Z.of_nat (String.length ds)));
    [discriminate|].
  intros [= <-]. now split.
Qed.

Lemma int_of_str_Raise (ds : string) (e : exn) :
  int_of_str ds = Raise e ->
  e = ValueError (String.length ds) /\ ~ within_limit ds.
Proof.
  unfold int_of_str, within_limit.
  destruct (Z.ltb_spec max_str_digits (Z.of_nat (String.length ds)));
    [|discriminate].
  intros [= <-]. split; [reflexivity | lia].
Qed.

Lemma int_of_str_within (ds : string) :
  within_limit ds -> int_of_str ds = Ok (Text.int_of_digits ds).
Proof.
  unfold int_of_str, within_limit. intros H.
  destruct (Z.ltb_spec max_str_digits (Z.of_nat (String.length ds)));
    [lia | reflexivity].
Qed.

Lemma int_of_str_beyond (ds : string) :
  ~ within_limit ds -> int_of_str ds = Raise (ValueError (String.length ds)).
Proof.
  unfold int_of_str, within_limit. intros H.
  destruct (Z.ltb_spec max_str_digits (Z.of_nat (String.length ds)));
    [reflexivity | lia].
Qed.

Lemma within_limit_dec (ds : string) : {within_limit ds} + {~ within_limit ds}.
Proof. apply Z_le_dec. Qed.

Section ForEachFacts.
Context {A B : Type}.
Variable body : B -> A -> result B.

Lemma for_each_Raise (l : list A) (b : B) (e : exn) :
  for_each body l b = Raise e ->
  exists b' x, In x l /\ body b' x = Raise e.
Proof.
  revert b. induction l as [|x l IH]; intros b; [discriminate|].
  cbn [for_each]. destruct (body b x) as [b1|e1] eqn:E; cbn [rbind].
  - intros H. destruct (IH b1 H) as (b' & y & Hy & Hb).
    exists b', y. split; [now right | exact Hb].
  - intros [= <-]. exists b, x. split; [now left | exact E].
Qed.

Lemma for_each_returns (l : list A) (b : B) :
  (forall b' x, In x l -> exists b'', body b' x = Ok b'') ->
  exists r, for_each body l b = Ok r.
Proof.
  revert b. induction l as [|x l IH]; intros b H; [now exists b|].
  cbn [for_each]. destruct (H b x (or_introl eq_refl)) as [b1 ->].
  cbn [rbind]. apply IH. intros b' y Hy. apply H. now right.
Qed.

Lemma for_each_inv (P : B -> Prop) (l : list A) (b r : B) :
  P b ->
  (forall b' x b'', In x l -> P b' -> body b' x = Ok b'' -> P b'') ->
  for_each body l b = Ok r -> P r.
Proof.
  revert b. induction l as [|x l IH]; intros b Hb Hstep.
  - now intros [= <-].
  - cbn [for_each]. destruct (body b x) as [b1|] eqn:E; [|discriminate].
    cbn [rbind]. apply IH.
    + apply (Hstep b x b1); [now left | exact Hb | exact E].
    + intros b' y b'' Hy. apply Hstep. now right.
Qed.

Lemma for_each_turns (l : list A) (b r : B) :
  for_each body l b = Ok r ->
  forall x, In x l -> exists b' b'', body b' x = Ok b''.
Proof.
  revert b. induction l as [|x l IH]; intros b; [intros _ y []|].
  cbn [for_each]. destruct (body b x) as [b1|] eqn:E; [|discriminate].
  cbn [rbind]. intros H y [<-|Hy]; [now exists b, b1 | now apply (IH b1)].
Qed.

End ForEachFacts.

(** ** The loop over the patterns *)

Lemma scan_scalar_Ok (output : string) (m m' : metrics) (key : scalar_key) :
  scan_scalar output m key = Ok m' ->
  m' = match Re.search_label (label_of key) output with
       | Some ds => set_scalar key (Text.int_of_digits ds) m
       | None => m
       end
  /\ forall ds, Re.search_label (label_of key) output = Some ds ->
                within_limit ds.
Proof.
  unfold scan_scalar.
  destruct (Re.search_label (label_of key) output) as [ds|].
  - destruct (int_of_str ds) as [v|] eqn:E; [|discriminate].
    cbn [rbind]. intros [= <-].
    apply int_of_str_Ok in E as [-> Hl].
    split; [reflexivity | now intros ? [= <-]].
  - intros [= <-]. split; [reflexivity | discriminate].
Qed.

Lemma scan_scalar_Raise (output : string) (m : metrics) (key : scalar_key)
    (e : exn) :
  scan_scalar output m key = Raise e ->
  exists ds, Re.search_label (label_of key) output = Some ds
             /\ ~ within_limit ds /\ e = ValueError (String.length ds).
Proof.
  unfold scan_scalar.
  destruct (Re.search_label (label_of key) output) as [ds|]; [|discriminate].
  destruct (int_of_str ds) as [v|e'] eqn:E; [discriminate|].
  cbn [rbind]. intros [= <-].
  apply int_of_str_Raise in E as [-> Hl]. now exists ds.
Qed.

Lemma scan_scalar_returns (output : string) (m : metrics) (key : scalar_key) :
  (forall ds, Re.search_label (label_of key) output = Some ds ->
              within_limit ds) ->
  exists m', scan_scalar output m key = Ok m'.
Proof.
  intros H. unfold scan_scalar.
  destruct (Re.search_label (label_of key) output) as [ds|]; [|now eexists].
  rewrite (int_of_str_within ds (H ds eq_refl)). cbn [rbind]. now eexists.
Qed.

(** What the loop over the patterns leaves under [key]. *)
Lemma get_scalar_scan_list (output : string) (key : scalar_key)
    (keys : list scalar_key) (m s : metrics) :
  NoDup keys ->
  for_each (scan_scalar output) keys m = Ok s ->
  get_scalar key s =
    if in_dec scalar_key_eq_dec key keys
    then match Re.search_label (label_of key) output with
         | Some ds => Text.int_of_digits ds
         | None => get_scalar key m
         end
    else get_scalar key m.
Proof.
  revert m; induction keys as [|k keys IH]; intros m Hnd;
    [now intros [= <-]|].
  apply NoDup_cons in Hnd as [Hk Hnd]. cbn [for_each].
  destruct (scan_scalar output m k) as [m1|] eqn:E1; [|discriminate].
  cbn [rbind]. intros Hs. rewrite (IH m1 Hnd Hs).
  apply scan_scalar_Ok in E1 as [-> _].
  destruct (in_dec scalar_key_eq_dec key keys) as [Hin|Hnin];
    destruct (in_dec scalar_key_eq_dec key (k :: keys)) as [Hin'|Hnin'].
  - assert (key <> k).
    { intros ->. apply Hk. now apply list_elem_of_In. }
    destruct (Re.search_label (label_of key) output); [reflexivity|].
    destruct (Re.search_label (label_of k) output); [|reflexivity].
    now apply get_set_other.
  - destruct Hnin'. now right.
  - destruct Hin' as [->|Hin']; [|contradiction].
    destruct (Re.search_label (label_of key) output); [|reflexivity].
    apply get_set_same.
  - destruct (Re.search_label (label_of k) output); [|reflexivity].
    apply get_set_other. intros ->. apply Hnin'. now left.
Qed.

Lemma patterns_NoDup : NoDup patterns.
Proof.
  unfold patterns. repeat (apply NoDup_cons; split;
    [rewrite list_elem_of_In; simpl; intuition discriminate|]).
  apply NoDup_nil. exact I.
Qed.

Lemma patterns_all (key : scalar_key) : In key patterns.
Proof. destruct key; simpl; tauto. Qed.

Lemma get_scalar_scan (output : string) (key : scalar_key) (s : metrics) :
  scan_scalars output initial_metrics = Ok s ->
  get_scalar key s = stored_count key output.
Proof.
  unfold scan_scalars, stored_count. intros H.
  rewrite (get_scalar_scan_list output key patterns initial_metrics s
             patterns_NoDup H).
  destruct (in_dec scalar_key_eq_dec key patterns) as [_|Hn].
  - destruct (Re.search_label (label_of key) output); [reflexivity|].
    destruct key; reflexivity.
  - destruct Hn. apply patterns_all.
Qed.

Lemma stored_count_nonneg (key : scalar_key) (output : string) :
  0 <= stored_count key output.
Proof.
  unfold stored_count.
  destruct (Re.search_label (label_of key) output) eqn:E; [|lia].
  eapply search_label_nonneg; eassumption.
Qed.

Lemma stored_count_absent (key : scalar_key) (output : string) :
  Text.contains (label_of key) output = false -> stored_count key output = 0.
Proof.
  intros H. unfold stored_count. now rewrite (search_label_absent _ _ H).
Qed.

Lemma scan_scalars_limits (output : string) (m s : metrics) :
  scan_scalars output m = Ok s ->
  forall ds, scalar_capture output ds -> within_limit ds.
Proof.
  intros H ds [key Hkey].
  destruct (for_each_turns _ _ _ _ H key (patterns_all key)) as (m1 & m2 & E).
  apply scan_scalar_Ok in E as [_ Hl]. now apply Hl.
Qed.

Lemma scan_scalars_returns (output : string) (m : metrics) :
  (forall ds, scalar_capture output ds -> within_limit ds) ->
  exists s, scan_scalars output m = Ok s.
Proof.
  intros H. apply for_each_returns. intros m1 key _.
  apply scan_scalar_returns. intros ds Hds. apply H. now exists key.
Qed.

Lemma scan_scalars_Raise (output : string) (m : metrics) (e : exn) :
  scan_scalars output m = Raise e ->
  exists ds, scalar_capture output ds /\ ~ within_limit ds
             /\ e = ValueError (String.length ds).
Proof.
  intros H. apply for_each_Raise in H as (m1 & key & _ & E).
  apply scan_scalar_Raise in E as (ds & Hds & Hl & ->).
  exists ds. split; [now exists key | now split].
Qed.

Lemma scan_scalars_rest (output : string) (m s : metrics) :
  scan_scalars output m = Ok s ->
  meshes s = meshes m /\ warnings s = warnings m.
Proof.
  apply (for_each_inv (scan_scalar output)
           (fun s => meshes s = meshes m /\ warnings s = warnings m)).
  - now split.
  - intros m1 key m2 _ [H1 H2] E. apply scan_scalar_Ok in E as [-> _].
    destruct (Re.search_label (label_of key) output); now split.
Qed.

(** ** The stages of the parser *)

Lemma mesh_of_line_Ok (line : string) (row : option mesh) :
  mesh_of_line line = Ok row ->
  row = mesh_row line
  /\ forall name g2 g3 g4,
       Re.match_mesh_line line = Some (name, g2, g3, g4) ->
       within_limit g2 /\ within_limit g3 /\ within_limit g4.
Proof.
  unfold mesh_of_line, mesh_row.
  destruct (Re.match_mesh_line line) as [[[[name g2] g3] g4]|].
  - destruct (int_of_str g2) as [v|] eqn:E2; [|discriminate].
    destruct (int_of_str g3) as [b|] eqn:E3; [|discriminate].
    destruct (int_of_str g4) as [f|] eqn:E4; [|discriminate].
    cbn [rbind]. intros [= <-].
    apply int_of_str_Ok in E2 as [-> H2].
    apply int_of_str_Ok in E3 as [-> H3].
    apply int_of_str_Ok in E4 as [-> H4].
    split; [reflexivity|]. now intros ? ? ? ? [= _ <- <- <-].
  - intros [= <-]. split; [reflexivity | discriminate].
Qed.

Lemma mesh_of_line_Raise (line : string) (e : exn) :
  mesh_of_line line = Raise e ->
  exists name g2 g3 g4 ds,
    Re.match_mesh_line line = Some (name, g2, g3, g4)
    /\ (ds = g2 \/ ds = g3 \/ ds = g4)
    /\ ~ within_limit ds /\ e = ValueError (String.length ds).
Proof.
  unfold mesh_of_line.
  destruct (Re.match_mesh_line line) as [[[[name g2] g3] g4]|];
    [|discriminate].
  destruct (int_of_str g2) as [v|e2] eqn:E2; cbn [rbind].
  - destruct (int_of_str g3) as [b|e3] eqn:E3; cbn [rbind].
    + destruct (int_of_str g4) as [f|e4] eqn:E4; cbn [rbind]; [discriminate|].
      intros [= <-]. apply int_of_str_Raise in E4 as [-> H].
      exists name, g2, g3, g4, g4. auto.
    + intros [= <-]. apply int_of_str_Raise in E3 as [-> H].
      exists name, g2, g3, g4, g3. auto.
  - intros [= <-]. apply int_of_str_Raise in E2 as [-> H].
    exists name, g2, g3, g4, g2. auto.
Qed.

Lemma mesh_of_line_returns (line : string) :
  (forall name g2 g3 g4,
     Re.match_mesh_line line = Some (name, g2, g3, g4) ->
     within_limit g2 /\ within_limit g3 /\ within_limit g4) ->
  mesh_of_line line = Ok (mesh_row line).
Proof.
  intros H. unfold mesh_of_line, mesh_row.
  destruct (Re.match_mesh_line line) as [[[[name g2] g3] g4]|];
    [|reflexivity].
  destruct (H name g2 g3 g4 eq_refl) as (H2 & H3 & H4).
  now rewrite (int_of_str_within g2 H2), (int_of_str_within g3 H3),
    (int_of_str_within g4 H4).
Qed.

Lemma omap_mesh_row_cons (line : string) (lines : list string) :
  omap mesh_row (line :: lines)
  = match mesh_row line with
    | Some row => row :: omap mesh_row lines
    | None => omap mesh_row lines
    end.
Proof. reflexivity. Qed.

(** What the loop over the lines of the mesh section leaves. *)
Lemma mesh_lines_Ok (lines : list string) (m m' : metrics) :
  for_each
    (fun acc line =>
       let* row := mesh_of_line line in
       Ok (match row with
           | Some entry => set_meshes (meshes acc ++ [entry])%list acc
           | None => acc
           end)) lines m = Ok m' ->
  meshes m' = (meshes m ++ omap mesh_row lines)%list
  /\ (forall key, get_scalar key m' = get_scalar key m)
  /\ warnings m' = warnings m.
Proof.
  revert m. induction lines as [|line lines IH]; intros m.
  - intros [= <-]. cbn. now rewrite app_nil_r.
  - cbn [for_each]. destruct (mesh_of_line line) as [row|] eqn:E;
      [|discriminate].
    cbn [rbind]. intros H. apply IH in H as (H1 & H2 & H3).
    apply mesh_of_line_Ok in E as [-> _].
    rewrite omap_mesh_row_cons.
    destruct (mesh_row line) as [row|].
    + cbn [set_meshes meshes warnings] in H1, H3.
      split; [now rewrite H1, <- app_assoc|]. split; [|exact H3].
      intros key. rewrite H2. destruct key; reflexivity.
    + now split.
Qed.

Lemma mesh_breakdown_Ok (output : string) (m m' : metrics) :
  mesh_breakdown output m = Ok m' ->
  meshes m' = (meshes m ++ mesh_rows output)%list
  /\ (forall key, get_scalar key m' = get_scalar key m)
  /\ warnings m' = warnings m
  /\ forall ds, mesh_capture output ds -> within_limit ds.
Proof.
  unfold mesh_breakdown, mesh_rows, mesh_capture.
  destruct (Re.search_mesh_section output) as [body|].
  - intros H. destruct (mesh_lines_Ok _ m m' H) as (H1 & H2 & H3).
    split; [exact H1|]. split; [exact H2|]. split; [exact H3|].
    intros ds (body' & line & name & g2 & g3 & g4 & [= <-] & Hin & Hm & Hds).
    destruct (for_each_turns _ _ _ _ H line Hin) as (a1 & a2 & E).
    destruct (mesh_of_line line) as [row|] eqn:El; [|discriminate].
    apply mesh_of_line_Ok in El as [_ Hl].
    destruct (Hl name g2 g3 g4 Hm) as (L2 & L3 & L4).
    destruct Hds as [-> | [-> | ->]]; assumption.
  - intros [= <-]. rewrite app_nil_r.
    split; [reflexivity|]. split; [reflexivity|]. split; [reflexivity|].
    intros ds (body' & line & name & g2 & g3 & g4 & Hb & _). discriminate.
Qed.

Lemma mesh_breakdown_returns (output : string) (m : metrics) :
  (forall ds, mesh_capture output ds -> within_limit ds) ->
  exists m', mesh_breakdown output m = Ok m'.
Proof.
  intros H. unfold mesh_breakdown.
  destruct (Re.search_mesh_section output) as [body|] eqn:Eb; [|now eexists].
  apply for_each_returns. intros acc line Hin.
  rewrite mesh_of_line_returns; [cbn [rbind]; now eexists|].
  intros name g2 g3 g4 Hm.
  repeat split; apply H; exists body, line, name, g2, g3, g4;
    (split; [exact Eb|]); (split; [exact Hin|]); (split; [exact Hm|]); auto.
Qed.

Lemma mesh_breakdown_Raise (output : string) (m : metrics) (e : exn) :
  mesh_breakdown output m = Raise e ->
  exists ds, mesh_capture output ds /\ ~ within_limit ds
             /\ e = ValueError (String.length ds).
Proof.
  unfold mesh_breakdown.
  destruct (Re.search_mesh_section output) as [body|] eqn:Eb; [|discriminate].
  intros H. apply for_each_Raise in H as (acc & line & Hin & E).
  destruct (mesh_of_line line) as [row|e'] eqn:El; [discriminate|].
  cbn [rbind] in E. injection E as ->.
  apply mesh_of_line_Raise in El as (name & g2 & g3 & g4 & ds & Hm & Hds & Hl & ->).
  exists ds. split; [|now split].
  exists body, line, name, g2, g3, g4.
  split; [exact Eb|]. split; [exact Hin|]. now split.
Qed.

Lemma gpu_estimates_Ok (m m' : metrics) :
  gpu_estimates m = Ok m' ->
  exists vbk ibk bmk total : Q,
    Binary64.truediv (total_vertices m * 64) 1024 = Ok vbk
    /\ Binary64.truediv (total_faces m * 3 * 4) 1024 = Ok ibk
    /\ Binary64.truediv (node_count m * 64) 1024 = Ok bmk
    /\ Binary64.truediv
         (total_vertices m * 64 + total_faces m * 3 * 4 + node_count m * 64)
         1024 = Ok total
    /\ m' = set_estimates (Binary64.round_float vbk 2)
              (Binary64.round_float ibk 2) (Binary64.round_float bmk 2)
              (Binary64.round_float total 2) m.
Proof.
  unfold gpu_estimates.
  destruct (Binary64.truediv (total_vertices m * 64) 1024) as [vbk|];
    [|discriminate].
  destruct (Binary64.truediv (total_faces m * 3 * 4) 1024) as [ibk|];
    [|discriminate].
  destruct (Binary64.truediv (node_count m * 64) 1024) as [bmk|];
    [|discriminate].
  destruct (Binary64.truediv
              (total_vertices m * 64 + total_faces m * 3 * 4 + node_count m * 64)
              1024) as [total|]; [|discriminate].
  cbn [rbind]. intros [= <-]. now exists vbk, ibk, bmk, total.
Qed.

Ltac metrics_fields :=
  cbn [append_warning set_estimates set_meshes total_vertices total_faces
       mesh_count node_count max_depth material_count texture_count
       memory_bytes vertex_buffer_kb index_buffer_kb bone_matrices_kb
       total_gpu_memory_kb meshes warnings].

(** The sixteen outcomes of the four budget tests on [m]. *)
Ltac budget_cases m :=
  unfold budget_warnings; cbv zeta;
  destruct (15000 <? total_faces m); metrics_fields;
  destruct (20000 <? total_vertices m); metrics_fields;
  destruct (5 <? material_count m); metrics_fields;
  destruct (20 <? mesh_count m); metrics_fields.

Lemma budget_warnings_scalar (key : scalar_key) (m : metrics) :
  get_scalar key (budget_warnings m) = get_scalar key m.
Proof.
  budget_cases m; destruct key; reflexivity.
Qed.

Lemma budget_warnings_estimates (m : metrics) :
  vertex_buffer_kb (budget_warnings m) = vertex_buffer_kb m
  /\ index_buffer_kb (budget_warnings m) = index_buffer_kb m
  /\ bone_matrices_kb (budget_warnings m) = bone_matrices_kb m
  /\ total_gpu_memory_kb (budget_warnings m) = total_gpu_memory_kb m.
Proof.
  budget_cases m; repeat split.
Qed.

Lemma budget_warnings_list (m : metrics) :
  warnings (budget_warnings m) = (warnings m ++ budget_list m)%list.
Proof.
  unfold budget_list. budget_cases m; cbn [app];
    rewrite <- ?app_assoc; cbn [app]; rewrite ?app_nil_r; reflexivity.
Qed.

Lemma budget_list_scalars (a b : metrics) :
  (forall key, get_scalar key a = get_scalar key b) ->
  budget_list a = budget_list b.
Proof.
  intros H. unfold budget_list.
  pose proof (H KTotalFaces) as Hf. pose proof (H KTotalVertices) as Hv.
  pose proof (H KMaterialCount) as Hm. pose proof (H KMeshCount) as Hc.
  cbn [get_scalar] in Hf, Hv, Hm, Hc. now rewrite Hf, Hv, Hm, Hc.
Qed.

Lemma budget_warnings_meshes (m : metrics) :
  meshes (budget_warnings m) = meshes m.
Proof. budget_cases m; reflexivity. Qed.

(** The three stages a returned record went through. *)
Lemma parse_assimp_info_stages (output : string) (m : metrics) :
  parse_assimp_info output = Ok m ->
  exists s m0 m1,
    scan_scalars output initial_metrics = Ok s
    /\ mesh_breakdown output s = Ok m0
    /\ gpu_estimates m0 = Ok m1
    /\ m = budget_warnings m1.
Proof.
  unfold parse_assimp_info. intros H.
  destruct (scan_scalars output initial_metrics) as [s|] eqn:Hs;
    [|discriminate].
  cbn [rbind] in H.
  destruct (mesh_breakdown output s) as [m0|] eqn:Hm0; [|discriminate].
  cbn [rbind] in H.
  destruct (gpu_estimates m0) as [m1|] eqn:Hg; [|discriminate].
  cbn [rbind] in H. injection H as <-. now exists s, m0, m1.
Qed.

(** What a returned record holds. *)
Lemma parse_assimp_info_Ok (output : string) (m : metrics) :
  parse_assimp_info output = Ok m ->
  (forall key, get_scalar key m = stored_count key output)
  /\ warnings m = budget_list m
  /\ exists vbk ibk bmk total : Q,
       Binary64.truediv (total_vertices m * 64) 1024 = Ok vbk
       /\ Binary64.truediv (total_faces m * 3 * 4) 1024 = Ok ibk
       /\ Binary64.truediv (node_count m * 64) 1024 = Ok bmk
       /\ Binary64.truediv
            (total_vertices m * 64 + total_faces m * 3 * 4 + node_count m * 64)
            1024 = Ok total
       /\ vertex_buffer_kb m = NFloat (Binary64.round_float vbk 2)
       /\ index_buffer_kb m = NFloat (Binary64.round_float ibk 2)
       /\ bone_matrices_kb m = NFloat (Binary64.round_float bmk 2)
       /\ total_gpu_memory_kb m = NFloat (Binary64.round_float total 2).
Proof.
  intros H.
  destruct (parse_assimp_info_stages output m H)
    as (s & m0 & m1' & Hs & Hm0 & E & ->).
  apply gpu_estimates_Ok in E as (vbk & ibk & bmk & total & Hv & Hi & Hb & Ht & ->).
  destruct (mesh_breakdown_Ok output s m0 Hm0) as (_ & Hk0 & Hw0 & _).
  destruct (scan_scalars_rest output initial_metrics s Hs) as (_ & Hws).
  assert (Hk : forall key, get_scalar key m0 = stored_count key output).
  { intros key. rewrite Hk0. now apply get_scalar_scan. }
  assert (Hw : warnings m0 = []) by (now rewrite Hw0, Hws).
  set (m1 := set_estimates _ _ _ _ m0).
  assert (Hk1 : forall key, get_scalar key (budget_warnings m1) = get_scalar key m0).
  { intros key. rewrite budget_warnings_scalar. destruct key; reflexivity. }
  pose proof (Hk1 KTotalVertices) as Ktv. pose proof (Hk1 KTotalFaces) as Ktf.
  pose proof (Hk1 KNodeCount) as Knc. cbn [get_scalar] in Ktv, Ktf, Knc.
  split; [|split].
  - intros key. now rewrite Hk1, Hk.
  - rewrite budget_warnings_list.
    rewrite (budget_list_scalars (budget_warnings m1) m1)
      by (intros key; apply budget_warnings_scalar).
    unfold m1 at 1. cbn [warnings set_estimates]. now rewrite Hw.
  - exists vbk, ibk, bmk, total. rewrite Ktv, Ktf, Knc.
    destruct (budget_warnings_estimates m1) as (-> & -> & -> & ->).
    repeat split; assumption.
Qed.

Lemma parse_assimp_info_meshes (output : string) (m : metrics) :
  parse_assimp_info output = Ok m -> meshes m = mesh_rows output.
Proof.
  intros H.
  destruct (parse_assimp_info_stages output m H)
    as (s & m0 & m1 & Hs & Hm0 & E & ->).
  apply gpu_estimates_Ok in E as (vbk & ibk & bmk & total & _ & _ & _ & _ & ->).
  rewrite budget_warnings_meshes. cbn [set_estimates meshes].
  destruct (mesh_breakdown_Ok output s m0 Hm0) as (-> & _).
  destruct (scan_scalars_rest output initial_metrics s Hs) as (-> & _).
  reflexivity.
Qed.

(** Every run of digits a returned record was built from is within the
    limit of [int]. *)
Lemma parse_assimp_info_limits (output : string) (m : metrics) :
  parse_assimp_info output = Ok m ->
  forall ds, captured output ds -> within_limit ds.
Proof.
  intros H.
  destruct (parse_assimp_info_stages output m H)
    as (s & m0 & m1 & Hs & Hm0 & _).
  intros ds [Hc|Hc].
  - now apply (scan_scalars_limits output initial_metrics s Hs).
  - destruct (mesh_breakdown_Ok output s m0 Hm0) as (_ & _ & _ & Hl).
    now apply Hl.
Qed.

(** ** The kilobyte estimates *)

Section EstimateFacts.
Import Binary64.
Local Open Scope Q_scope.

Lemma finite_of_bound (q : Q) :
  Qabs q < pow2 1023 -> finite (nearest q) = true.
Proof.
  intros Hq.
  pose proof (nearest_error q 1023 ltac:(lia) Hq) as He.
  change (1023 - 54)%Z with 969%Z in He.
  pose proof (pow2_le 969 1023 ltac:(lia)) as Hle.
  pose proof (pow2_succ 1023) as Hs. change (1023 + 1)%Z with 1024%Z in Hs.
  unfold finite.
  destruct (Qle_bool (pow2 1024) (Qabs (nearest q))) eqn:E; [|reflexivity].
  exfalso. apply Qle_bool_iff in E.
  set (P := pow2 1023) in *. set (P' := pow2 1024) in *.
  set (D := pow2 969) in *.
  apply Qabs_Qlt_condition in Hq. apply Qabs_Qle_condition in He.
  assert (Qabs (nearest q) < P'); [|lra].
  apply Qabs_Qlt_condition. split; lra.
Qed.

Lemma truediv_1024 (a : Z) :
  truediv a 1024 =
    if finite (nearest (inject_Z a / inject_Z 1024))
    then Ok (nearest (inject_Z a / inject_Z 1024))
    else Raise OverflowError.
Proof. reflexivity. Qed.

Lemma truediv_1024_raises (a : Z) (e : exn) :
  truediv a 1024 = Raise e -> e = OverflowError.
Proof.
  rewrite truediv_1024.
  destruct (finite _); [discriminate | now intros [= <-]].
Qed.

Lemma quotient_bounds (a : Z) (k : Z) :
  (0 <= a < 2 ^ k)%Z -> (0 <= k)%Z ->
  0 <= inject_Z a / inject_Z 1024
  /\ 1024 * (inject_Z a / inject_Z 1024) < pow2 k.
Proof.
  intros [Ha1 Ha2] Hk.
  assert (H0 : 0 <= inject_Z a).
  { change 0 with (inject_Z 0). now rewrite <- Zle_Qle. }
  assert (H1 : inject_Z a < pow2 k).
  { rewrite pow2_of_Z by exact Hk. now rewrite <- Zlt_Qlt. }
  change (inject_Z 1024) with 1024.
  set (x := inject_Z a) in *. set (P := pow2 k) in *.
  assert (Hx : x == (x / 1024) * 1024) by (field; lra).
  set (y := x / 1024) in *. split; lra.
Qed.

(** A quotient of a count below 2^1010 does not overflow. *)
Lemma truediv_1024_returns (a : Z) :
  (0 <= a < 2 ^ 1010)%Z -> exists x, truediv a 1024 = Ok x.
Proof.
  intros Ha. rewrite truediv_1024.
  destruct (quotient_bounds a 1010 Ha ltac:(lia)) as [H0 H1].
  pose proof (pow2_le 1010 1023 ltac:(lia)) as Hle.
  rewrite finite_of_bound; [eauto|].
  apply Qabs_Qlt_condition.
  pose proof (pow2_pos 1023).
  set (P := pow2 1023) in *. set (P' := pow2 1010) in *. split; lra.
Qed.

Lemma pow2_32 : pow2 32 == 4294967296.
Proof. reflexivity. Qed.

Lemma pow2_m22 : pow2 (-22) == 1 # 4194304.
Proof. reflexivity. Qed.

(** Binary64 rounding of a number below 2^32 in magnitude. *)
Lemma nearest_close32 (q : Q) :
  - (4294967296) < q -> q < 4294967296 ->
  q - (1 # 4194304) <= nearest q /\ nearest q <= q + (1 # 4194304)
  /\ finite (nearest q) = true.
Proof.
  intros Hlo Hhi.
  assert (Hq : Qabs q < pow2 32).
  { rewrite pow2_32. apply Qabs_Qlt_condition. split; lra. }
  pose proof (nearest_error q 32 ltac:(lia) Hq) as He.
  change (32 - 54)%Z with (-22)%Z in He. rewrite pow2_m22 in He.
  apply Qabs_Qle_condition in He.
  repeat split; try lra.
  apply finite_of_bound.
  apply Qlt_le_trans with (pow2 32); [exact Hq | apply pow2_le; lia].
Qed.

Lemma decimal_round_2_close (x : Q) :
  x - (1 # 200) <= decimal_round 2 x /\ decimal_round 2 x <= x + (1 # 200).
Proof.
  unfold decimal_round.
  assert (Hs : 10 ^ 2 == 100) by reflexivity.
  destruct (rhe_bounds (x * 10 ^ 2)) as [Hlo Hhi].
  set (r := inject_Z (rhe (x * 10 ^ 2))) in *.
  assert (Hr : r == (r / 10 ^ 2) * 10 ^ 2) by (field; rewrite Hs; lra).
  set (y := r / 10 ^ 2) in *.
  rewrite Hs in Hr, Hlo, Hhi. split; lra.
Qed.

Lemma decimal_round_1_close (x : Q) :
  x - (1 # 20) <= decimal_round 1 x /\ decimal_round 1 x <= x + (1 # 20).
Proof.
  unfold decimal_round.
  assert (Hs : 10 ^ 1 == 10) by reflexivity.
  destruct (rhe_bounds (x * 10 ^ 1)) as [Hlo Hhi].
  set (r := inject_Z (rhe (x * 10 ^ 1))) in *.
  assert (Hr : r == (r / 10 ^ 1) * 10 ^ 1) by (field; rewrite Hs; lra).
  set (y := r / 10 ^ 1) in *.
  rewrite Hs in Hr, Hlo, Hhi. split; lra.
Qed.

(** The kilobyte value stored for a cost of [k] bytes. *)
Lemma stored_kb_close (k : Z) (x : Q) :
  (0 <= k < 2 ^ 41)%Z ->
  truediv k 1024 = Ok x ->
  inject_Z k / inject_Z 1024 - (501 # 100000) <= round_float x 2
  /\ round_float x 2 <= inject_Z k / inject_Z 1024 + (501 # 100000).
Proof.
  intros Hk Hx. rewrite truediv_1024 in Hx.
  destruct (quotient_bounds k 41 Hk ltac:(lia)) as [H0 H1].
  assert (H41 : pow2 41 == 2199023255552) by reflexivity.
  rewrite H41 in H1.
  set (q := inject_Z k / inject_Z 1024) in *.
  destruct (nearest_close32 q ltac:(lra) ltac:(lra)) as (A1 & A2 & A3).
  rewrite A3 in Hx. injection Hx as <-.
  unfold round_float.
  destruct (decimal_round_2_close (nearest q)) as [B1 B2].
  set (d := decimal_round 2 (nearest q)) in *.
  destruct (nearest_close32 d ltac:(lra) ltac:(lra)) as (C1 & C2 & _).
  split; lra.
Qed.

(** The stored total against the three stored values added up and
    rounded to one place. *)
Lemma total_against_rounded_sum (tv tf nc : Z) (vbk ibk bmk total : Q) :
  (0 <= tv < 2 ^ 32)%Z -> (0 <= tf < 2 ^ 32)%Z -> (0 <= nc < 2 ^ 32)%Z ->
  truediv (tv * 64) 1024 = Ok vbk ->
  truediv (tf * 3 * 4) 1024 = Ok ibk ->
  truediv (nc * 64) 1024 = Ok bmk ->
  truediv (tv * 64 + tf * 3 * 4 + nc * 64) 1024 = Ok total ->
  exists s1 s2 : Q,
    add (round_float vbk 2) (round_float ibk 2) = Some s1
    /\ add s1 (round_float bmk 2) = Some s2
    /\ Qabs (round_float total 2 - s2) <= 201 # 10000
    /\ Qabs (round_float total 2 - round_float s2 1) <= 701 # 10000.
Proof.
  intros Htv Htf Hnc Hv Hi Hb Ht.
  destruct (stored_kb_close (tv * 64) vbk ltac:(lia) Hv) as [V1 V2].
  destruct (stored_kb_close (tf * 3 * 4) ibk ltac:(lia) Hi) as [I1 I2].
  destruct (stored_kb_close (nc * 64) bmk ltac:(lia) Hb) as [B1 B2].
  destruct (stored_kb_close (tv * 64 + tf * 3 * 4 + nc * 64) total
              ltac:(lia) Ht) as [T1 T2].
  destruct (quotient_bounds (tv * 64) 38 ltac:(lia) ltac:(lia)) as [Xv0 Xv1].
  destruct (quotient_bounds (tf * 3 * 4) 38 ltac:(lia) ltac:(lia))
    as [Xi0 Xi1].
  destruct (quotient_bounds (nc * 64) 38 ltac:(lia) ltac:(lia)) as [Xb0 Xb1].
  assert (H38 : pow2 38 == 274877906944) by reflexivity.
  rewrite H38 in Xv1, Xi1, Xb1.
  assert (Hsum : inject_Z (tv * 64 + tf * 3 * 4 + nc * 64) / inject_Z 1024
                 == inject_Z (tv * 64) / inject_Z 1024
                    + inject_Z (tf * 3 * 4) / inject_Z 1024
                    + inject_Z (nc * 64) / inject_Z 1024).
  { rewrite !inject_Z_plus. field. }
  rewrite Hsum in T1, T2.
  set (xv := inject_Z (tv * 64) / inject_Z 1024) in *.
  set (xi := inject_Z (tf * 3 * 4) / inject_Z 1024) in *.
  set (xb := inject_Z (nc * 64) / inject_Z 1024) in *.
  set (V := round_float vbk 2) in *. set (I := round_float ibk 2) in *.
  set (B := round_float bmk 2) in *. set (T := round_float total 2) in *.
  destruct (nearest_close32 (V + I) ltac:(lra) ltac:(lra)) as (S1 & S2 & F1).
  set (s1 := nearest (V + I)) in *.
  destruct (nearest_close32 (s1 + B) ltac:(lra) ltac:(lra)) as (S3 & S4 & F2).
  set (s2 := nearest (s1 + B)) in *.
  exists s1, s2.
  split; [unfold add; cbv zeta; fold s1; now rewrite F1|].
  split; [unfold add; cbv zeta; fold s2; now rewrite F2|].
  unfold round_float.
  destruct (decimal_round_1_close s2) as [D1 D2].
  set (d := decimal_round 1 s2) in *.
  destruct (nearest_close32 d ltac:(lra) ltac:(lra)) as (R1 & R2 & _).
  split; apply Qabs_Qle_condition; split; lra.
Qed.

End EstimateFacts.

(** ** When the parser returns *)

Lemma gpu_estimates_raises (m : metrics) (e : exn) :
  gpu_estimates m = Raise e -> e = OverflowError.
Proof.
  unfold gpu_estimates.
  destruct (Binary64.truediv (total_vertices m * 64) 1024) eqn:E1;
    [|unfold rbind; intros Heq; inversion Heq; subst;
      eapply truediv_1024_raises; eassumption].
  destruct (Binary64.truediv (total_faces m * 3 * 4) 1024) eqn:E2;
    [|unfold rbind; intros Heq; inversion Heq; subst;
      eapply truediv_1024_raises; eassumption].
  destruct (Binary64.truediv (node_count m * 64) 1024) eqn:E3;
    [|unfold rbind; intros Heq; inversion Heq; subst;
      eapply truediv_1024_raises; eassumption].
  destruct (Binary64.truediv
              (total_vertices m * 64 + total_faces m * 3 * 4 + node_count m * 64)
              1024) eqn:E4;
    [|unfold rbind; intros Heq; inversion Heq; subst;
      eapply truediv_1024_raises; eassumption].
  discriminate.
Qed.

Lemma gpu_estimates_returns (m : metrics) :
  0 <= total_vertices m < 2 ^ 1000 ->
  0 <= total_faces m < 2 ^ 1000 ->
  0 <= node_count m < 2 ^ 1000 ->
  exists m', gpu_estimates m = Ok m'.
Proof.
  intros Hv Hf Hn. unfold gpu_estimates.
  destruct (truediv_1024_returns (total_vertices m * 64) ltac:(lia)) as [a ->].
  destruct (truediv_1024_returns (total_faces m * 3 * 4) ltac:(lia)) as [b ->].
  destruct (truediv_1024_returns (node_count m * 64) ltac:(lia)) as [c ->].
  destruct (truediv_1024_returns
              (total_vertices m * 64 + total_faces m * 3 * 4 + node_count m * 64)
              ltac:(lia)) as [d ->].
  cbn [rbind]. eauto.
Qed.

(** The parser returns a record when every run of digits it converts is
    within the limit of [int] and no count is astronomically large. *)
Lemma parse_assimp_info_returns (output : string) :
  (forall ds, captured output ds -> within_limit ds) ->
  (forall key, stored_count key output < 2 ^ 1000) ->
  exists m, parse_assimp_info output = Ok m.
Proof.
  intros Hl H. unfold parse_assimp_info.
  destruct (scan_scalars_returns output initial_metrics) as [s Hs].
  { intros ds Hds. apply Hl. now left. }
  rewrite Hs. cbn [rbind].
  destruct (mesh_breakdown_returns output s) as [m0 Hm0].
  { intros ds Hds. apply Hl. now right. }
  rewrite Hm0. cbn [rbind].
  destruct (mesh_breakdown_Ok output s m0 Hm0) as (_ & Hk & _).
  assert (Hc : forall key, get_scalar key m0 = stored_count key output).
  { intros key. rewrite Hk. now apply get_scalar_scan. }
  pose proof (Hc KTotalVertices) as Ev. pose proof (Hc KTotalFaces) as Ef.
  pose proof (Hc KNodeCount) as En. cbn [get_scalar] in Ev, Ef, En.
  destruct (gpu_estimates_returns m0) as [m' ->].
  - rewrite Ev. split; [apply stored_count_nonneg | apply H].
  - rewrite Ef. split; [apply stored_count_nonneg | apply H].
  - rewrite En. split; [apply stored_count_nonneg | apply H].
  - cbn [rbind]. eauto.
Qed.

(** The two ways the parser raises: a run of digits beyond the limit of
    [int], or a vertex, face or node count too large for the division. *)
Lemma parse_assimp_info_raises (output : string) (e : exn) :
  parse_assimp_info output = Raise e ->
  (exists ds, captured output ds /\ ~ within_limit ds
              /\ e = ValueError (String.length ds))
  \/ (e = OverflowError
      /\ exists key,
           Text.contains (label_of key) output = true
           /\ 2 ^ 1000 <= stored_count key output).
Proof.
  unfold parse_assimp_info.
  destruct (scan_scalars output initial_metrics) as [s|e1] eqn:Hs;
    cbn [rbind].
  2:{ intros [= <-]. left.
      apply scan_scalars_Raise in Hs as (ds & Hc & Hl & ->).
      exists ds. split; [now left | now split]. }
  destruct (mesh_breakdown output s) as [m0|e2] eqn:Hm0; cbn [rbind].
  2:{ intros [= <-]. left.
      apply mesh_breakdown_Raise in Hm0 as (ds & Hc & Hl & ->).
      exists ds. split; [now right | now split]. }
  destruct (gpu_estimates m0) as [m1|e3] eqn:E; cbn [rbind]; [discriminate|].
  intros [= <-]. right.
  split; [eapply gpu_estimates_raises; eassumption|].
  destruct (mesh_breakdown_Ok output s m0 Hm0) as (_ & Hk & _).
  assert (Hc : forall key, get_scalar key m0 = stored_count key output).
  { intros key. rewrite Hk. now apply get_scalar_scan. }
  pose proof (Hc KTotalVertices) as Ev. pose proof (Hc KTotalFaces) as Ef.
  pose proof (Hc KNodeCount) as En. cbn [get_scalar] in Ev, Ef, En.
  assert (Hex : exists key, 2 ^ 1000 <= stored_count key output).
  { destruct (Z_lt_dec (stored_count KTotalVertices output) (2 ^ 1000));
      [|exists KTotalVertices; lia].
    destruct (Z_lt_dec (stored_count KTotalFaces output) (2 ^ 1000));
      [|exists KTotalFaces; lia].
    destruct (Z_lt_dec (stored_count KNodeCount output) (2 ^ 1000));
      [|exists KNodeCount; lia].
    exfalso. destruct (gpu_estimates_returns m0) as [m' E'].
    - rewrite Ev. split; [apply stored_count_nonneg | assumption].
    - rewrite Ef. split; [apply stored_count_nonneg | assumption].
    - rewrite En. split; [apply stored_count_nonneg | assumption].
    - rewrite E' in E. discriminate. }
  destruct Hex as [key Hkey]. exists key. split; [|exact Hkey].
  destruct (Text.contains (label_of key) output) eqn:Ec; [reflexivity|].
  rewrite (stored_count_absent key output Ec) in Hkey.
  assert (0 < 2 ^ 1000) by (apply Z.pow_pos_nonneg; lia). lia.
Qed.

(** ** One turn of the main loop *)

Section LoopFacts.
Variable assimp : tool.

Lemma settle_joints_trusted (d : Dict.t) (fbx : Path.t) (st : state) (n : Z) :
  Dict.real_joint_count d = Some n -> 0 <= n ->
  settle_joints assimp d fbx st = (n, st).
Proof.
  intros Hd Hn. unfold settle_joints. rewrite Hd. cbn [Dict.get].
  destruct (Z.ltb_spec n 0); [lia | reflexivity].
Qed.

Lemma settle_joints_recount (d : Dict.t) (fbx : Path.t) (st : state) :
  joints_untrusted d ->
  settle_joints assimp d fbx st = count_real_joints assimp fbx st.
Proof.
  unfold joints_untrusted, settle_joints.
  destruct (Dict.real_joint_count d) as [n|]; cbn [Dict.get].
  - intros Hn. destruct (Z.ltb_spec n 0); [reflexivity | lia].
  - reflexivity.
Qed.

Lemma joints_trusted_or_not (d : Dict.t) :
  (exists n, Dict.real_joint_count d = Some n /\ 0 <= n)
  \/ joints_untrusted d.
Proof.
  unfold joints_untrusted.
  destruct (Dict.real_joint_count d) as [n|]; [|now right].
  destruct (Z_lt_dec n 0); [now right | left; exists n; split; [reflexivity | lia]].
Qed.

Lemma count_names_nonneg (dump : string) : 0 <= count_names dump.
Proof. unfold count_names. lia. Qed.

Lemma count_real_joints_sentinel (fbx : Path.t) (st : state) :
  fst (count_real_joints assimp fbx st) = -1 <-> dump_fails assimp fbx st.
Proof.
  rewrite count_real_joints_result. cbn [fst]. unfold dump_fails.
  destruct (assimp (calls st) (Dump fbx)) as [r|msg]; [|tauto].
  destruct (Z.eqb_spec (returncode r) 0) as [E|E]; cbn [negb].
  - pose proof (count_names_nonneg (stdout r)). split; [lia | tauto].
  - tauto.
Qed.

Lemma select_metrics_precomputed (pre : gmap string Dict.t) (fbx : Path.t)
    (st : state) (d : Dict.t) :
  pre !! Path.name fbx = Some d ->
  select_metrics assimp pre fbx st = (d, st).
Proof. intros H. unfold select_metrics. now rewrite H. Qed.

Lemma select_metrics_fresh (pre : gmap string Dict.t) (fbx : Path.t)
    (st : state) :
  pre !! Path.name fbx = None ->
  select_metrics assimp pre fbx st = analyze_fbx assimp fbx st.
Proof. intros H. unfold select_metrics. now rewrite H. Qed.

(** What a turn that appended an entry did. *)
Lemma process_file_Some (pre : gmap string Dict.t) (fbx : Path.t)
    (st st' : state) (e : Entry.t) :
  process_file assimp pre fbx st = (Some e, st') ->
  should_skip fbx = false
  /\ fst (convert_fbx_to_glb assimp fbx (glb_rel_of fbx) st) = true
  /\ exists (d : Dict.t) (st2 : state) (joints : Z) (st3 : state),
       select_metrics assimp pre fbx
         (count_converted (log_call (Export fbx (glb_rel_of fbx)) st))
       = (d, st2)
       /\ settle_joints assimp d fbx st2 = (joints, st3)
       /\ e = build_entry (Path.stem fbx) (Path.name fbx) (glb_rel_of fbx)
                (categorize fbx) d joints
       /\ st' = append_entry (categorize fbx) e st3.
Proof.
  unfold process_file. fold (glb_rel_of fbx).
  destruct (should_skip fbx); [discriminate|].
  unfold bind at 1.
  destruct (convert_fbx_to_glb assimp fbx (glb_rel_of fbx) st) as [ok st0] eqn:Ec.
  assert (Hst0 : st0 = log_call (Export fbx (glb_rel_of fbx)) st).
  { unfold convert_fbx_to_glb, bind, run, ret in Ec. now injection Ec. }
  destruct ok; [|discriminate].
  unfold bind, update, ret.
  destruct (select_metrics assimp pre fbx (count_converted st0)) as [d st2] eqn:Es.
  destruct (settle_joints assimp d fbx st2) as [joints st3] eqn:Ej.
  intros [= <- <-]. subst st0.
  split; [reflexivity|]. split; [reflexivity|].
  now exists d, st2, joints, st3.
Qed.

Lemma build_entry_fields (stem fname glb category : string) (d : Dict.t)
    (joints : Z) :
  let e := build_entry stem fname glb category d joints in
  Entry.id e = stem /\ Entry.file e = glb /\ Entry.category e = category
  /\ Entry.real_joint_count e = joints
  /\ Entry.warnings e
     = rebuild_warnings (Dict.get (Dict.warnings d) []) joints.
Proof. cbv zeta. repeat split. Qed.

End LoopFacts.

(** ** The rebuilt warnings *)

Lemma kept_warnings_spec (ws : list string) (w : string) :
  In w (kept_warnings ws) <-> In w ws /\ ~ occurs_in "BONE COUNT" w.
Proof.
  unfold kept_warnings. rewrite filter_In, <- contains_spec.
  destruct (Text.contains "BONE COUNT" w); cbn [negb];
    intuition congruence.
Qed.

Lemma rebuild_warnings_app (upstream : list string) (joints : Z) :
  rebuild_warnings upstream joints =
    (kept_warnings upstream
     ++ (if 75 <? joints then [joint_warning joints] else []))%list.
Proof.
  unfold rebuild_warnings. destruct (75 <? joints); [reflexivity|].
  now rewrite app_nil_r.
Qed.

Lemma joint_warning_is_joint_count (joints : Z) :
  is_joint_count_warning (joint_warning joints) = true.
Proof.
  unfold is_joint_count_warning. apply orb_true_iff. left.
  apply contains_spec.
  exists "HIGH ", (": " ++ Text.str_of_int joints ++ " (budget: 75)").
  reflexivity.
Qed.

Lemma filter_none {A : Type} (f : A -> bool) (l : list A) :
  (forall x, In x l -> f x = false) -> List.filter f l = [].
Proof.
  induction l as [|x l IH]; intros H; [reflexivity|].
  cbn [List.filter]. rewrite (H x) by now left.
  apply IH. intros y Hy. apply H. now right.
Qed.

(** ** What a turn leaves in the state *)

Section StateFacts.
Variable assimp : tool.

Lemma count_real_joints_state (fbx : Path.t) (st : state) :
  snd (count_real_joints assimp fbx st) = log_call (Dump fbx) st.
Proof. reflexivity. Qed.

Lemma analyze_fbx_manifest (fbx : Path.t) (st : state) :
  manifest (snd (analyze_fbx assimp fbx st)) = manifest st.
Proof.
  unfold analyze_fbx, bind, run, ret.
  destruct (assimp (calls st) (Info fbx)) as [r|msg]; [|reflexivity].
  destruct (negb (returncode r =? 0)); [reflexivity|].
  destruct (parse_assimp_info (stdout r)); reflexivity.
Qed.

Lemma select_metrics_manifest (pre : gmap string Dict.t) (fbx : Path.t)
    (st : state) :
  manifest (snd (select_metrics assimp pre fbx st)) = manifest st.
Proof.
  unfold select_metrics.
  destruct (pre !! Path.name fbx); [reflexivity | apply analyze_fbx_manifest].
Qed.

Lemma settle_joints_manifest (d : Dict.t) (fbx : Path.t) (st : state) :
  manifest (snd (settle_joints assimp d fbx st)) = manifest st.
Proof.
  unfold settle_joints.
  destruct (Dict.get (Dict.real_joint_count d) (-1) <? 0); reflexivity.
Qed.

Lemma log_call_keeps (c c' : call) (st : state) :
  In c (calls st) -> In c (calls (log_call c' st)).
Proof. intros H. cbn [log_call calls]. apply in_or_app. now left. Qed.

Lemma analyze_fbx_keeps (c : call) (fbx : Path.t) (st : state) :
  In c (calls st) -> In c (calls (snd (analyze_fbx assimp fbx st))).
Proof.
  intros H. unfold analyze_fbx, bind, run, ret.
  destruct (assimp (calls st) (Info fbx)) as [r|msg];
    [|now apply log_call_keeps].
  destruct (negb (returncode r =? 0)); [now apply log_call_keeps|].
  destruct (parse_assimp_info (stdout r)); [|now apply log_call_keeps].
  cbn [snd count_real_joints]. unfold count_real_joints, bind, run, ret.
  cbn [snd]. now do 2 apply log_call_keeps.
Qed.

Lemma select_metrics_keeps (c : call) (pre : gmap string Dict.t)
    (fbx : Path.t) (st : state) :
  In c (calls st) -> In c (calls (snd (select_metrics assimp pre fbx st))).
Proof.
  intros H. unfold select_metrics.
  destruct (pre !! Path.name fbx); [exact H | now apply analyze_fbx_keeps].
Qed.

Lemma settle_joints_keeps (c : call) (d : Dict.t) (fbx : Path.t)
    (st : state) :
  In c (calls st) -> In c (calls (snd (settle_joints assimp d fbx st))).
Proof.
  intros H. unfold settle_joints.
  destruct (Dict.get (Dict.real_joint_count d) (-1) <? 0); [|exact H].
  rewrite count_real_joints_state. now apply log_call_keeps.
Qed.

Lemma process_file_Some' (pre : gmap string Dict.t) (fbx : Path.t)
    (st st' : state) (e : Entry.t) :
  process_file assimp pre fbx st = (Some e, st') ->
  exists (d : Dict.t) (st2 : state) (joints : Z) (st3 : state),
    select_metrics assimp pre fbx (after_conversion fbx st) = (d, st2)
    /\ settle_joints assimp d fbx st2 = (joints, st3)
    /\ e = build_entry (Path.stem fbx) (Path.name fbx) (glb_rel_of fbx)
             (categorize fbx) d joints
    /\ st' = append_entry (categorize fbx) e st3.
Proof.
  intros H. now destruct (process_file_Some assimp pre fbx st st' e H)
    as (_ & _ & Hex).
Qed.

End StateFacts.

(** A turn that appended [e], as the pair of [e] and the state it left. *)
Lemma run_eta (r : option Entry.t * state) (e : Entry.t) :
  fst r = Some e -> r = (Some e, snd r).
Proof. intros H. rewrite <- H. apply surjective_pairing. Qed.
(** ** Texts written and read back *)

Lemma length_append (a b : string) :
  String.length (a ++ b) = (String.length a + String.length b)%nat.
Proof.
  induction a as [|c a IH]; [reflexivity|].
  rewrite append_cons. cbn [String.length]. now rewrite IH.
Qed.

Lemma strip_prefix_app (p r : string) :
  Text.strip_prefix p (p ++ r) = Some r.
Proof. now apply strip_prefix_spec. Qed.

Lemma uint_digits (d : Decimal.uint) :
  Text.all_chars Text.is_digit (NilEmpty.string_of_uint d) = true.
Proof. induction d; cbn [NilEmpty.string_of_uint Text.all_chars]; auto. Qed.

Lemma nz_uint_digits (d : Decimal.uint) :
  Text.all_chars Text.is_digit (NilZero.string_of_uint d) = true
  /\ NilZero.string_of_uint d <> "".
Proof.
  destruct d; cbn [NilZero.string_of_uint]; (split; [|discriminate]);
    try reflexivity; apply uint_digits.
Qed.

Lemma str_of_int_digits (n : Z) :
  0 <= n ->
  Text.all_chars Text.is_digit (Text.str_of_int n) = true
  /\ Text.str_of_int n <> "".
Proof.
  intros Hn. unfold Text.str_of_int.
  destruct n as [|p|p]; [| |lia]; apply nz_uint_digits.
Qed.

Lemma digit_not_space (c : ascii) :
  Text.is_digit c = true -> Text.is_space c = false.
Proof.
  unfold Text.is_digit, Text.is_space. intros H.
  apply andb_prop in H as [H1 H2].
  apply Z.leb_le in H1. apply Z.leb_le in H2.
  repeat (apply orb_false_iff; split);
    try (apply andb_false_iff;
         destruct (Z.leb_spec 9 (Text.code c)); [right; lia | now left]);
    try (apply andb_false_iff; right; lia);
    try (apply Z.eqb_neq; lia).
Qed.

Lemma space_not_digit (c : ascii) :
  Text.is_space c = true -> Text.is_digit c = false.
Proof.
  intros H. destruct (Text.is_digit c) eqn:E; [|reflexivity].
  apply digit_not_space in E. congruence.
Qed.

Lemma starts_outside_app (f : ascii -> bool) (a s : string) :
  a <> "" -> starts_outside f (a ++ s) = starts_outside f a.
Proof. destruct a; [contradiction|]. now rewrite append_cons. Qed.

Lemma digits_start_outside_space (ds s : string) :
  Text.all_chars Text.is_digit ds = true -> ds <> "" ->
  starts_outside Text.is_space (ds ++ s) = true.
Proof.
  intros H Hne. rewrite (starts_outside_app _ _ _ Hne).
  destruct ds as [|c ds]; [contradiction|].
  cbn [Text.all_chars] in H. apply andb_prop in H as [Hc _].
  cbn [starts_outside]. now rewrite (digit_not_space c Hc).
Qed.

Lemma blank_then_other (ws : string) (c : ascii) (s : string) :
  blank ws -> Text.is_digit c = false ->
  starts_outside Text.is_digit (ws ++ String c s) = true.
Proof.
  intros Hws Hc. destruct ws as [|d ws].
  - rewrite append_nil_l. cbn [starts_outside]. now rewrite Hc.
  - rewrite append_cons. cbn [starts_outside].
    unfold blank in Hws. cbn [Text.all_chars] in Hws.
    apply andb_prop in Hws as [Hd _]. now rewrite (space_not_digit d Hd).
Qed.

Lemma drop_while_run (f : ascii -> bool) (a s : string) :
  Text.all_chars f a = true -> starts_outside f s = true ->
  Text.drop_while f (a ++ s) = s.
Proof.
  intros Ha Hs. induction a as [|c a IH].
  - rewrite append_nil_l. destruct s as [|d s]; [reflexivity|].
    cbn [starts_outside] in Hs. cbn [Text.drop_while].
    now apply negb_true_iff in Hs as ->.
  - cbn [Text.all_chars] in Ha. apply andb_prop in Ha as [Hc Ha].
    rewrite append_cons. cbn [Text.drop_while]. rewrite Hc. now apply IH.
Qed.

Lemma span_run (f : ascii -> bool) (a s : string) :
  Text.all_chars f a = true -> starts_outside f s = true ->
  Text.span f (a ++ s) = (a, s).
Proof.
  intros Ha Hs. induction a as [|c a IH].
  - rewrite append_nil_l. destruct s as [|d s]; [reflexivity|].
    cbn [starts_outside] in Hs. cbn [Text.span].
    now apply negb_true_iff in Hs as ->.
  - cbn [Text.all_chars] in Ha. apply andb_prop in Ha as [Hc Ha].
    rewrite append_cons. cbn [Text.span]. now rewrite Hc, (IH Ha).
Qed.

Lemma digits1_run (ds s : string) :
  Text.all_chars Text.is_digit ds = true -> ds <> "" ->
  starts_outside Text.is_digit s = true ->
  Re.digits1 (ds ++ s) = Some (ds, s).
Proof.
  intros Hd Hne Hs. unfold Re.digits1. rewrite (span_run _ _ _ Hd Hs).
  now destruct ds.
Qed.

Lemma spaces1_run (ws s : string) :
  blank ws -> ws <> "" -> starts_outside Text.is_space s = true ->
  Re.spaces1 (ws ++ s) = Some s.
Proof.
  intros Hws Hne Hs. destruct ws as [|c ws]; [contradiction|].
  unfold blank in Hws. cbn [Text.all_chars] in Hws.
  apply andb_prop in Hws as [Hc Hws].
  rewrite append_cons. cbn [Re.spaces1]. rewrite Hc.
  now rewrite (drop_while_run _ _ _ Hws Hs).
Qed.

Lemma literal_char (c : ascii) (s : string) : String c "" ++ s = String c s.
Proof. reflexivity. Qed.

Lemma char1_here (c : ascii) (s : string) : Re.char1 c (String c s) = Some s.
Proof. cbn [Re.char1]. now rewrite Ascii.eqb_refl. Qed.

(** [int(str(n))] is [n]. *)
Lemma int_of_uint_acc (d : Decimal.uint) (acc : positive) :
  Text.int_of_digits_from (Zpos acc) (NilEmpty.string_of_uint d)
  = Zpos (Pos.of_uint_acc d acc).
Proof.
  revert acc. induction d; intros acc;
    cbn [NilEmpty.string_of_uint Text.int_of_digits_from Pos.of_uint_acc];
    try reflexivity;
    rewrite <- IHd; f_equal;
    match goal with
    | |- context [Text.digit_value ?c] =>
        let v := eval vm_compute in (Text.digit_value c) in
        change (Text.digit_value c) with v
    end; lia.
Qed.

Lemma int_of_uint (d : Decimal.uint) :
  Text.int_of_digits_from 0 (NilEmpty.string_of_uint d)
  = Z.of_N (Pos.of_uint d).
Proof.
  induction d;
    cbn [NilEmpty.string_of_uint Text.int_of_digits_from Pos.of_uint];
    try reflexivity; try exact IHd;
    match goal with
    | |- Text.int_of_digits_from ?a _ = Z.of_N (N.pos (Pos.of_uint_acc _ ?p)) =>
        change a with (Zpos p); apply int_of_uint_acc
    end.
Qed.

Lemma int_of_digits_str (n : Z) :
  0 <= n -> Text.int_of_digits (Text.str_of_int n) = n.
Proof.
  intros Hn. unfold Text.int_of_digits, Text.str_of_int.
  destruct n as [|p|p]; [reflexivity| |lia].
  cbn [Z.to_int NilZero.string_of_int].
  pose proof (DecimalPos.Unsigned.to_uint_nonnil p) as Hnil.
  assert (E : NilZero.string_of_uint (Pos.to_uint p)
              = NilEmpty.string_of_uint (Pos.to_uint p))
    by (destruct (Pos.to_uint p); [contradiction|..]; reflexivity).
  rewrite E, int_of_uint, DecimalPos.Unsigned.of_to. reflexivity.
Qed.

Lemma search_label_first (label pre tail : string) :
  (forall a b, pre ++ label ++ tail = a ++ label ++ b ->
               (String.length pre <= String.length a)%nat) ->
  Re.search_label label (pre ++ label ++ tail)
  = match Re.match_label label (label ++ tail) with
    | Some ds => Some ds
    | None => match label ++ tail with
              | "" => None
              | String _ s' => Re.search_label label s'
              end
    end.
Proof.
  induction pre as [|c pre IH]; intros H.
  - rewrite append_nil_l. apply search_label_here.
  - rewrite append_cons, search_label_here.
    assert (Hm : Re.match_label label (String c (pre ++ label ++ tail)) = None).
    { destruct (Re.match_label label (String c (pre ++ label ++ tail)))
        as [ds|] eqn:E; [|reflexivity].
      apply match_label_occurs in E as [b E].
      specialize (H "" b). rewrite append_cons, append_nil_l in H.
      specialize (H E). cbn [String.length] in H. lia. }
    rewrite Hm. apply IH. intros a b E.
    specialize (H (String c a) b). rewrite !append_cons in H.
    rewrite E in H. specialize (H eq_refl). cbn [String.length] in H. lia.
Qed.

Lemma match_label_number (label ws rest : string) (n : Z) :
  0 <= n -> blank ws -> starts_outside Text.is_digit rest = true ->
  Re.match_label label (label ++ ws ++ Text.str_of_int n ++ rest)
  = Some (Text.str_of_int n).
Proof.
  intros Hn Hws Hrest. unfold Re.match_label. rewrite strip_prefix_app.
  destruct (str_of_int_digits n Hn) as [Hd Hne].
  rewrite (drop_while_run _ _ _ Hws (digits_start_outside_space _ rest Hd Hne)).
  rewrite (span_run _ _ _ Hd Hrest). cbn [fst].
  now destruct (Text.str_of_int n).
Qed.

Lemma search_mesh_section_absent (s : string) :
  Text.contains "Meshes:" s = false -> Re.search_mesh_section s = None.
Proof.
  induction s as [|c s IH].
  - reflexivity.
  - cbn [Text.contains Re.search_mesh_section].
    destruct (Text.strip_prefix "Meshes:" (String c s)); [discriminate|].
    exact IH.
Qed.

(** ** A count behind the first occurrence of its label *)

Lemma reads_search (key : scalar_key) (n : Z) (output : string) :
  reads key n output ->
  Re.search_label (label_of key) output = Some (Text.str_of_int n).
Proof.
  intros (Hn & pre & ws & rest & -> & Hws & Hrest & Hfirst).
  rewrite (search_label_first _ _ _ Hfirst).
  now rewrite (match_label_number _ _ _ _ Hn Hws Hrest).
Qed.

Lemma reads_stored_count (key : scalar_key) (n : Z) (output : string) :
  reads key n output -> stored_count key output = n.
Proof.
  intros H. unfold stored_count. rewrite (reads_search key n output H).
  apply int_of_digits_str. now destruct H.
Qed.

Lemma reads_occurs (key : scalar_key) (n : Z) (output : string) :
  reads key n output -> Text.contains (label_of key) output = true.
Proof.
  intros (_ & pre & ws & rest & -> & _). apply contains_spec.
  now exists pre, (ws ++ Text.str_of_int n ++ rest).
Qed.

(** Discharges, on a text given in full, that no occurrence of a label
    starts before a given place. *)
Ltac first_occurrence :=
  let a := fresh "a" in
  let b := fresh "b" in
  let E := fresh "E" in
  intros a b E;
  unfold Text.nl, label_of in *;
  rewrite ?length_append; cbn [String.length];
  rewrite ?append_cons, ?append_nil_l in E;
  repeat (destruct a as [|? a];
          [rewrite append_nil_l in E; discriminate E|];
          rewrite append_cons in E; injection E as _ E);
  cbn [String.length]; lia.

(** * Properties of the specification *)

(** C4: when the dump succeeds, the joint classifier returns the number of
    distinct node names of the dump that pass the filter; a name passes
    exactly when it does not contain the helper marker, is not the root
    node's name, ends with neither the mesh nor the attachment suffix,
    contains no slash and no backslash and is not the name Texture; a dump
    that declares exactly the five names of scenario B yields 1. *)
Theorem C4_joint_classifier_counts_real_names (assimp : tool) (fbx : Path.t)
    (st : state) (r : completed) :
  assimp (calls st) (Dump fbx) = Completed r ->
  returncode r = 0 ->
  fst (count_real_joints assimp fbx st)
  = Z.of_nat
      (length (remove_dups
                 (List.filter is_real_joint (Re.findall_nodes (stdout r)))))
  /\ (forall name,
        is_real_joint name = true <->
          ~ occurs_in "AssimpFbx" name /\ name <> "RootNode"
          /\ ~ ends_with name "_Geo" /\ ~ ends_with name "_Att"
          /\ ~ occurs_in "/" name
          /\ ~ occurs_in (String Text.backslash "") name
          /\ name <> "Texture")
  /\ ((forall name,
         In name (Re.findall_nodes (stdout r)) <-> In name scenario_B_names) ->
      fst (count_real_joints assimp fbx st) = 1).
Proof.
  intros Hrun Hrc.
  rewrite count_real_joints_result, Hrun, Hrc. cbn [fst negb Z.eqb].
  split; [apply count_names_distinct|].
  split; [apply is_real_joint_spec|].
  intros Hnames.
  rewrite (count_names_same_set (stdout r) (dump_of scenario_B_names)).
  - vm_compute. reflexivity.
  - intros name. rewrite Hnames.
    change (Re.findall_nodes (dump_of scenario_B_names)) with scenario_B_names.
    reflexivity.
Qed.

(** At a dump of the five names of scenario B. *)
Lemma C4_joint_classifier_counts_real_names_witness :
  fst (count_real_joints (fixed_tool "" (dump_of scenario_B_names))
         "rigs/a.fbx" initial_state) = 1.
Proof.
  refine (proj2 (proj2 (C4_joint_classifier_counts_real_names
                          (fixed_tool "" (dump_of scenario_B_names))
                          "rigs/a.fbx" initial_state
                          {| returncode := 0;
                             stdout := dump_of scenario_B_names;
                             stderr := "" |}
                          eq_refl eq_refl)) _).
  intros name.
  change (Re.findall_nodes (dump_of scenario_B_names)) with scenario_B_names.
  reflexivity.
Defined.

(** C6: the joint classifier returns -1 when running the dump raises and
    when the dump exits with a non-zero status; otherwise it returns the
    size of the filtered name set, which is not negative; so it returns -1
    exactly when the dump failed. *)
Theorem C6_joint_classifier_sentinel (assimp : tool) (fbx : Path.t)
    (st : state) :
  (forall msg,
     assimp (calls st) (Dump fbx) = RunRaised msg ->
     fst (count_real_joints assimp fbx st) = -1)
  /\ (forall r,
        assimp (calls st) (Dump fbx) = Completed r -> returncode r <> 0 ->
        fst (count_real_joints assimp fbx st) = -1)
  /\ (forall r,
        assimp (calls st) (Dump fbx) = Completed r -> returncode r = 0 ->
        fst (count_real_joints assimp fbx st)
        = Z.of_nat (size (real_joints (all_names (stdout r))))
        /\ 0 <= fst (count_real_joints assimp fbx st))
  /\ (fst (count_real_joints assimp fbx st) = -1 <-> dump_fails assimp fbx st).
Proof.
  rewrite count_real_joints_result. cbn [fst].
  split; [|split; [|split]].
  - intros msg ->. reflexivity.
  - intros r -> Hrc. destruct (Z.eqb_spec (returncode r) 0); [contradiction|].
    reflexivity.
  - intros r -> ->. cbn [negb Z.eqb]. unfold count_names. split; [reflexivity | lia].
  - pose proof (count_real_joints_sentinel assimp fbx st) as H.
    rewrite count_real_joints_result in H. exact H.
Qed.

(** C8: two successful dumps whose node declarations name the same set of
    names, in any order and with any repetition, get the same count. *)
Theorem C8_joint_count_depends_on_name_set (assimp1 assimp2 : tool)
    (fbx1 fbx2 : Path.t) (st1 st2 : state) (r1 r2 : completed) :
  assimp1 (calls st1) (Dump fbx1) = Completed r1 -> returncode r1 = 0 ->
  assimp2 (calls st2) (Dump fbx2) = Completed r2 -> returncode r2 = 0 ->
  (forall name,
     In name (Re.findall_nodes (stdout r1))
     <-> In name (Re.findall_nodes (stdout r2))) ->
  fst (count_real_joints assimp1 fbx1 st1)
  = fst (count_real_joints assimp2 fbx2 st2).
Proof.
  intros H1 Hrc1 H2 Hrc2 Hsame.
  rewrite !count_real_joints_result, H1, H2, Hrc1, Hrc2. cbn [fst negb Z.eqb].
  now apply count_names_same_set.
Qed.

(** At two dumps that name Hips, Spine and Mesh_Geo in different orders and
    with different repetitions. *)
Lemma C8_joint_count_depends_on_name_set_witness :
  fst (count_real_joints
         (fixed_tool "" (dump_of ["Hips"; "Spine"; "Hips"; "Mesh_Geo"]))
         "rigs/a.fbx" initial_state)
  = fst (count_real_joints
           (fixed_tool "" (dump_of ["Mesh_Geo"; "Spine"; "Spine"; "Hips"]))
           "rigs/b.fbx" initial_state).
Proof.
  apply (C8_joint_count_depends_on_name_set
           (fixed_tool "" (dump_of ["Hips"; "Spine"; "Hips"; "Mesh_Geo"]))
           (fixed_tool "" (dump_of ["Mesh_Geo"; "Spine"; "Spine"; "Hips"]))
           "rigs/a.fbx" "rigs/b.fbx" initial_state initial_state
           {| returncode := 0;
              stdout := dump_of ["Hips"; "Spine"; "Hips"; "Mesh_Geo"];
              stderr := "" |}
           {| returncode := 0;
              stdout := dump_of ["Mesh_Geo"; "Spine"; "Spine"; "Hips"];
              stderr := "" |}
           eq_refl eq_refl eq_refl eq_refl).
  intros name.
  change (Re.findall_nodes
            (stdout {| returncode := 0;
                       stdout := dump_of ["Hips"; "Spine"; "Hips"; "Mesh_Geo"];
                       stderr := "" |}))
    with ["Hips"; "Spine"; "Hips"; "Mesh_Geo"].
  change (Re.findall_nodes
            (stdout {| returncode := 0;
                       stdout := dump_of ["Mesh_Geo"; "Spine"; "Spine"; "Hips"];
                       stderr := "" |}))
    with ["Mesh_Geo"; "Spine"; "Spine"; "Hips"].
  cbn [In]. tauto.
Defined.

(** C2, counterexample: on the text of scenario A, which contains the three
    labelled counts and exceeds no other budget, the parser's three warnings
    start with the triangle count, not with the vertex count. *)
Lemma C2_triangle_warning_comes_first :
  exists m : metrics,
    parse_assimp_info scenario_A_text = Ok m
    /\ Text.contains "Vertices: 25000" scenario_A_text = true
    /\ Text.contains "Faces: 16000" scenario_A_text = true
    /\ Text.contains "Materials: 6" scenario_A_text = true
    /\ mesh_count m <= 20
    /\ warnings m
       = [triangle_warning 16000; vertex_warning 25000; material_warning 6]
    /\ warnings m
       <> [vertex_warning 25000; triangle_warning 16000; material_warning 6].
Proof.
  eexists. split; [vm_compute; reflexivity|].
  repeat split; try (vm_compute; reflexivity); try discriminate.
Qed.

(** C2, amended: in a text where the first occurrence of the vertex label
    is followed by 25000, that of the face label by 16000 and that of the
    material label by 6, and where the mesh label does not occur or its
    first occurrence is followed by a count of at most 20, every record
    the parser returns holds these counts and exactly three warnings: the
    high triangle count, the high vertex count and the many materials
    warning, in that order, the order of the budget tests; and the parser
    returns a record when none of the five other labels occurs in the
    text. *)
Theorem C2_warnings_follow_budget_order (output : string) :
  reads KTotalVertices 25000 output ->
  reads KTotalFaces 16000 output ->
  reads KMaterialCount 6 output ->
  (Text.contains (label_of KMeshCount) output = false
   \/ exists n, n <= 20 /\ reads KMeshCount n output) ->
  (forall m,
     parse_assimp_info output = Ok m ->
     total_vertices m = 25000 /\ total_faces m = 16000
     /\ material_count m = 6 /\ mesh_count m <= 20
     /\ warnings m
        = ["HIGH TRIANGLE COUNT: 16,000 (budget: 15,000)";
           "HIGH VERTEX COUNT: 25,000 (budget: 20,000)";
           "MANY MATERIALS: 6 (budget: 5)"])
  /\ ((forall key,
         In key [KMemoryBytes; KNodeCount; KMaxDepth; KMeshCount;
                 KTextureCount] ->
         Text.contains (label_of key) output = false) ->
      exists m, parse_assimp_info output = Ok m).
Proof.
  intros Rv Rf Rm Rc.
  pose proof (reads_stored_count _ _ _ Rv) as Sv.
  pose proof (reads_stored_count _ _ _ Rf) as Sf.
  pose proof (reads_stored_count _ _ _ Rm) as Sm.
  assert (Sc : stored_count KMeshCount output <= 20).
  { destruct Rc as [Hc|(n & Hn & Hr)].
    - rewrite (stored_count_absent _ _ Hc). lia.
    - now rewrite (reads_stored_count _ _ _ Hr). }
  split.
  - intros m Hparse.
    destruct (parse_assimp_info_Ok output m Hparse) as (Hs & Hw & _).
    pose proof (Hs KTotalVertices) as Hv. pose proof (Hs KTotalFaces) as Hf.
    pose proof (Hs KMaterialCount) as Hm. pose proof (Hs KMeshCount) as Hc.
    cbn [get_scalar] in Hv, Hf, Hm, Hc. rewrite Sv in Hv. rewrite Sf in Hf.
    rewrite Sm in Hm. rewrite <- Hc in Sc.
    split; [exact Hv|]. split; [exact Hf|]. split; [exact Hm|].
    split; [exact Sc|].
    rewrite Hw. unfold budget_list. rewrite Hv, Hf, Hm.
    destruct (Z.ltb_spec 20 (mesh_count m)); [lia|]. reflexivity.
  - intros Habsent.
    assert (Hnone : forall key,
              In key [KMemoryBytes; KNodeCount; KMaxDepth; KMeshCount;
                      KTextureCount] ->
              Re.search_label (label_of key) output = None).
    { intros key Hkey. apply search_label_absent. now apply Habsent. }
    apply parse_assimp_info_returns.
    + intros ds [[key Hkey]|Hmesh].
      * destruct key;
          try (rewrite Hnone in Hkey by (cbn [In]; tauto); discriminate).
        -- rewrite (reads_search _ _ _ Rm) in Hkey. injection Hkey as <-.
           unfold within_limit, max_str_digits. vm_compute. discriminate.
        -- rewrite (reads_search _ _ _ Rv) in Hkey. injection Hkey as <-.
           unfold within_limit, max_str_digits. vm_compute. discriminate.
        -- rewrite (reads_search _ _ _ Rf) in Hkey. injection Hkey as <-.
           unfold within_limit, max_str_digits. vm_compute. discriminate.
      * destruct Hmesh as (body & line & name & g2 & g3 & g4 & Hb & _).
        rewrite search_mesh_section_absent in Hb; [discriminate|].
        apply (Habsent KMeshCount). cbn [In]. tauto.
    + assert (H32 : 2 ^ 32 <= 2 ^ 1000) by (apply Z.pow_le_mono_r; lia).
      change (2 ^ 32) with 4294967296 in H32.
      intros key. destruct key;
        try (rewrite stored_count_absent
               by (apply Habsent; cbn [In]; tauto); lia).
      * rewrite Sm. lia.
      * rewrite Sv. lia.
      * rewrite Sf. lia.
Qed.

(** At the text of scenario A. *)
Lemma C2_warnings_follow_budget_order_witness :
  exists m : metrics,
    parse_assimp_info scenario_A_text = Ok m
    /\ warnings m
       = ["HIGH TRIANGLE COUNT: 16,000 (budget: 15,000)";
          "HIGH VERTEX COUNT: 25,000 (budget: 20,000)";
          "MANY MATERIALS: 6 (budget: 5)"].
Proof.
  eexists. split; [vm_compute; reflexivity|].
  assert (Rv : reads KTotalVertices 25000 scenario_A_text).
  { split; [lia|].
    exists "", " ",
      (Text.nl ++ "Faces: 16000" ++ Text.nl ++ "Materials: 6" ++ Text.nl).
    split; [reflexivity|]. split; [reflexivity|]. split; [reflexivity|].
    intros a b _. cbn [String.length]. lia. }
  assert (Rf : reads KTotalFaces 16000 scenario_A_text).
  { split; [lia|].
    exists ("Vertices: 25000" ++ Text.nl), " ",
      (Text.nl ++ "Materials: 6" ++ Text.nl).
    split; [reflexivity|]. split; [reflexivity|]. split; [reflexivity|].
    unfold scenario_A_text. first_occurrence. }
  assert (Rm : reads KMaterialCount 6 scenario_A_text).
  { split; [lia|].
    exists ("Vertices: 25000" ++ Text.nl ++ "Faces: 16000" ++ Text.nl), " ",
      Text.nl.
    split; [reflexivity|]. split; [reflexivity|]. split; [reflexivity|].
    unfold scenario_A_text. first_occurrence. }
  apply (C2_warnings_follow_budget_order scenario_A_text Rv Rf Rm).
  - left. vm_compute. reflexivity.
  - vm_compute. reflexivity.
Defined.

(** C3, counterexample: for eight faces and one node the parser stores a
    total of 0.16 KB, while the three stored values, added and rounded to
    one place, give 0.1 KB; the two differ by more than the 0.05 that a
    rounding to one place accounts for. *)
Lemma C3_total_is_not_the_rounded_sum :
  exists (m : metrics) (r : Q),
    parse_assimp_info small_scene_text = Ok m
    /\ rounded_sum_of_buffers m = Some r
    /\ (value_of (total_gpu_memory_kb m) == Binary64.nearest (16 # 100))%Q
    /\ (r == Binary64.nearest (1 # 10))%Q
    /\ (1 # 20 < value_of (total_gpu_memory_kb m) - r)%Q.
Proof.
  eexists. eexists. split; [vm_compute; reflexivity|].
  split; [vm_compute; reflexivity|].
  repeat split; vm_compute; reflexivity.
Qed.

(** C3, amended: in every record the parser returns, the three buffer
    fields are the byte costs over 1024, each rounded to two places, and
    the total is the sum of the three byte costs over 1024, rounded to two
    places; for counts below 2^32 the total is within 0.0201 of the float
    sum of the three fields and within 0.0701 of that sum rounded to one
    place. *)
Theorem C3_gpu_memory_estimates (output : string) (m : metrics) :
  parse_assimp_info output = Ok m ->
  (exists vbk ibk bmk total : Q,
     Binary64.truediv (total_vertices m * 64) 1024 = Ok vbk
     /\ Binary64.truediv (total_faces m * 3 * 4) 1024 = Ok ibk
     /\ Binary64.truediv (node_count m * 64) 1024 = Ok bmk
     /\ Binary64.truediv
          (total_vertices m * 64 + total_faces m * 3 * 4 + node_count m * 64)
          1024 = Ok total
     /\ vertex_buffer_kb m = NFloat (Binary64.round_float vbk 2)
     /\ index_buffer_kb m = NFloat (Binary64.round_float ibk 2)
     /\ bone_matrices_kb m = NFloat (Binary64.round_float bmk 2)
     /\ total_gpu_memory_kb m = NFloat (Binary64.round_float total 2))
  /\ (total_vertices m < 2 ^ 32 -> total_faces m < 2 ^ 32 ->
      node_count m < 2 ^ 32 ->
      exists s2 r : Q,
        Binary64.add (value_of (vertex_buffer_kb m))
          (value_of (index_buffer_kb m))
        = Some (Binary64.nearest
                  (value_of (vertex_buffer_kb m)
                   + value_of (index_buffer_kb m))%Q)
        /\ Binary64.add
             (Binary64.nearest
                (value_of (vertex_buffer_kb m)
                 + value_of (index_buffer_kb m))%Q)
             (value_of (bone_matrices_kb m)) = Some s2
        /\ rounded_sum_of_buffers m = Some r
        /\ r = Binary64.round_float s2 1
        /\ (Qabs (value_of (total_gpu_memory_kb m) - s2) <= 201 # 10000)%Q
        /\ (Qabs (value_of (total_gpu_memory_kb m) - r) <= 701 # 10000)%Q).
Proof.
  intros Hparse.
  destruct (parse_assimp_info_Ok output m Hparse)
    as (Hscan & _ & vbk & ibk & bmk & total & Hv & Hi & Hb & Ht
        & Ev & Ei & Eb & Et).
  split; [now exists vbk, ibk, bmk, total|].
  intros Bv Bf Bn.
  pose proof (stored_count_nonneg KTotalVertices output) as Nv.
  pose proof (stored_count_nonneg KTotalFaces output) as Nf.
  pose proof (stored_count_nonneg KNodeCount output) as Nn.
  rewrite <- Hscan in Nv, Nf, Nn. cbn [get_scalar] in Nv, Nf, Nn.
  destruct (total_against_rounded_sum (total_vertices m) (total_faces m)
              (node_count m) vbk ibk bmk total
              ltac:(lia) ltac:(lia) ltac:(lia) Hv Hi Hb Ht)
    as (s1 & s2 & A1 & A2 & C1 & C2).
  unfold rounded_sum_of_buffers. rewrite Ev, Ei, Eb, Et. cbn [value_of].
  assert (Es1 : s1 = Binary64.nearest
                       (Binary64.round_float vbk 2
                        + Binary64.round_float ibk 2)%Q).
  { unfold Binary64.add in A1. cbv zeta in A1.
    destruct (Binary64.finite _) in A1; [now injection A1 | discriminate]. }
  rewrite <- Es1, A1, A2.
  exists s2, (Binary64.round_float s2 1). repeat split; assumption.
Qed.

(** At a text with eight faces and one node. *)
Lemma C3_gpu_memory_estimates_witness :
  exists m : metrics,
    parse_assimp_info small_scene_text = Ok m
    /\ exists r : Q,
         rounded_sum_of_buffers m = Some r
         /\ (Qabs (value_of (total_gpu_memory_kb m) - r) <= 701 # 10000)%Q.
Proof.
  eexists. split; [vm_compute; reflexivity|].
  destruct (C3_gpu_memory_estimates small_scene_text _
              ltac:(vm_compute; reflexivity)) as [_ H].
  destruct (H ltac:(cbn; lia) ltac:(cbn; lia) ltac:(cbn; lia))
    as (s2 & r & _ & _ & Hr & _ & _ & Hclose).
  exists r. split; [exact Hr | exact Hclose].
Defined.
(** C5, counterexample: a text with no node count gives no record when
    another count in it cannot be handled: with a vertex count of 401
    digits the division of the byte cost overflows and the parser raises
    instead of returning a record whose node count is 0. *)
Lemma C5_missing_label_but_no_record :
  Text.contains (label_of KNodeCount) huge_count_text = false
  /\ Re.search_label (label_of KNodeCount) huge_count_text = None
  /\ parse_assimp_info huge_count_text = Raise OverflowError
  /\ forall m, parse_assimp_info huge_count_text <> Ok m.
Proof.
  assert (E : parse_assimp_info huge_count_text = Raise OverflowError)
    by (vm_compute; reflexivity).
  split; [vm_compute; reflexivity|]. split; [vm_compute; reflexivity|].
  split; [exact E|]. intros m H. rewrite E in H. discriminate.
Qed.

(** C5, amended: when the pattern of a scalar metric has no match in the
    text, as when its label does not occur there, the turn of the loop for
    that metric stores nothing and raises nothing, and every record the
    parser returns has the field at 0.  The parser raises only for data
    that is in the text: a [ValueError] for a run of more than 4300 digits
    that one of the patterns captured, or an [OverflowError] for a count of
    at least 2^1000 of another metric, whose label occurs.  It returns a
    record, with the field at 0, when every captured run of digits is
    within the limit and every count is below 2^1000. *)
Theorem C5_missing_label_defaults_to_zero (output : string)
    (key : scalar_key) :
  Re.search_label (label_of key) output = None ->
  (forall m0, scan_scalar output m0 key = Ok m0)
  /\ (forall m, parse_assimp_info output = Ok m -> get_scalar key m = 0)
  /\ (forall e,
        parse_assimp_info output = Raise e ->
        (exists ds,
           captured output ds /\ ~ within_limit ds
           /\ e = ValueError (String.length ds))
        \/ (e = OverflowError
            /\ exists key',
                 key' <> key
                 /\ Text.contains (label_of key') output = true
                 /\ 2 ^ 1000 <= stored_count key' output))
  /\ ((forall ds, captured output ds -> within_limit ds) ->
      (forall key', stored_count key' output < 2 ^ 1000) ->
      exists m, parse_assimp_info output = Ok m /\ get_scalar key m = 0).
Proof.
  intros Habsent.
  assert (Hzero : stored_count key output = 0)
    by (unfold stored_count; now rewrite Habsent).
  assert (Hok : forall m, parse_assimp_info output = Ok m ->
                          get_scalar key m = 0).
  { intros m Hm. destruct (parse_assimp_info_Ok output m Hm) as (Hs & _).
    now rewrite Hs. }
  split; [intros m0; unfold scan_scalar; now rewrite Habsent|].
  split; [exact Hok|]. split.
  - intros e He.
    destruct (parse_assimp_info_raises output e He)
      as [Hv|(-> & key' & Hc & Hbig)]; [now left | right].
    split; [reflexivity|]. exists key'. split; [|now split].
    intros ->. rewrite Hzero in Hbig.
    assert (0 < 2 ^ 1000) by (apply Z.pow_pos_nonneg; lia). lia.
  - intros Hlimit Hsmall.
    destruct (parse_assimp_info_returns output Hlimit Hsmall) as [m Hm].
    exists m. split; [exact Hm | now apply Hok].
Qed.

(** At the text of scenario A, which has no node count. *)
Lemma C5_missing_label_defaults_to_zero_witness :
  exists m : metrics,
    parse_assimp_info scenario_A_text = Ok m /\ node_count m = 0.
Proof.
  refine (proj2 (proj2 (proj2
            (C5_missing_label_defaults_to_zero scenario_A_text KNodeCount
               _))) _ _).
  - vm_compute. reflexivity.
  - intros ds [[key' H]|(body & line & name & g2 & g3 & g4 & H & _)].
    + destruct key'; vm_compute in H; try discriminate H;
        injection H as <-; vm_compute; discriminate.
    + vm_compute in H. discriminate H.
  - intros key'. destruct key'; vm_compute; reflexivity.
Defined.

(** C1, counterexample: a precomputed entry whose warnings hold a stale
    joint-count warning keeps it: the stale string has no BONE COUNT in it,
    so the filter lets it through, and with 80 joints the entry ends with
    two joint-count warnings. *)
Lemma C1_stale_joint_warning_survives :
  exists (e : Entry.t) (st' : state),
    process_file (fixed_tool "" "") stale_joint_entry "rigs/a.fbx"
      initial_state = (Some e, st')
    /\ Entry.real_joint_count e = 80
    /\ Entry.warnings e
       = ["HIGH JOINT COUNT: 200 (budget: 75)";
          "HIGH JOINT COUNT: 80 (budget: 75)"]
    /\ List.filter is_joint_count_warning (Entry.warnings e)
       = ["HIGH JOINT COUNT: 200 (budget: 75)";
          "HIGH JOINT COUNT: 80 (budget: 75)"].
Proof.
  eexists. eexists. split; [vm_compute; reflexivity|].
  repeat split; vm_compute; reflexivity.
Qed.

(** C1, amended: the warnings of an entry are the upstream warnings without
    those that contain BONE COUNT, in their order, followed by the joint
    warning for the entry's joint count exactly when that count is above
    75; when every upstream warning that mentions a joint count also
    contains BONE COUNT, the entry has at most one joint-count warning: the
    one for its own joint count, present exactly when the count is above
    75. *)
Theorem C1_warnings_rebuilt_from_joint_count (assimp : tool)
    (pre : gmap string Dict.t) (fbx : Path.t) (st st' : state)
    (e : Entry.t) :
  process_file assimp pre fbx st = (Some e, st') ->
  exists (d : Dict.t) (st2 : state),
    select_metrics assimp pre fbx (after_conversion fbx st) = (d, st2)
    /\ Entry.real_joint_count e = fst (settle_joints assimp d fbx st2)
    /\ Entry.warnings e
       = (kept_warnings (Dict.get (Dict.warnings d) [])
          ++ (if 75 <? Entry.real_joint_count e
              then [joint_warning (Entry.real_joint_count e)] else []))%list
    /\ (forall w,
          In w (kept_warnings (Dict.get (Dict.warnings d) []))
          <-> In w (Dict.get (Dict.warnings d) [])
              /\ ~ occurs_in "BONE COUNT" w)
    /\ is_joint_count_warning (joint_warning (Entry.real_joint_count e)) = true
    /\ ((forall w,
           In w (Dict.get (Dict.warnings d) []) ->
           occurs_in "JOINT COUNT" w -> occurs_in "BONE COUNT" w) ->
        List.filter is_joint_count_warning (Entry.warnings e)
        = if 75 <? Entry.real_joint_count e
          then [joint_warning (Entry.real_joint_count e)] else []).
Proof.
  intros Hrun.
  destruct (process_file_Some' assimp pre fbx st st' e Hrun)
    as (d & st2 & joints & st3 & Hsel & Hset & -> & _).
  exists d, st2. split; [exact Hsel|].
  cbn [build_entry Entry.real_joint_count Entry.warnings].
  split; [now rewrite Hset|].
  split; [apply rebuild_warnings_app|].
  split; [apply kept_warnings_spec|].
  split; [apply joint_warning_is_joint_count|].
  intros Hup. rewrite rebuild_warnings_app, List.filter_app.
  rewrite (filter_none is_joint_count_warning (kept_warnings _)).
  - destruct (75 <? joints); [|reflexivity].
    cbn [List.filter app]. now rewrite joint_warning_is_joint_count.
  - intros w Hw. apply kept_warnings_spec in Hw as [Hin Hbone].
    unfold is_joint_count_warning. apply orb_false_iff. split.
    + destruct (Text.contains "JOINT COUNT" w) eqn:E; [|reflexivity].
      apply contains_spec in E. now destruct (Hbone (Hup w Hin E)).
    + destruct (Text.contains "BONE COUNT" w) eqn:E; [|reflexivity].
      apply contains_spec in E. now destruct Hbone.
Qed.

(** At a precomputed entry with 80 joints and a stale bone-count warning. *)
Lemma C1_warnings_rebuilt_from_joint_count_witness :
  exists e : Entry.t,
    fst (process_file (fixed_tool "" "") stale_bone_entry "rigs/a.fbx"
           initial_state) = Some e
    /\ Entry.warnings e
       = ["MANY MATERIALS: 6 (budget: 5)"; "HIGH JOINT COUNT: 80 (budget: 75)"].
Proof.
  eexists. split; [vm_compute; reflexivity|].
  match goal with
  | |- Entry.warnings ?e = _ =>
      destruct (C1_warnings_rebuilt_from_joint_count (fixed_tool "" "")
                  stale_bone_entry "rigs/a.fbx" initial_state
                  (snd (process_file (fixed_tool "" "") stale_bone_entry
                          "rigs/a.fbx" initial_state))
                  e ltac:(vm_compute; reflexivity))
        as (d & st2 & Hsel & _ & Hw & _)
  end.
  apply (f_equal fst) in Hsel. cbn [fst] in Hsel. vm_compute in Hsel.
  subst d. rewrite Hw. vm_compute. reflexivity.
Defined.



(** C9: the entry's joint count is -1 exactly when the record has no joint
    count that is trusted and the dump made for the entry fails; the entry
    then records -1 as it is, and its warnings are the kept upstream
    warnings with no joint warning appended. *)
Theorem C9_unknown_joint_count_is_recorded (assimp : tool)
    (pre : gmap string Dict.t) (fbx : Path.t) (st st' : state)
    (e : Entry.t) :
  process_file assimp pre fbx st = (Some e, st') ->
  exists (d : Dict.t) (st2 : state),
    select_metrics assimp pre fbx (after_conversion fbx st) = (d, st2)
    /\ Entry.real_joint_count e = fst (settle_joints assimp d fbx st2)
    /\ (fst (settle_joints assimp d fbx st2) = -1
        <-> joints_untrusted d /\ dump_fails assimp fbx st2)
    /\ (fst (settle_joints assimp d fbx st2) = -1 ->
        Entry.real_joint_count e = -1
        /\ Entry.warnings e = kept_warnings (Dict.get (Dict.warnings d) [])).
Proof.
  intros Hrun.
  destruct (process_file_Some' assimp pre fbx st st' e Hrun)
    as (d & st2 & joints & st3 & Hsel & Hset & -> & _).
  exists d, st2. split; [exact Hsel|].
  cbn [build_entry Entry.real_joint_count Entry.warnings].
  rewrite Hset. cbn [fst].
  split; [reflexivity|]. split.
  - destruct (joints_trusted_or_not d) as [(n & Hn & Hpos)|Hun].
    + rewrite (settle_joints_trusted assimp d fbx st2 n Hn Hpos) in Hset.
      injection Hset as <- _. unfold joints_untrusted. rewrite Hn.
      split; [lia | intros [? _]; lia].
    + rewrite (settle_joints_recount assimp d fbx st2 Hun) in Hset.
      pose proof (count_real_joints_sentinel assimp fbx st2) as Hs.
      rewrite Hset in Hs. cbn [fst] in Hs. rewrite Hs. tauto.
  - intros ->. split; reflexivity.
Qed.

(** At a precomputed entry whose joint count is -1 and a dump that fails. *)
Lemma C9_unknown_joint_count_is_recorded_witness :
  exists e : Entry.t,
    fst (process_file (dump_failing_tool "") unknown_joint_entry "rigs/a.fbx"
           initial_state) = Some e
    /\ Entry.real_joint_count e = -1
    /\ Entry.warnings e = [].
Proof.
  eexists. split; [vm_compute; reflexivity|].
  match goal with
  | |- Entry.real_joint_count ?e = _ /\ _ =>
      destruct (C9_unknown_joint_count_is_recorded (dump_failing_tool "")
                  unknown_joint_entry "rigs/a.fbx" initial_state
                  (snd (process_file (dump_failing_tool "")
                          unknown_joint_entry "rigs/a.fbx" initial_state))
                  e ltac:(vm_compute; reflexivity))
        as (d & st2 & Hsel & _ & _ & Hminus)
  end.
  pose proof (f_equal fst Hsel) as Hd. pose proof (f_equal snd Hsel) as Hst.
  cbn [fst snd] in Hd, Hst. vm_compute in Hd. subst d st2.
  destruct (Hminus ltac:(vm_compute; reflexivity)) as [-> ->].
  split; vm_compute; reflexivity.
Defined.

(** C10: the entry of a converted file has the file's stem as its id, the
    file's category, and the path models/category/id.glb as its file; it
    is appended to the list of its category whatever that list holds; so
    two files with the same stem and category get the same id and the same
    output path, also when they are different files. *)
Theorem C10_id_and_output_path (assimp : tool) (pre : gmap string Dict.t)
    (fbx : Path.t) (st st' : state) (e : Entry.t) :
  process_file assimp pre fbx st = (Some e, st') ->
  Entry.id e = Path.stem fbx
  /\ Entry.category e = categorize fbx
  /\ Entry.file e
     = "models/" ++ Entry.category e ++ "/" ++ Entry.id e ++ ".glb"
  /\ In (Export fbx (Entry.file e)) (calls st')
  /\ manifest st'
     = alter (fun l => (l ++ [e])%list) (categorize fbx) (manifest st)
  /\ (forall (assimp2 : tool) (pre2 : gmap string Dict.t) (fbx2 : Path.t)
             (st2 st2' : state) (e2 : Entry.t),
        process_file assimp2 pre2 fbx2 st2 = (Some e2, st2') ->
        Path.stem fbx2 = Path.stem fbx ->
        categorize fbx2 = categorize fbx ->
        Entry.id e2 = Entry.id e /\ Entry.file e2 = Entry.file e).
Proof.
  intros Hrun.
  destruct (process_file_Some' assimp pre fbx st st' e Hrun)
    as (d & st2 & joints & st3 & Hsel & Hset & -> & ->).
  cbn [build_entry Entry.id Entry.category Entry.file append_entry manifest
       calls].
  split; [reflexivity|]. split; [reflexivity|]. split; [reflexivity|].
  split; [|split].
  - pose proof (settle_joints_keeps assimp (Export fbx (glb_rel_of fbx)) d fbx
                  st2) as H1.
    pose proof (select_metrics_keeps assimp (Export fbx (glb_rel_of fbx)) pre
                  fbx (after_conversion fbx st)) as H2.
    rewrite Hset in H1. rewrite Hsel in H2. cbn [snd] in H1, H2.
    apply H1, H2. unfold after_conversion.
    cbn [count_converted log_call calls]. apply in_or_app. right. now left.
  - f_equal.
    pose proof (settle_joints_manifest assimp d fbx st2) as H1.
    pose proof (select_metrics_manifest assimp pre fbx (after_conversion fbx st))
      as H2.
    rewrite Hset in H1. rewrite Hsel in H2. cbn [snd] in H1, H2.
    now rewrite H1, H2.
  - intros assimp2 pre2 fbx2 s2 s2' e2 Hrun2 Hstem Hcat.
    destruct (process_file_Some' assimp2 pre2 fbx2 s2 s2' e2 Hrun2)
      as (d' & t2 & j' & t3 & _ & _ & -> & _).
    cbn [build_entry Entry.id Entry.file]. unfold glb_rel_of.
    now rewrite Hstem, Hcat.
Qed.

(** At two different files named a.fbx in two clothing directories: both
    entries are in the manifest with the same output path. *)
Lemma C10_id_and_output_path_witness :
  exists e1 e2 : Entry.t,
    fst (process_file (fixed_tool "" "") ∅ "clothing/x/a.fbx" initial_state)
    = Some e1
    /\ fst (process_file (fixed_tool "" "") ∅ "clothing/y/a.fbx"
              (snd (process_file (fixed_tool "" "") ∅ "clothing/x/a.fbx"
                      initial_state)))
       = Some e2
    /\ (Entry.id e2 = Entry.id e1 /\ Entry.file e2 = Entry.file e1)
    /\ manifest
         (snd (process_file (fixed_tool "" "") ∅ "clothing/y/a.fbx"
                 (snd (process_file (fixed_tool "" "") ∅ "clothing/x/a.fbx"
                         initial_state)))) !! "clothing"
       = Some [e1; e2].
Proof.
  eexists. eexists.
  split; [vm_compute; reflexivity|]. split; [vm_compute; reflexivity|].
  split; [|vm_compute; reflexivity].
  lazymatch goal with
  | |- Entry.id ?e2 = Entry.id ?e1 /\ _ => set (E1 := e1); set (E2 := e2)
  end.
  assert (H1 : fst (process_file (fixed_tool "" "") ∅ "clothing/x/a.fbx"
                      initial_state) = Some E1)
    by (vm_compute; reflexivity).
  apply run_eta in H1.
  assert (H2 : fst (process_file (fixed_tool "" "") ∅ "clothing/y/a.fbx"
                      (snd (process_file (fixed_tool "" "") ∅
                              "clothing/x/a.fbx" initial_state))) = Some E2)
    by (vm_compute; reflexivity).
  apply run_eta in H2.
  pose proof (C10_id_and_output_path _ _ _ _ _ _ H1)
    as (_ & _ & _ & _ & _ & Hsame).
  apply (Hsame _ _ _ _ _ _ H2); vm_compute; reflexivity.
Defined.

(** * Further properties of the orchestration *)

(** X1: the category of a file is one of the three keys of the manifest,
    the first matching prefix rule decides it, and the manifest [main]
    starts from has a list under it. *)
Theorem X1_category_is_a_manifest_key (fbx : Path.t) :
  (categorize fbx = "rigs" \/ categorize fbx = "cage_deformers"
   \/ categorize fbx = "clothing")
  /\ (categorize fbx = "rigs"
      <-> Text.startswith (Path.rel_lower fbx) "rigs/" = true)
  /\ (categorize fbx = "cage_deformers"
      <-> Text.startswith (Path.rel_lower fbx) "rigs/" = false
          /\ Text.startswith (Path.rel_lower fbx) "cage_deformer/cube/" = true)
  /\ manifest initial_state !! categorize fbx = Some [].
Proof.
  unfold categorize.
  destruct (Text.startswith (Path.rel_lower fbx) "rigs/");
    [|destruct (Text.startswith (Path.rel_lower fbx) "cage_deformer/cube/")].
  - repeat split; auto; try discriminate; intros [? _]; discriminate.
  - repeat split; auto; discriminate.
  - repeat split; auto; try discriminate; intros [_ ?]; discriminate.
Qed.

(** X2: a file under a skip prefix is not exported and gets no entry; the
    turn only adds one to the skip counter. *)
Theorem X2_skipped_file_only_counts (assimp : tool)
    (pre : gmap string Dict.t) (fbx : Path.t) (st : state) :
  should_skip fbx = true ->
  process_file assimp pre fbx st = (None, count_skipped st)
  /\ calls (count_skipped st) = calls st
  /\ manifest (count_skipped st) = manifest st
  /\ converted (count_skipped st) = converted st
  /\ skipped (count_skipped st) = skipped st + 1.
Proof.
  intros H. unfold process_file. rewrite H. repeat split.
Qed.

(** At a file under the skip prefix. *)
Lemma X2_skipped_file_only_counts_witness :
  process_file (fixed_tool "" "") ∅ "cage_deformer/layered_clothing/a.fbx"
    initial_state
  = (None, count_skipped initial_state).
Proof.
  apply (X2_skipped_file_only_counts (fixed_tool "" "") ∅
           "cage_deformer/layered_clothing/a.fbx" initial_state).
  vm_compute. reflexivity.
Defined.



Lemma dedup_resolved_spec (resolve : Path.t -> string) (files : list Path.t)
    (seen : gset string) :
  NoDup (map resolve (dedup_resolved resolve seen files))
  /\ (forall f, In f (dedup_resolved resolve seen files) ->
                In f files /\ resolve f ∉ seen)
  /\ (forall f, In f files ->
                resolve f ∈ seen
                \/ In (resolve f) (map resolve (dedup_resolved resolve seen files))).
Proof.
  revert seen; induction files as [|f files IH]; intros seen.
  - cbn. split; [apply NoDup_nil; exact I|]. split; intros f []. 
  - cbn [dedup_resolved]. destruct (decide (resolve f ∈ seen)) as [Hin|Hnin].
    + destruct (IH seen) as (H1 & H2 & H3). split; [exact H1|]. split.
      * intros g Hg. destruct (H2 g Hg). split; [now right | assumption].
      * intros g [<-|Hg]; [now left | now apply H3].
    + destruct (IH ({[resolve f]} ∪ seen)) as (H1 & H2 & H3).
      split; [|split].
      * cbn [map]. apply NoDup_cons. split; [|exact H1].
        rewrite list_elem_of_In, in_map_iff. intros (g & Hg1 & Hg2).
        destruct (H2 g Hg2) as [_ Hn]. apply Hn. rewrite Hg1.
        apply elem_of_union. left. now apply elem_of_singleton.
      * intros g [<-|Hg]; [split; [now left | exact Hnin]|].
        destruct (H2 g Hg) as [Hg1 Hg2]. split; [now right|].
        intros Hs. apply Hg2. apply elem_of_union. now right.
      * intros g [<-|Hg]; [right; now left|].
        destruct (H3 g Hg) as [Hs|Hs]; [|right; now right].
        apply elem_of_union in Hs as [Hs|Hs]; [|now left].
        apply elem_of_singleton in Hs. right. left. now symmetry.
Qed.

(** X4: the list of files [main] processes holds each resolved path once:
    it is made of discovered files, no two of them resolve to the same
    path, and every discovered file resolves to the path of one of them. *)
Theorem X4_unique_files_resolve_apart (resolve : Path.t -> string)
    (fbx_files : list Path.t) :
  NoDup (map resolve (unique_fbx resolve fbx_files))
  /\ (forall f, In f (unique_fbx resolve fbx_files) -> In f fbx_files)
  /\ (forall f, In f fbx_files ->
                In (resolve f) (map resolve (unique_fbx resolve fbx_files))).
Proof.
  unfold unique_fbx.
  set (sorted := stable_sort _ fbx_files).
  assert (Hsorted : forall f, In f sorted <-> In f fbx_files).
  { unfold sorted, stable_sort.
    assert (Hins : forall (leb : Path.t -> Path.t -> bool) x l g,
              In g (insert_behind leb x l) <-> g = x \/ In g l).
    { intros leb x l g. induction l as [|y l IHl]; cbn.
      - intuition.
      - destruct (leb y x); cbn; rewrite ?IHl; intuition. }
    assert (Hfold : forall (leb : Path.t -> Path.t -> bool) l acc g,
              In g (fold_left (fun acc x => insert_behind leb x acc) l acc)
              <-> In g l \/ In g acc).
    { intros leb l. induction l as [|x l IHl]; intros acc g; cbn [fold_left].
      - cbn. intuition.
      - rewrite IHl, Hins. cbn. intuition. }
    intros f. rewrite Hfold. cbn. intuition. }
  destruct (dedup_resolved_spec resolve sorted ∅) as (H1 & H2 & H3).
  split; [exact H1|]. split.
  - intros f Hf. apply Hsorted. now apply H2.
  - intros f Hf. apply Hsorted in Hf. destruct (H3 f Hf) as [Hs|Hs];
      [now apply elem_of_empty in Hs | exact Hs].
Qed.

(** X5: in every record the parser returns, the warnings are those of the
    four budget tests, one for each count strictly above its budget, in
    the order faces, vertices, materials, meshes. *)
Theorem X5_parser_warnings_are_the_budget_tests (output : string)
    (m : metrics) :
  parse_assimp_info output = Ok m ->
  warnings m
  = ((if 15000 <? total_faces m
      then [triangle_warning (total_faces m)] else [])
     ++ (if 20000 <? total_vertices m
         then [vertex_warning (total_vertices m)] else [])
     ++ (if 5 <? material_count m
         then [material_warning (material_count m)] else [])
     ++ (if 20 <? mesh_count m
         then [mesh_warning (mesh_count m)] else []))%list.
Proof.
  intros H. now destruct (parse_assimp_info_Ok output m H) as (_ & -> & _).
Qed.

(** At the text of scenario A. *)
Lemma X5_parser_warnings_are_the_budget_tests_witness :
  exists m : metrics,
    parse_assimp_info scenario_A_text = Ok m
    /\ warnings m
       = ["HIGH TRIANGLE COUNT: 16,000 (budget: 15,000)";
          "HIGH VERTEX COUNT: 25,000 (budget: 20,000)";
          "MANY MATERIALS: 6 (budget: 5)"].
Proof.
  eexists. split; [vm_compute; reflexivity|].
  rewrite (X5_parser_warnings_are_the_budget_tests scenario_A_text)
    by (vm_compute; reflexivity).
  vm_compute. reflexivity.
Defined.

(** ** The node pattern on a well-formed dump *)

Lemma findall_nodes_skip (pre s : string) :
  Re.findall_nodes_from (String.length pre) (pre ++ s)
  = Re.findall_nodes_from 0 s.
Proof.
  induction pre as [|c pre IH]; [reflexivity|].
  rewrite append_cons. cbn [String.length Re.findall_nodes_from]. exact IH.
Qed.

Lemma span_not_dquote (name rest : string) :
  Text.all_chars Re.not_dquote name = true ->
  Text.span Re.not_dquote (name ++ String Text.dquote rest)
  = (name, String Text.dquote rest).
Proof.
  induction name as [|c name IH]; intros H.
  - reflexivity.
  - cbn [Text.all_chars] in H. apply andb_prop in H as [Hc Hn].
    rewrite append_cons. cbn [Text.span]. rewrite Hc, (IH Hn). reflexivity.
Qed.

Lemma match_node_declared (name rest : string) :
  name <> "" -> Text.all_chars Re.not_dquote name = true ->
  Re.match_node (Re.node_open ++ name ++ String Text.dquote rest)
  = Some (name, (String.length Re.node_open + String.length name + 1)%nat).
Proof.
  intros Hne Hq. unfold Re.match_node.
  assert (Hs : Text.strip_prefix Re.node_open
                 (Re.node_open ++ name ++ String Text.dquote rest)
               = Some (name ++ String Text.dquote rest))
    by now apply strip_prefix_spec.
  rewrite Hs, (span_not_dquote name rest Hq).
  destruct name; [contradiction | reflexivity].
Qed.

Lemma findall_nodes_after_match (c : ascii) (body s name : string)
    (len : nat) :
  Re.match_node (String c (body ++ s)) = Some (name, len) ->
  Nat.pred len = String.length body ->
  Re.findall_nodes (String c (body ++ s)) = name :: Re.findall_nodes s.
Proof.
  intros Hm Hlen. unfold Re.findall_nodes. cbn [Re.findall_nodes_from].
  rewrite Hm, Hlen. now rewrite findall_nodes_skip.
Qed.

Lemma node_line_shape (name rest : string) :
  node_line name ++ rest
  = String "<" ((("Node name=" ++ String Text.dquote "") ++ name
                 ++ String Text.dquote "")
                ++ ">" ++ Text.nl ++ rest).
Proof.
  unfold node_line, Re.node_open. rewrite !append_assoc. reflexivity.
Qed.

Lemma findall_nodes_line (name rest : string) :
  name <> "" -> Text.all_chars Re.not_dquote name = true ->
  Re.findall_nodes (node_line name ++ rest)
  = name :: Re.findall_nodes rest.
Proof.
  intros Hne Hq.
  pose proof (match_node_declared name (">" ++ Text.nl ++ rest) Hne Hq) as Hm.
  rewrite node_line_shape.
  rewrite (findall_nodes_after_match _ _ _ name
             (String.length Re.node_open + String.length name + 1)).
  - reflexivity.
  - rewrite <- Hm. f_equal. unfold Re.node_open.
    rewrite !append_assoc. reflexivity.
  - rewrite !length_append. change (String.length Re.node_open) with 12%nat.
    cbn. lia.
Qed.

(** X6: on a dump that declares the nodes [names], each name with at least
    one character and no double quote, the node pattern finds exactly
    [names], in their order. *)
Theorem X6_node_pattern_finds_declared_names (names : list string) :
  Forall (fun name =>
            name <> "" /\ Text.all_chars Re.not_dquote name = true) names ->
  Re.findall_nodes (dump_of names) = names.
Proof.
  induction 1 as [|name names [Hne Hq] _ IH]; [reflexivity|].
  cbn [dump_of fold_right]. fold (dump_of names).
  rewrite (findall_nodes_line name (dump_of names) Hne Hq). now rewrite IH.
Qed.

(** At the five names of scenario B. *)
Lemma X6_node_pattern_finds_declared_names_witness :
  Re.findall_nodes (dump_of scenario_B_names) = scenario_B_names.
Proof.
  apply X6_node_pattern_finds_declared_names.
  unfold scenario_B_names.
  repeat (apply Forall_cons; split; [split; [discriminate | reflexivity]|]).
  apply Forall_nil. exact I.
Defined.
(** * Further properties of the code *)

(** ** Display names and paths *)

Lemma contains_char_cons (c d : ascii) (s : string) :
  Text.contains (String c "") (String d s)
  = Ascii.eqb c d || Text.contains (String c "") s.
Proof.
  cbn [Text.contains Text.strip_prefix]. now destruct (Ascii.eqb c d).
Qed.

Lemma contains_char_app (c : ascii) (a b : string) :
  Text.contains (String c "") (a ++ b)
  = Text.contains (String c "") a || Text.contains (String c "") b.
Proof.
  induction a as [|d a IH].
  - rewrite append_nil_l. reflexivity.
  - rewrite append_cons, !contains_char_cons, IH. now rewrite orb_assoc.
Qed.

Lemma replace_char_absent (a b : ascii) (s : string) :
  a <> b -> Text.contains (String a "") (Text.replace_char a b s) = false.
Proof.
  intros Hab. induction s as [|c s IH]; [reflexivity|].
  cbn [Text.replace_char]. rewrite contains_char_cons, IH, orb_false_r.
  destruct (Ascii.eqb_spec c a) as [->|Hc].
  - now apply Ascii.eqb_neq.
  - apply Ascii.eqb_neq. congruence.
Qed.

Lemma split_on_nonempty (sep : ascii) (s : string) :
  Text.split_on sep s <> [].
Proof.
  destruct s as [|c s]; cbn [Text.split_on]; [discriminate|].
  destruct (Ascii.eqb c sep); [discriminate|].
  destruct (Text.split_on sep s); discriminate.
Qed.

Lemma join_cons_cons (sep p q : string) (rest : list string) :
  Text.join sep (p :: q :: rest) = p ++ sep ++ Text.join sep (q :: rest).
Proof. reflexivity. Qed.

Lemma join_split_on (sep : ascii) (s : string) :
  Text.join (String sep "") (Text.split_on sep s) = s.
Proof.
  induction s as [|c s IH]; [reflexivity|].
  cbn [Text.split_on].
  pose proof (split_on_nonempty sep s) as Hne.
  destruct (Text.split_on sep s) as [|piece pieces]; [contradiction|].
  destruct (Ascii.eqb_spec c sep) as [->|Hc].
  - rewrite join_cons_cons, IH. reflexivity.
  - destruct pieces as [|q pieces].
    + cbn [Text.join] in *. now rewrite IH.
    + rewrite join_cons_cons in *. rewrite append_cons. now rewrite IH.
Qed.

Lemma split_on_pieces (sep : ascii) (s : string) :
  Forall (fun piece => Text.contains (String sep "") piece = false)
    (Text.split_on sep s).
Proof.
  induction s as [|c s IH]; cbn [Text.split_on].
  - apply Forall_cons. split; [reflexivity | apply Forall_nil; exact I].
  - destruct (Ascii.eqb_spec c sep) as [->|Hc].
    + apply Forall_cons. split; [reflexivity | exact IH].
    + destruct (Text.split_on sep s) as [|piece pieces].
      * apply Forall_cons. split; [|apply Forall_nil; exact I].
        rewrite contains_char_cons.
        apply orb_false_iff. split; [|reflexivity].
        apply Ascii.eqb_neq. congruence.
      * apply Forall_cons in IH as [Hp Hps].
        apply Forall_cons. split; [|exact Hps].
        rewrite contains_char_cons, Hp, orb_false_r.
        apply Ascii.eqb_neq. congruence.
Qed.

Lemma join_last (sep : string) (l : list string) :
  l <> [] ->
  Text.join sep l = List.last l ""
  \/ exists dir, Text.join sep l = dir ++ sep ++ List.last l "".
Proof.
  induction l as [|p l IH]; [contradiction|]. intros _.
  destruct l as [|q l]; [now left|].
  right. rewrite join_cons_cons.
  change (List.last (p :: q :: l) "") with (List.last (q :: l) "").
  assert (Hne : q :: l <> []) by discriminate.
  destruct (IH Hne) as [E|[dir E]].
  - exists p. now rewrite E.
  - exists (p ++ sep ++ dir). rewrite E. now rewrite !append_assoc.
Qed.

Lemma name_of_path (p : Path.t) :
  Text.contains "/" (Path.name p) = false
  /\ (p = Path.name p \/ exists dir, p = dir ++ "/" ++ Path.name p).
Proof.
  unfold Path.name, Path.parts. split.
  - pose proof (split_on_pieces "/" p) as H.
    pose proof (split_on_nonempty "/" p) as Hne.
    induction H as [|x l Hx Hl IH]; [contradiction|].
    destruct l as [|y l]; [exact Hx|].
    apply IH. discriminate.
  - pose proof (join_last "/" (Text.split_on "/" p) (split_on_nonempty "/" p))
      as H.
    now rewrite join_split_on in H.
Qed.

Lemma rfind_dot_None (s : string) :
  Path.rfind_dot s = None -> Text.contains "." s = false.
Proof.
  induction s as [|c s IH]; [reflexivity|].
  cbn [Path.rfind_dot]. destruct (Path.rfind_dot s); [discriminate|].
  rewrite contains_char_cons, (Ascii.eqb_sym "." c).
  destruct (Ascii.eqb c "."); [discriminate|].
  intros _. now rewrite IH.
Qed.

Lemma rfind_dot_Some (s : string) (i : nat) :
  Path.rfind_dot s = Some i ->
  exists e, s = Path.take i s ++ String "." e
            /\ Text.contains "." e = false
            /\ String.length (Path.take i s) = i
            /\ String.length s = (i + 1 + String.length e)%nat.
Proof.
  revert i. induction s as [|c s IH]; intros i; [discriminate|].
  cbn [Path.rfind_dot].
  destruct (Path.rfind_dot s) as [j|] eqn:E.
  - intros [= <-]. destruct (IH j eq_refl) as (e & H1 & H2 & H3 & H4).
    exists e. cbn [Path.take String.length]. rewrite append_cons.
    split; [now rewrite <- H1|]. split; [exact H2|].
    split; [now rewrite H3 | lia].
  - destruct (Ascii.eqb_spec c ".") as [->|]; [|discriminate].
    intros [= <-]. exists s. cbn [Path.take String.length].
    rewrite append_nil_l.
    split; [reflexivity|]. split; [now apply rfind_dot_None|].
    split; [reflexivity | lia].
Qed.

Lemma stem_of_name_spec (nm : string) :
  exists ext,
    nm = Path.stem_of_name nm ++ ext
    /\ (ext = ""
        \/ exists e, ext = String "." e /\ e <> ""
                     /\ Text.contains "." e = false
                     /\ Path.stem_of_name nm <> "").
Proof.
  unfold Path.stem_of_name.
  destruct (Path.rfind_dot nm) as [i|] eqn:E.
  - destruct (rfind_dot_Some nm i E) as (e & H1 & H2 & H3 & H4).
    destruct ((0 <? i)%nat && (i <? String.length nm - 1)%nat) eqn:C.
    + apply andb_prop in C as [C1 C2].
      apply Nat.ltb_lt in C1. apply Nat.ltb_lt in C2.
      exists (String "." e). split; [exact H1|]. right.
      exists e. repeat split; [|exact H2|].
      * intros ->. cbn [String.length] in H4. lia.
      * intros Hz. rewrite Hz in H3. cbn [String.length] in H3. lia.
    + exists "". split; [now rewrite append_nil_r | now left].
  - exists "". split; [now rewrite append_nil_r | now left].
Qed.

Lemma split_on_app (c : ascii) (a b : string) :
  Text.split_on c (a ++ String c b)
  = (Text.split_on c a ++ Text.split_on c b)%list.
Proof.
  induction a as [|d a IH].
  - rewrite append_nil_l. cbn [Text.split_on]. now rewrite Ascii.eqb_refl.
  - rewrite append_cons. cbn [Text.split_on]. rewrite IH.
    pose proof (split_on_nonempty c a) as Hne.
    destruct (Text.split_on c a) as [|piece pieces]; [contradiction|].
    now destruct (Ascii.eqb d c).
Qed.

Lemma split_on_plain (c : ascii) (nm : string) :
  Text.contains (String c "") nm = false -> Text.split_on c nm = [nm].
Proof.
  induction nm as [|d nm IH]; [reflexivity|].
  rewrite contains_char_cons. intros H.
  apply orb_false_iff in H as [Hd Hnm].
  cbn [Text.split_on]. rewrite Ascii.eqb_sym, Hd, (IH Hnm). reflexivity.
Qed.

Lemma name_of_str_dir (dir nm : string) :
  Text.contains "/" nm = false -> nm <> "" -> nm <> "." ->
  Path.name_of_str (dir ++ "/" ++ nm) = nm.
Proof.
  intros Hs He Hd. unfold Path.name_of_str.
  change ("/" ++ nm) with (String "/" nm).
  rewrite split_on_app, (split_on_plain "/" nm Hs), List.filter_app.
  cbn [List.filter].
  apply String.eqb_neq in He. apply String.eqb_neq in Hd.
  rewrite He, Hd. cbn [negb andb]. apply last_last.
Qed.

Lemma name_of_str_plain (nm : string) :
  Text.contains "/" nm = false -> nm <> "" -> nm <> "." ->
  Path.name_of_str nm = nm.
Proof.
  intros Hs He Hd. unfold Path.name_of_str.
  rewrite (split_on_plain "/" nm Hs). cbn [List.filter].
  apply String.eqb_neq in He. apply String.eqb_neq in Hd.
  now rewrite He, Hd.
Qed.

(** X7: a display name holds no underscore; it is made from the last
    component of its argument, so a directory in front of a file name
    changes nothing; and both prefixes are taken off the stem of that
    component in turn: [LCL_] first, then [LC_] from what is left. *)
Theorem X7_display_name_has_no_underscore (file_name : string) :
  Text.contains "_" (make_display_name file_name) = false
  /\ (forall dir,
        Text.contains "/" file_name = false -> file_name <> "" ->
        file_name <> "." ->
        make_display_name (dir ++ "/" ++ file_name)
        = make_display_name file_name)
  /\ (forall rest,
        Path.stem_of_name (Path.name_of_str file_name)
        = "LCL_" ++ "LC_" ++ rest ->
        make_display_name file_name = Text.replace_char "_" " " rest)
  /\ (forall rest,
        Path.stem_of_name (Path.name_of_str file_name) = "LCL_" ++ rest ->
        Text.startswith rest "LC_" = false ->
        make_display_name file_name = Text.replace_char "_" " " rest)
  /\ (forall rest,
        Path.stem_of_name (Path.name_of_str file_name) = "LC_" ++ rest ->
        make_display_name file_name = Text.replace_char "_" " " rest)
  /\ (Text.startswith (Path.stem_of_name (Path.name_of_str file_name))
        "LCL_" = false ->
      Text.startswith (Path.stem_of_name (Path.name_of_str file_name))
        "LC_" = false ->
      make_display_name file_name
      = Text.replace_char "_" " "
          (Path.stem_of_name (Path.name_of_str file_name))).
Proof.
  split; [apply replace_char_absent; discriminate|].
  split.
  { intros dir Hs He Hd. unfold make_display_name.
    now rewrite (name_of_str_dir dir file_name Hs He Hd),
      (name_of_str_plain file_name Hs He Hd). }
  unfold make_display_name. cbn [fold_left].
  set (stem := Path.stem_of_name (Path.name_of_str file_name)).
  split; [|split; [|split]].
  - intros rest ->. now rewrite !strip_prefix_app.
  - intros rest -> H. rewrite strip_prefix_app.
    unfold Text.startswith in H.
    now destruct (Text.strip_prefix "LC_" rest).
  - intros rest ->.
    assert (H : Text.strip_prefix "LCL_" ("LC_" ++ rest) = None)
      by (destruct rest; reflexivity).
    now rewrite H, strip_prefix_app.
  - unfold Text.startswith. intros H1 H2.
    destruct (Text.strip_prefix "LCL_" stem); [discriminate|].
    now destruct (Text.strip_prefix "LC_" stem).
Qed.

(** At a name with both prefixes, behind a directory. *)
Lemma X7_display_name_has_no_underscore_witness :
  make_display_name "garments/LCL_LC_Summer_Dress.fbx" = "Summer Dress".
Proof.
  destruct (X7_display_name_has_no_underscore
              "garments/LCL_LC_Summer_Dress.fbx") as (_ & _ & H & _).
  rewrite (H "Summer_Dress"); reflexivity.
Defined.

(** X8: a path is its file name, alone or behind a directory and a slash;
    the name is the stem followed by nothing or by one extension, a dot
    and at least one character with no further dot; neither the name nor
    the stem holds a slash, so the output path [models/category/stem.glb]
    of [main] lies directly in the directory of the category. *)
Theorem X8_stem_is_the_name_without_extension (fbx : Path.t) :
  (fbx = Path.name fbx \/ exists dir, fbx = dir ++ "/" ++ Path.name fbx)
  /\ Text.contains "/" (Path.name fbx) = false
  /\ (exists ext,
        Path.name fbx = Path.stem fbx ++ ext
        /\ (ext = ""
            \/ exists e, ext = String "." e /\ e <> ""
                         /\ Text.contains "." e = false
                         /\ Path.stem fbx <> ""))
  /\ Text.contains "/" (Path.stem fbx) = false.
Proof.
  destruct (name_of_path fbx) as [Hslash Hdir].
  destruct (stem_of_name_spec (Path.name fbx)) as (ext & Hext & Hcases).
  fold (Path.stem fbx) in Hext, Hcases.
  split; [exact Hdir|]. split; [exact Hslash|].
  split; [now exists ext|].
  rewrite Hext, contains_char_app in Hslash.
  now apply orb_false_iff in Hslash as [H _].
Qed.

(** ** The order of the manifest *)

Lemma ascii_compare_refl (a : ascii) : Ascii.compare a a = Eq.
Proof. apply N.compare_refl. Qed.

Lemma string_compare_refl (s : string) : String.compare s s = Eq.
Proof.
  induction s as [|c s IH]; [reflexivity|].
  cbn [String.compare]. now rewrite ascii_compare_refl.
Qed.

Lemma string_compare_lt_trans (a b c : string) :
  String.compare a b = Lt -> String.compare b c = Lt ->
  String.compare a c = Lt.
Proof.
  revert b c. induction a as [|x a IH]; intros [|y b] [|z c];
    cbn [String.compare]; try discriminate; try reflexivity.
  unfold Ascii.compare.
  destruct (N.compare_spec (N_of_ascii x) (N_of_ascii y)) as [Exy|Lxy|Gxy];
    try discriminate;
    destruct (N.compare_spec (N_of_ascii y) (N_of_ascii z)) as [Eyz|Lyz|Gyz];
    try discriminate; intros H1 H2.
  - rewrite Exy, Eyz, N.compare_refl. now apply (IH b c).
  - rewrite Exy. now apply N.compare_lt_iff in Lyz as ->.
  - rewrite <- Eyz. now apply N.compare_lt_iff in Lxy as ->.
  - assert (L : (N_of_ascii x < N_of_ascii z)%N) by lia.
    now apply N.compare_lt_iff in L as ->.
Qed.

Lemma string_leb_refl (s : string) : String.leb s s = true.
Proof. unfold String.leb. now rewrite string_compare_refl. Qed.

Lemma string_leb_trans (a b c : string) :
  String.leb a b = true -> String.leb b c = true -> String.leb a c = true.
Proof.
  unfold String.leb.
  destruct (String.compare a b) eqn:Eab; try discriminate;
    destruct (String.compare b c) eqn:Ebc; try discriminate; intros _ _.
  - apply String.compare_eq_iff in Eab, Ebc. subst.
    now rewrite string_compare_refl.
  - apply String.compare_eq_iff in Eab. subst. now rewrite Ebc.
  - apply String.compare_eq_iff in Ebc. subst. now rewrite Eab.
  - now rewrite (string_compare_lt_trans a b c Eab Ebc).
Qed.

Section OrderFacts.
Context {A : Type}.
Variable leb : A -> A -> bool.
Hypothesis leb_total : forall a b, leb a b = true \/ leb b a = true.
Hypothesis leb_trans :
  forall a b c, leb a b = true -> leb b c = true -> leb a c = true.

Let le (a b : A) : Prop := leb a b = true.

Lemma insert_behind_perm (x : A) (l : list A) :
  Permutation (x :: l) (insert_behind leb x l).
Proof.
  induction l as [|y l IH]; [reflexivity|].
  cbn [insert_behind]. destruct (leb y x); [|reflexivity].
  rewrite <- IH. apply perm_swap.
Qed.

Lemma insert_behind_sorted (x : A) (l : list A) :
  StronglySorted le l -> StronglySorted le (insert_behind leb x l).
Proof.
  induction 1 as [|y l Hl IH Hy]; cbn [insert_behind].
  - apply SSorted_cons; [apply SSorted_nil | apply List.Forall_nil].
  - destruct (leb y x) eqn:E.
    + apply SSorted_cons; [exact IH|].
      rewrite <- (insert_behind_perm x l).
      apply List.Forall_cons; [exact E | exact Hy].
    + assert (Hxy : le x y).
      { unfold le. destruct (leb_total x y) as [H|H]; [exact H | congruence]. }
      apply SSorted_cons; [now apply SSorted_cons|].
      apply List.Forall_cons; [exact Hxy|].
      eapply List.Forall_impl; [|exact Hy].
      intros z Hz. now apply (leb_trans x y z).
Qed.

Lemma stable_sort_sorted (l : list A) :
  Permutation l (stable_sort leb l) /\ StronglySorted le (stable_sort leb l).
Proof.
  unfold stable_sort.
  assert (H : forall acc,
            StronglySorted le acc ->
            Permutation (acc ++ l)
              (fold_left (fun acc x => insert_behind leb x acc) l acc)
            /\ StronglySorted le
                 (fold_left (fun acc x => insert_behind leb x acc) l acc)).
  { induction l as [|x l IH]; intros acc Hacc; cbn [fold_left].
    - rewrite app_nil_r. now split.
    - destruct (IH (insert_behind leb x acc) (insert_behind_sorted x acc Hacc))
        as [H1 H2].
      split; [|exact H2].
      rewrite <- H1, <- (insert_behind_perm x acc).
      cbn [app]. apply Permutation_sym, Permutation_middle. }
  apply (H [] (SSorted_nil le)).
Qed.

End OrderFacts.

Section SortFacts.
Context {A : Type}.
Variable key : A -> string.

Let leb (a b : A) : bool := String.leb (key a) (key b).
Let le (a b : A) : Prop := String.leb (key a) (key b) = true.
Let same (n : string) (a : A) : bool := String.eqb (key a) n.

Lemma key_leb_total (a b : A) : leb a b = true \/ leb b a = true.
Proof. apply String.leb_total. Qed.

Lemma key_leb_trans (a b c : A) :
  leb a b = true -> leb b c = true -> leb a c = true.
Proof. apply string_leb_trans. Qed.

Lemma insert_behind_stable (n : string) (x : A) (l : list A) :
  StronglySorted le l ->
  List.filter (same n) (insert_behind leb x l)
  = (List.filter (same n) l ++ List.filter (same n) [x])%list.
Proof.
  induction 1 as [|y l Hl IH Hy]; cbn [insert_behind]; [reflexivity|].
  destruct (leb y x) eqn:E.
  - cbn [List.filter]. rewrite IH.
    destruct (same n y); reflexivity.
  - change (x :: y :: l) with ([x] ++ y :: l)%list.
    rewrite List.filter_app.
    destruct (String.eqb_spec (key x) n) as [Hx|Hx].
    + assert (H : List.filter (same n) (y :: l) = []).
      { apply filter_none. intros z Hz. unfold same.
        apply String.eqb_neq. intros Hzn.
        assert (Hyz : le y z).
        { destruct Hz as [<-|Hz]; [apply string_leb_refl|].
          apply (proj1 (List.Forall_forall _ _) Hy z Hz). }
        unfold le in Hyz. unfold leb in E. congruence. }
      rewrite H. now rewrite app_nil_r.
    + assert (H : List.filter (same n) [x] = []).
      { cbn [List.filter]. unfold same.
        now apply String.eqb_neq in Hx as ->. }
      rewrite H. now rewrite app_nil_r.
Qed.

Lemma stable_sort_stable (l : list A) (n : string) :
  List.filter (same n) (stable_sort leb l) = List.filter (same n) l.
Proof.
  unfold stable_sort.
  assert (H : forall acc,
            StronglySorted le acc ->
            List.filter (same n)
              (fold_left (fun acc x => insert_behind leb x acc) l acc)
            = (List.filter (same n) acc ++ List.filter (same n) l)%list).
  { induction l as [|x l IH]; intros acc Hacc; cbn [fold_left].
    - cbn [List.filter]. now rewrite app_nil_r.
    - rewrite IH
        by apply (insert_behind_sorted leb key_leb_total key_leb_trans x acc Hacc).
      rewrite (insert_behind_stable n x acc Hacc), <- app_assoc. f_equal.
      change (x :: l) with ([x] ++ l)%list. now rewrite List.filter_app. }
  now rewrite (H [] (SSorted_nil le)).
Qed.

Lemma stable_sort_spec (l : list A) :
  Permutation l (stable_sort leb l)
  /\ StronglySorted le (stable_sort leb l)
  /\ forall n, List.filter (same n) (stable_sort leb l)
               = List.filter (same n) l.
Proof.
  destruct (stable_sort_sorted leb key_leb_total key_leb_trans l) as [H1 H2].
  split; [exact H1|]. split; [exact H2|]. apply stable_sort_stable.
Qed.

End SortFacts.

(** X9: sorting the manifest leaves the keys as they are and turns the
    list of each category into a rearrangement of itself that ascends by
    display name, entries of equal display name keeping the order in which
    they were appended. *)
Theorem X9_manifest_is_sorted_by_name (st : state) (cat : string)
    (l : list Entry.t) :
  manifest st !! cat = Some l ->
  exists l',
    manifest (sort_manifest st) !! cat = Some l'
    /\ Permutation l l'
    /\ StronglySorted name_le l'
    /\ forall n, List.filter (has_name n) l' = List.filter (has_name n) l.
Proof.
  intros H.
  exists (stable_sort (fun a b => String.leb (Entry.name a) (Entry.name b)) l).
  split.
  - cbn [sort_manifest manifest]. rewrite lookup_fmap, H. reflexivity.
  - apply (stable_sort_spec Entry.name l).
Qed.

(** At the sample files: the two garments are appended in the order of
    their paths, the jacket first, and sorted by display name. *)
Lemma X9_manifest_is_sorted_by_name_witness :
  exists l',
    manifest (sort_manifest (loop_end (fixed_tool "" "") [] id sample_files))
      !! "clothing" = Some l'
    /\ map Entry.name l' = ["Jacket"; "Shirt"].
Proof.
  assert (H : manifest (loop_end (fixed_tool "" "") [] id sample_files)
                !! "clothing"
              = Some (default [] (manifest (loop_end (fixed_tool "" "") [] id
                                              sample_files) !! "clothing")))
    by (vm_compute; reflexivity).
  destruct (X9_manifest_is_sorted_by_name _ _ _ H) as (l' & Hl' & _ & _ & _).
  exists l'. split; [exact Hl'|].
  assert (E : Some (map Entry.name l') = Some ["Jacket"; "Shirt"]).
  { change (Some (map Entry.name l')) with (map Entry.name <$> Some l').
    rewrite <- Hl'. vm_compute. reflexivity. }
  now injection E.
Defined.


(** ** The effect of a turn and of the loop *)

Section RunFacts.
Variable assimp : tool.

Lemma ran_refl (st : state) : ran st [] st.
Proof. unfold ran. now rewrite app_nil_r. Qed.

Lemma ran_trans (st st1 st2 : state) (l1 l2 : list call) :
  ran st l1 st1 -> ran st1 l2 st2 -> ran st (l1 ++ l2) st2.
Proof.
  unfold ran. intros (A1 & A2 & A3 & A4) (B1 & B2 & B3 & B4).
  rewrite B1, A1, app_assoc. repeat split; congruence.
Qed.

Lemma ran_log (c : call) (st : state) : ran st [c] (log_call c st).
Proof. repeat split. Qed.

Lemma count_real_joints_ran (fbx : Path.t) (st : state) :
  ran st [Dump fbx] (snd (count_real_joints assimp fbx st)).
Proof. repeat split. Qed.

(** What an analysis returns and runs. *)
Lemma analyze_fbx_run (fbx : Path.t) (st : state) :
  (info_fails assimp fbx st
   /\ exists msg,
        analyze_fbx assimp fbx st
        = (Dict.of_error msg, log_call (Info fbx) st))
  \/ (exists r m,
        assimp (calls st) (Info fbx) = Completed r
        /\ returncode r = 0
        /\ parse_assimp_info (stdout r) = Ok m
        /\ analyze_fbx assimp fbx st
           = (dict_of_metrics m
                (fst (count_real_joints assimp fbx (log_call (Info fbx) st))),
              log_call (Dump fbx) (log_call (Info fbx) st))).
Proof.
  unfold info_fails, analyze_fbx, bind, run, ret.
  destruct (assimp (calls st) (Info fbx)) as [r|msg] eqn:Ea.
  - destruct (Z.eqb_spec (returncode r) 0) as [E|E]; cbn [negb].
    + destruct (parse_assimp_info (stdout r)) as [m|e] eqn:Ep.
      * right. exists r, m. split; [reflexivity|]. split; [exact E|].
        split; [exact Ep|].
        unfold count_real_joints, bind, run, ret. reflexivity.
      * left. split; [right; now exists e|]. now eexists.
    + left. split; [now left|]. now eexists.
  - left. split; [exact I|]. now eexists.
Qed.

Lemma select_metrics_ran (pre : gmap string Dict.t) (fbx : Path.t)
    (st st2 : state) (d : Dict.t) :
  select_metrics assimp pre fbx st = (d, st2) ->
  (pre !! Path.name fbx = Some d /\ ran st [] st2)
  \/ (pre !! Path.name fbx = None /\ joints_untrusted d
      /\ ran st [Info fbx] st2)
  \/ (pre !! Path.name fbx = None /\ ran st [Info fbx; Dump fbx] st2).
Proof.
  unfold select_metrics.
  destruct (pre !! Path.name fbx) as [d0|] eqn:E.
  - intros [= <- <-]. left. split; [reflexivity | apply ran_refl].
  - destruct (analyze_fbx_run fbx st) as [(_ & msg & ->)|(r & m & _ & _ & _ & ->)];
      intros [= <- <-]; right.
    + left. split; [reflexivity|]. split; [exact I | apply ran_log].
    + right. split; [reflexivity|].
      apply (ran_trans st (log_call (Info fbx) st) _ [Info fbx] [Dump fbx]);
        apply ran_log.
Qed.

Lemma settle_joints_ran (d : Dict.t) (fbx : Path.t) (st st3 : state)
    (joints : Z) :
  settle_joints assimp d fbx st = (joints, st3) ->
  (~ joints_untrusted d /\ ran st [] st3)
  \/ (joints_untrusted d /\ ran st [Dump fbx] st3).
Proof.
  destruct (joints_trusted_or_not d) as [(n & Hn & Hpos)|Hun].
  - rewrite (settle_joints_trusted assimp d fbx st n Hn Hpos).
    intros [= <- <-]. left. split; [|apply ran_refl].
    unfold joints_untrusted. rewrite Hn. lia.
  - rewrite (settle_joints_recount assimp d fbx st Hun). intros H.
    right. split; [exact Hun|].
    pose proof (count_real_joints_ran fbx st) as Hr. now rewrite H in Hr.
Qed.

Lemma after_conversion_ran (fbx : Path.t) (st : state) :
  calls (after_conversion fbx st)
  = (calls st ++ [Export fbx (glb_rel_of fbx)])%list
  /\ manifest (after_conversion fbx st) = manifest st
  /\ converted (after_conversion fbx st) = converted st + 1
  /\ skipped (after_conversion fbx st) = skipped st.
Proof. repeat split. Qed.

(** The three ways a turn can go. *)
Lemma process_file_cases (pre : gmap string Dict.t) (fbx : Path.t)
    (st : state) :
  (should_skip fbx = true
   /\ process_file assimp pre fbx st = (None, count_skipped st))
  \/ (should_skip fbx = false
      /\ process_file assimp pre fbx st
         = (None, log_call (Export fbx (glb_rel_of fbx)) st))
  \/ (should_skip fbx = false
      /\ exists e st', process_file assimp pre fbx st = (Some e, st')).
Proof.
  unfold process_file. fold (glb_rel_of fbx).
  destruct (should_skip fbx); [left; now split|right].
  unfold bind, update, ret.
  destruct (convert_fbx_to_glb assimp fbx (glb_rel_of fbx) st) as [ok st0] eqn:Ec.
  assert (Hst0 : st0 = log_call (Export fbx (glb_rel_of fbx)) st).
  { unfold convert_fbx_to_glb, bind, run, ret in Ec. now injection Ec. }
  subst st0. destruct ok; [right | left; now split].
  split; [reflexivity|].
  destruct (select_metrics assimp pre fbx
              (count_converted (log_call (Export fbx (glb_rel_of fbx)) st)))
    as [d st2].
  destruct (settle_joints assimp d fbx st2) as [joints st3].
  eexists _, _. reflexivity.
Qed.

(** The runs and the state of a turn. *)
Lemma process_file_effect (pre : gmap string Dict.t) (fbx : Path.t)
    (st st' : state) (res : option Entry.t) :
  process_file assimp pre fbx st = (res, st') ->
  exists l,
    calls st' = (calls st ++ l)%list
    /\ In l (turn_patterns fbx)
    /\ (l = [] <-> should_skip fbx = true)
    /\ (In (Info fbx) l -> pre !! Path.name fbx = None)
    /\ skipped st' = skipped st + (if should_skip fbx then 1 else 0)
    /\ match res with
       | None => manifest st' = manifest st /\ converted st' = converted st
       | Some e =>
           should_skip fbx = false
           /\ entry_of [fbx] e
           /\ manifest st'
              = alter (fun l => (l ++ [e])%list) (categorize fbx) (manifest st)
           /\ converted st' = converted st + 1
           /\ (pre !! Path.name fbx = None -> In (Info fbx) l)
       end.
Proof.
  intros Hrun.
  destruct (process_file_cases pre fbx st)
    as [[Hs E]|[[Hs E]|[Hs (e & st1 & E)]]];
    rewrite E in Hrun; injection Hrun as <- <-; rewrite Hs.
  - exists []. cbn [count_skipped calls manifest converted skipped].
    rewrite app_nil_r. unfold turn_patterns.
    split; [reflexivity|]. split; [now left|]. split; [now split|].
    split; [intros []|]. split; [reflexivity|]. now split.
  - exists [Export fbx (glb_rel_of fbx)].
    cbn [log_call calls manifest converted skipped]. unfold turn_patterns.
    split; [reflexivity|]. split; [right; now left|].
    split; [split; discriminate|].
    split; [intros [H|[]]; discriminate|]. split; [lia|]. now split.
  - destruct (process_file_Some' assimp pre fbx st st1 e E)
      as (d & st2 & joints & st3 & Hsel & Hset & He & ->).
    destruct (after_conversion_ran fbx st) as (C1 & C2 & C3 & C4).
    assert (Hruns : exists l1,
               ran (after_conversion fbx st) l1 st3
               /\ In (Export fbx (glb_rel_of fbx) :: l1) (turn_patterns fbx)
               /\ (In (Info fbx) l1 <-> pre !! Path.name fbx = None)).
    { unfold turn_patterns.
      destruct (select_metrics_ran pre fbx _ _ _ Hsel)
        as [[Hp R1]|[(Hp & Hu & R1)|[Hp R1]]];
        destruct (settle_joints_ran d fbx _ _ _ Hset) as [[Hu' R2]|[Hu' R2]];
        try contradiction;
        eexists; (split; [exact (ran_trans _ _ _ _ _ R1 R2)|]);
        cbn [app In]; (split; [auto 10|]);
        (split;
         [intros H; repeat (destruct H as [H|H]; try discriminate);
          try contradiction; exact Hp
         |intros Hn; first [congruence | auto]]). }
    destruct Hruns as (l1 & (R1 & R2 & R3 & R4) & Hpat & Hinfo).
    exists (Export fbx (glb_rel_of fbx) :: l1).
    cbn [append_entry calls manifest converted skipped].
    split; [rewrite R1, C1, <- app_assoc; reflexivity|].
    split; [exact Hpat|]. split; [split; discriminate|].
    split; [intros [H|H]; [discriminate | now apply Hinfo]|].
    split; [lia|]. split; [reflexivity|].
    split; [|split; [now rewrite R2, C2|split; [now rewrite R3, C3|]]];
      [|intros Hn; right; now apply Hinfo].
    exists fbx. subst e. cbn [build_entry Entry.id Entry.name Entry.category
                                Entry.file].
    repeat split; auto. now left.
Qed.

End RunFacts.

Lemma categorize_cases (fbx : Path.t) :
  categorize fbx = "rigs" \/ categorize fbx = "clothing"
  \/ categorize fbx = "cage_deformers".
Proof.
  unfold categorize.
  destruct (Text.startswith _ "rigs/"); [now left|].
  destruct (Text.startswith _ "cage_deformer/cube/"); auto.
Qed.

Lemma entry_of_mono (files files' : list Path.t) (e : Entry.t) :
  (forall f, In f files -> In f files') ->
  entry_of files e -> entry_of files' e.
Proof. intros H (fbx & Hin & Hrest). exists fbx. split; [now apply H | exact Hrest]. Qed.

Lemma call_of_mono (files files' : list Path.t) (c : call) :
  (forall f, In f files -> In f files') ->
  call_of files c -> call_of files' c.
Proof. intros H (fbx & Hin & Hrest). exists fbx. split; [now apply H | exact Hrest]. Qed.

Lemma turn_pattern_calls (fbx : Path.t) (l : list call) :
  In l (turn_patterns fbx) ->
  (length l <= 4)%nat
  /\ (should_skip fbx = false -> List.Forall (call_of [fbx]) l)
  /\ (l <> [] -> exports l = [(fbx, glb_rel_of fbx)]).
Proof.
  unfold turn_patterns. intros H.
  assert (Hc : should_skip fbx = false ->
               call_of [fbx] (Export fbx (glb_rel_of fbx))
               /\ call_of [fbx] (Info fbx) /\ call_of [fbx] (Dump fbx)).
  { intros Hs. repeat split; exists fbx; (split; [now left|]);
      (split; [exact Hs|]); auto. }
  repeat (destruct H as [<-|H]); try contradiction;
    (split; [cbn; lia|]);
    (split; [intros Hs; destruct (Hc Hs) as (? & ? & ?);
             repeat constructor; assumption
            | intros Hne; try contradiction; reflexivity]).
Qed.

Lemma exports_app (a b : list call) :
  exports (a ++ b) = (exports a ++ exports b)%list.
Proof. unfold exports. apply omap_app. Qed.

Section LoopEffect.
Variable assimp : tool.

(** The runs and the state of the whole loop. *)
Lemma process_files_effect (pre : gmap string Dict.t) (files : list Path.t) :
  forall (st st' : state) (res : list (option Entry.t)),
    process_files assimp pre files st = (res, st') ->
    exists l,
      calls st' = (calls st ++ l)%list
      /\ List.Forall (call_of files) l
      /\ exports l = map (fun f => (f, glb_rel_of f)) (not_skipped files)
      /\ (length l <= 4 * length (not_skipped files))%nat
      /\ (length (not_skipped files)
          + length (List.filter should_skip files) = length files)%nat
      /\ skipped st'
         = skipped st + Z.of_nat (length (List.filter should_skip files))
      /\ converted st' = converted st + Z.of_nat (length (appended res))
      /\ (length (appended res) <= length (not_skipped files))%nat
      /\ List.Forall (entry_of files) (appended res)
      /\ forall cat,
           manifest st' !! cat
           = (fun l0 => (l0 ++ in_category cat (appended res))%list)
               <$> manifest st !! cat.
Proof.
  induction files as [|f rest IH]; intros st st' res.
  - cbn [process_files ret]. intros [= <- <-]. exists [].
    rewrite app_nil_r. cbn.
    repeat split; try constructor; try lia.
    intros cat. destruct (manifest st !! cat) as [l0|]; [|reflexivity].
    cbn. now rewrite app_nil_r.
  - cbn [process_files]. unfold bind, ret.
    destruct (process_file assimp pre f st) as [e st1] eqn:E1.
    destruct (process_files assimp pre rest st1) as [es st2] eqn:E2.
    intros [= <- <-].
    destruct (process_file_effect assimp pre f st st1 e E1)
      as (l1 & A1 & A2 & A3 & _ & A5 & A6).
    destruct (IH st1 st2 es E2)
      as (l2 & B1 & B2 & B3 & B4 & B5 & B6 & B7 & B8 & B9 & B10).
    destruct (turn_pattern_calls f l1 A2) as (P1 & P2 & P3).
    exists (l1 ++ l2)%list.
    assert (Hin1 : forall g, In g [f] -> In g (f :: rest))
      by (intros g [<-|[]]; now left).
    assert (Hin2 : forall g, In g rest -> In g (f :: rest))
      by (intros g Hg; now right).
    assert (Hskip : skipped st2
                    = skipped st
                      + Z.of_nat (length (List.filter should_skip (f :: rest)))).
    { rewrite B6, A5. cbn [List.filter].
      destruct (should_skip f); cbn [length]; lia. }
    assert (Hcalls : List.Forall (call_of (f :: rest)) (l1 ++ l2)).
    { apply List.Forall_app. split.
      - destruct (should_skip f) eqn:Hs.
        + assert (l1 = []) as -> by now apply A3. constructor.
        + eapply List.Forall_impl; [|exact (P2 eq_refl)].
          intros c. now apply call_of_mono.
      - eapply List.Forall_impl; [|exact B2].
        intros c. now apply call_of_mono. }
    assert (Hall : List.Forall (entry_of (f :: rest)) (appended es)).
    { eapply List.Forall_impl; [|exact B9].
      intros x. now apply entry_of_mono. }
    split; [rewrite B1, A1, app_assoc; reflexivity|].
    split; [exact Hcalls|].
    unfold not_skipped in *. cbn [List.filter]. cbn [List.filter] in Hskip.
    destruct (should_skip f) eqn:Hs; cbn [negb]; cbn [length] in Hskip.
    + assert (l1 = []) as -> by now apply A3.
      destruct e as [e|]; [now destruct A6|]. destruct A6 as [A6 A7].
      cbn [app length]. change (appended (None :: es)) with (appended es).
      split; [exact B3|]. split; [exact B4|]. split; [lia|].
      split; [exact Hskip|]. split; [lia|]. split; [exact B8|].
      split; [exact Hall|].
      intros cat. now rewrite B10, A6.
    + assert (Hne : l1 <> []) by (intros ->; destruct A3 as [A3 _];
                                  specialize (A3 eq_refl); discriminate).
      rewrite exports_app, (P3 Hne), B3. rewrite length_app.
      cbn [length map app].
      split; [reflexivity|]. split; [lia|]. split; [lia|].
      split; [exact Hskip|].
      destruct e as [e|].
      * destruct A6 as (_ & A6 & A7 & A8 & _).
        change (appended (Some e :: es)) with (e :: appended es).
        cbn [length].
        split; [lia|]. split; [lia|].
        split; [constructor; [now apply (entry_of_mono [f])|exact Hall]|].
        assert (Hcat : Entry.category e = categorize f).
        { destruct A6 as (g & [<-|[]] & _ & _ & _ & Hc & _). exact Hc. }
        intros cat. rewrite B10, A7. unfold in_category. cbn [List.filter].
        rewrite Hcat.
        destruct (String.eqb_spec (categorize f) cat) as [<-|Hc].
        -- rewrite lookup_alter_eq.
           destruct (manifest st !! categorize f) as [l0|]; [|reflexivity].
           cbn. now rewrite <- app_assoc.
        -- now rewrite lookup_alter_ne.
      * destruct A6 as [A6 A7].
        change (appended (None :: es)) with (appended es).
        split; [lia|]. split; [lia|]. split; [exact Hall|].
        intros cat. now rewrite B10, A6.
Qed.

End LoopEffect.

(** ** The whole run *)

Lemma insert_behind_In {A : Type} (leb : A -> A -> bool) (x g : A)
    (l : list A) :
  In g (insert_behind leb x l) <-> g = x \/ In g l.
Proof.
  induction l as [|y l IHl]; cbn [insert_behind In].
  - intuition.
  - destruct (leb y x); cbn [In]; rewrite ?IHl; intuition.
Qed.

Lemma stable_sort_In {A : Type} (leb : A -> A -> bool) (g : A) (l : list A) :
  In g (stable_sort leb l) <-> In g l.
Proof.
  unfold stable_sort.
  assert (H : forall acc,
            In g (fold_left (fun acc x => insert_behind leb x acc) l acc)
            <-> In g l \/ In g acc).
  { induction l as [|x l IHl]; intros acc; cbn [fold_left In].
    - intuition.
    - rewrite IHl, insert_behind_In. intuition. }
  rewrite H. cbn [In]. intuition.
Qed.

Lemma unique_fbx_In (resolve : Path.t -> string) (fbx_files : list Path.t)
    (f : Path.t) :
  In f (unique_fbx resolve fbx_files) -> In f fbx_files.
Proof.
  unfold unique_fbx. intros H.
  destruct (dedup_resolved_spec resolve
              (stable_sort (fun a b => parts_leb (Path.parts a) (Path.parts b))
                 fbx_files) ∅) as (_ & H2 & _).
  apply H2 in H as [H _]. now apply stable_sort_In in H.
Qed.

Lemma in_category_total (l : list Entry.t) :
  List.Forall (fun e => Entry.category e = "rigs"
                        \/ Entry.category e = "clothing"
                        \/ Entry.category e = "cage_deformers") l ->
  length l
  = (length (in_category "rigs" l) + length (in_category "clothing" l)
     + length (in_category "cage_deformers" l))%nat.
Proof.
  unfold in_category.
  induction 1 as [|e l He _ IH]; [reflexivity|].
  cbn [List.filter length].
  destruct He as [-> | [-> | ->]]; cbn [String.eqb Ascii.eqb Bool.eqb andb length];
    lia.
Qed.

Lemma in_category_In (cat : string) (l : list Entry.t) (e : Entry.t) :
  In e (in_category cat l) <-> In e l /\ Entry.category e = cat.
Proof.
  unfold in_category. rewrite filter_In. now rewrite String.eqb_eq.
Qed.

Section MainFacts.
Variable assimp : tool.
Variable files : list (option (list (string * Dict.t))).
Variable resolve : Path.t -> string.
Variable fbx_files : list Path.t.

Lemma main_eq :
  main assimp files resolve fbx_files
  = sort_manifest (loop_end assimp files resolve fbx_files).
Proof.
  unfold main, loop_end.
  now destruct (process_files assimp (load_precomputed files)
                  (unique_fbx resolve fbx_files) initial_state).
Qed.

(** The state [main] ends in. *)
Lemma main_run :
  exists (added : list Entry.t) (l : list call),
    calls (main assimp files resolve fbx_files) = l
    /\ List.Forall (call_of fbx_files) l
    /\ exports l
       = map (fun f => (f, glb_rel_of f))
           (not_skipped (unique_fbx resolve fbx_files))
    /\ (length l <= 4 * length (not_skipped (unique_fbx resolve fbx_files)))%nat
    /\ (length (not_skipped (unique_fbx resolve fbx_files))
        + length (List.filter should_skip (unique_fbx resolve fbx_files))
        = length (unique_fbx resolve fbx_files))%nat
    /\ skipped (main assimp files resolve fbx_files)
       = Z.of_nat (length (List.filter should_skip
                             (unique_fbx resolve fbx_files)))
    /\ converted (main assimp files resolve fbx_files)
       = Z.of_nat (length added)
    /\ (length added <= length (not_skipped (unique_fbx resolve fbx_files)))%nat
    /\ List.Forall (entry_of fbx_files) added
    /\ manifest (main assimp files resolve fbx_files)
       = {[ "rigs" :=
              stable_sort
                (fun a b => String.leb (Entry.name a) (Entry.name b))
                (in_category "rigs" added);
            "clothing" :=
              stable_sort
                (fun a b => String.leb (Entry.name a) (Entry.name b))
                (in_category "clothing" added);
            "cage_deformers" :=
              stable_sort
                (fun a b => String.leb (Entry.name a) (Entry.name b))
                (in_category "cage_deformers" added) ]}.
Proof.
  rewrite main_eq. unfold loop_end.
  destruct (process_files assimp (load_precomputed files)
              (unique_fbx resolve fbx_files) initial_state)
    as [res st'] eqn:E.
  destruct (process_files_effect assimp _ _ _ _ _ E)
    as (l & B1 & B2 & B3 & B4 & B5 & B6 & B7 & B8 & B9 & B10).
  exists (appended res), l.
  cbn [snd sort_manifest calls manifest converted skipped].
  split; [exact B1|].
  split; [eapply List.Forall_impl; [|exact B2]; intros c;
          apply call_of_mono; apply unique_fbx_In|].
  split; [exact B3|]. split; [exact B4|]. split; [exact B5|].
  split; [rewrite B6; cbn [initial_state skipped]; lia|].
  split; [rewrite B7; cbn [initial_state converted]; lia|].
  split; [exact B8|].
  split; [eapply List.Forall_impl; [|exact B9]; intros c;
          apply entry_of_mono; apply unique_fbx_In|].
  apply map_eq. intros cat. rewrite lookup_fmap, B10.
  cbn [initial_state manifest].
  destruct (decide (cat = "rigs")) as [->|H1].
  { now rewrite !lookup_insert_eq. }
  rewrite !(lookup_insert_ne _ "rigs") by congruence.
  destruct (decide (cat = "clothing")) as [->|H2].
  { now rewrite !lookup_insert_eq. }
  rewrite !(lookup_insert_ne _ "clothing") by congruence.
  destruct (decide (cat = "cage_deformers")) as [->|H3].
  { now rewrite !lookup_singleton_eq. }
  now rewrite !lookup_singleton_ne by congruence.
Qed.

End MainFacts.

(** X10: when [main] ends, the manifest has exactly the three category
    keys, the number of entries in it is the number of files converted,
    every skipped file of the deduplicated list is counted as skipped, and
    the two counters together never exceed the number of files of that
    list. *)
Theorem X10_manifest_size_is_the_converted_count (assimp : tool)
    (files : list (option (list (string * Dict.t))))
    (resolve : Path.t -> string) (fbx_files : list Path.t) :
  exists rigs clothing cage : list Entry.t,
    manifest (main assimp files resolve fbx_files)
    = {[ "rigs" := rigs; "clothing" := clothing; "cage_deformers" := cage ]}
    /\ converted (main assimp files resolve fbx_files)
       = Z.of_nat (length rigs + length clothing + length cage)
    /\ skipped (main assimp files resolve fbx_files)
       = Z.of_nat (length (List.filter should_skip
                             (unique_fbx resolve fbx_files)))
    /\ converted (main assimp files resolve fbx_files)
       + skipped (main assimp files resolve fbx_files)
       <= Z.of_nat (length (unique_fbx resolve fbx_files)).
Proof.
  destruct (main_run assimp files resolve fbx_files)
    as (added & l & _ & _ & _ & _ & H5 & H6 & H7 & H8 & H9 & H10).
  eexists _, _, _. split; [exact H10|].
  assert (Hlen : forall cat,
            length (stable_sort
                      (fun a b => String.leb (Entry.name a) (Entry.name b))
                      (in_category cat added))
            = length (in_category cat added)).
  { intros cat. symmetry. apply Permutation_length.
    apply (stable_sort_spec Entry.name). }
  rewrite !Hlen, <- in_category_total.
  - split; [exact H7|]. split; [exact H6|]. lia.
  - eapply List.Forall_impl; [|exact H9].
    intros e (fbx & _ & _ & _ & _ & -> & _). apply categorize_cases.
Qed.

(** X11: every entry of the final manifest stands under the key of its own
    category, and it is the entry of a discovered file that is not
    skipped: its id is the file's stem, its name the display name of the
    file's name, its category the file's category and its file the output
    path [models/category/id.glb]. *)
Theorem X11_entries_stand_under_their_category (assimp : tool)
    (files : list (option (list (string * Dict.t))))
    (resolve : Path.t -> string) (fbx_files : list Path.t)
    (cat : string) (l : list Entry.t) (e : Entry.t) :
  manifest (main assimp files resolve fbx_files) !! cat = Some l ->
  In e l ->
  Entry.category e = cat
  /\ entry_of fbx_files e
  /\ Entry.file e = "models/" ++ cat ++ "/" ++ Entry.id e ++ ".glb".
Proof.
  destruct (main_run assimp files resolve fbx_files)
    as (added & l0 & _ & _ & _ & _ & _ & _ & _ & _ & H9 & H10).
  rewrite H10. intros Hl He.
  assert (Hin : In e (in_category cat added)).
  { destruct (decide (cat = "rigs")) as [->|H1].
    { rewrite lookup_insert_eq in Hl. injection Hl as <-.
      now apply stable_sort_In in He. }
    rewrite (lookup_insert_ne _ "rigs") in Hl by congruence.
    destruct (decide (cat = "clothing")) as [->|H2].
    { rewrite lookup_insert_eq in Hl. injection Hl as <-.
      now apply stable_sort_In in He. }
    rewrite (lookup_insert_ne _ "clothing") in Hl by congruence.
    destruct (decide (cat = "cage_deformers")) as [->|H3].
    { rewrite lookup_singleton_eq in Hl. injection Hl as <-.
      now apply stable_sort_In in He. }
    rewrite lookup_singleton_ne in Hl by congruence. discriminate. }
  apply in_category_In in Hin as [Hin Hcat].
  pose proof (proj1 (List.Forall_forall _ _) H9 e Hin) as Hof.
  split; [exact Hcat|]. split; [exact Hof|].
  destruct Hof as (fbx & _ & _ & Hid & _ & Hc & Hf).
  rewrite Hf, Hid, <- Hcat, Hc. reflexivity.
Qed.

(** At the sample files: every entry under the key of the garments is a
    garment, and there are two of them. *)
Lemma X11_entries_stand_under_their_category_witness :
  exists l,
    manifest (main (fixed_tool "" "") [] id sample_files) !! "clothing"
    = Some l
    /\ length l = 2%nat
    /\ List.Forall (fun e => Entry.category e = "clothing"
                             /\ Entry.file e
                                = "models/clothing/" ++ Entry.id e ++ ".glb") l.
Proof.
  assert (H : manifest (main (fixed_tool "" "") [] id sample_files)
                !! "clothing"
              = Some (default [] (manifest (main (fixed_tool "" "") [] id
                                              sample_files) !! "clothing")))
    by (vm_compute; reflexivity).
  eexists. split; [exact H|]. split; [vm_compute; reflexivity|].
  apply List.Forall_forall. intros e He.
  destruct (X11_entries_stand_under_their_category _ _ _ _ _ _ e H He)
    as (H1 & _ & H3).
  split; [exact H1 | exact H3].
Defined.


(** X12: the tool is only ever run on discovered files that are not
    skipped; the exports of a run are those of the files of the
    deduplicated list that are not skipped, in the order of the list, one
    export for each file to its output path; and the run makes at most
    four times as many runs of the tool as there are such files. *)
Theorem X12_tool_runs_of_a_whole_run (assimp : tool)
    (files : list (option (list (string * Dict.t))))
    (resolve : Path.t -> string) (fbx_files : list Path.t) :
  List.Forall (call_of fbx_files) (calls (main assimp files resolve fbx_files))
  /\ exports (calls (main assimp files resolve fbx_files))
     = map (fun f => (f, glb_rel_of f))
         (not_skipped (unique_fbx resolve fbx_files))
  /\ (length (calls (main assimp files resolve fbx_files))
      <= 4 * length (not_skipped (unique_fbx resolve fbx_files)))%nat.
Proof.
  destruct (main_run assimp files resolve fbx_files)
    as (added & l & -> & H2 & H3 & H4 & _).
  now split; [|split].
Qed.

(** X13: the runs of the tool in one turn follow one of five patterns:
    none for a skipped file; the export alone; the export and a dump; the
    export, the analysis and a dump; or these three and a second dump.  An
    analysis is run only for a file with no precomputed record, and the
    analysis of a file that gets an entry is always followed by a dump. *)
Theorem X13_runs_of_one_turn (assimp : tool) (pre : gmap string Dict.t)
    (fbx : Path.t) (st : state) :
  exists l,
    calls (snd (process_file assimp pre fbx st)) = (calls st ++ l)%list
    /\ In l [[];
             [Export fbx (glb_rel_of fbx)];
             [Export fbx (glb_rel_of fbx); Dump fbx];
             [Export fbx (glb_rel_of fbx); Info fbx; Dump fbx];
             [Export fbx (glb_rel_of fbx); Info fbx; Dump fbx; Dump fbx]]
    /\ (l = [] <-> should_skip fbx = true)
    /\ (In (Info fbx) l -> pre !! Path.name fbx = None)
    /\ (forall e, fst (process_file assimp pre fbx st) = Some e ->
                  pre !! Path.name fbx = None ->
                  In (Info fbx) l /\ In (Dump fbx) l).
Proof.
  destruct (process_file assimp pre fbx st) as [res st'] eqn:E.
  destruct (process_file_effect assimp pre fbx st st' res E)
    as (l & H1 & H2 & H3 & H4 & _ & H6).
  exists l. cbn [fst snd].
  split; [exact H1|]. split; [exact H2|]. split; [exact H3|].
  split; [exact H4|].
  intros e -> Hn. destruct H6 as (_ & _ & _ & _ & H6).
  specialize (H6 Hn). split; [exact H6|].
  unfold turn_patterns in H2. cbn [In] in H2, H6 |- *.
  repeat (destruct H2 as [<-|H2]); cbn [In] in H6 |- *;
    try contradiction; intuition discriminate.
Qed.

(** ** The characters of a rendered number *)

Lemma all_chars_impl (f g : ascii -> bool) (s : string) :
  (forall c, f c = true -> g c = true) ->
  Text.all_chars f s = true -> Text.all_chars g s = true.
Proof.
  intros H. induction s as [|c s IH]; [reflexivity|].
  cbn [Text.all_chars]. intros Hs. apply andb_prop in Hs as [Hc Hs].
  now rewrite (H c Hc), (IH Hs).
Qed.

Lemma all_chars_app (f : ascii -> bool) (a b : string) :
  Text.all_chars f (a ++ b) = Text.all_chars f a && Text.all_chars f b.
Proof.
  induction a as [|c a IH]; [now rewrite append_nil_l|].
  rewrite append_cons. cbn [Text.all_chars]. now rewrite IH, andb_assoc.
Qed.

Lemma all_chars_rev_onto (f : ascii -> bool) (s acc : string) :
  Text.all_chars f (Text.rev_onto s acc)
  = Text.all_chars f s && Text.all_chars f acc.
Proof.
  revert acc. induction s as [|c s IH]; intros acc; [reflexivity|].
  cbn [Text.rev_onto Text.all_chars]. rewrite IH. cbn [Text.all_chars].
  destruct (f c), (Text.all_chars f s), (Text.all_chars f acc); reflexivity.
Qed.

Lemma all_chars_rev (f : ascii -> bool) (s : string) :
  Text.all_chars f (Text.rev s) = Text.all_chars f s.
Proof.
  unfold Text.rev. rewrite all_chars_rev_onto. cbn [Text.all_chars].
  now rewrite andb_true_r.
Qed.

Lemma all_chars_group3 (f : ascii -> bool) (fuel : nat) (s : string) :
  f ","%char = true -> Text.all_chars f s = true ->
  Text.all_chars f (Text.group3 fuel s) = true.
Proof.
  intros Hc. revert s. induction fuel as [|k IH]; intros s Hs;
    [now destruct s|].
  destruct s as [|a [|b [|c [|d rest]]]]; try exact Hs.
  cbn [Text.group3 Text.all_chars] in *.
  apply andb_prop in Hs as [Ha Hs]. apply andb_prop in Hs as [Hb Hs].
  apply andb_prop in Hs as [Hc' Hs].
  rewrite Ha, Hb, Hc', Hc. cbn [andb]. apply IH. exact Hs.
Qed.

Lemma digit_is_number_char (c : ascii) :
  Text.is_digit c = true -> is_number_char c = true.
Proof. unfold is_number_char. now intros ->. Qed.

Lemma str_of_int_chars (n : Z) :
  Text.all_chars is_number_char (Text.str_of_int n) = true.
Proof.
  unfold Text.str_of_int.
  destruct n as [|p|p]; cbn [Z.to_int NilZero.string_of_int].
  - reflexivity.
  - apply (all_chars_impl Text.is_digit); [apply digit_is_number_char|].
    apply nz_uint_digits.
  - cbn [Text.all_chars].
    change (is_number_char "-") with true. cbn [andb].
    apply (all_chars_impl Text.is_digit); [apply digit_is_number_char|].
    apply nz_uint_digits.
Qed.

Lemma str_of_int_grouped_chars (n : Z) :
  Text.all_chars is_number_char (Text.str_of_int_grouped n) = true.
Proof.
  unfold Text.str_of_int_grouped.
  assert (H : Text.all_chars is_number_char
                (Text.rev
                   (Text.group3 (String.length (Text.str_of_int (Z.abs n)))
                      (Text.rev (Text.str_of_int (Z.abs n))))) = true).
  { rewrite all_chars_rev. apply all_chars_group3; [reflexivity|].
    rewrite all_chars_rev. apply str_of_int_chars. }
  destruct (n <? 0); [|exact H].
  rewrite all_chars_app, H. reflexivity.
Qed.

(** ** Where a literal cannot occur *)

Lemma contains_skip (c : ascii) (p a b : string) :
  Text.all_chars (other_than c) a = true ->
  Text.contains (String c p) (a ++ b) = Text.contains (String c p) b.
Proof.
  induction a as [|d a IH]; intros H; [now rewrite append_nil_l|].
  cbn [Text.all_chars] in H. apply andb_prop in H as [Hd Ha].
  rewrite append_cons. cbn [Text.contains Text.strip_prefix].
  unfold other_than in Hd. apply negb_true_iff in Hd. rewrite Hd.
  now apply IH.
Qed.

Lemma number_between (c : ascii) (p pre mid post : string) :
  is_number_char c = false ->
  Text.all_chars (other_than c) pre = true ->
  Text.all_chars is_number_char mid = true ->
  Text.contains (String c p) post = false ->
  Text.contains (String c p) (pre ++ mid ++ post) = false.
Proof.
  intros Hc Hpre Hmid Hpost.
  rewrite (contains_skip c p pre _ Hpre), (contains_skip c p mid post);
    [exact Hpost|].
  apply (all_chars_impl is_number_char); [|exact Hmid].
  intros d Hd. unfold other_than. apply negb_true_iff.
  destruct (Ascii.eqb_spec c d) as [->|]; [congruence | reflexivity].
Qed.

Lemma budget_warning_shapes (m : metrics) (w : string) :
  In w (budget_list m) ->
  exists pre mid post,
    w = pre ++ mid ++ post
    /\ Text.all_chars is_number_char mid = true
    /\ In (pre, post)
         [("HIGH TRIANGLE COUNT: ", " (budget: 15,000)");
          ("HIGH VERTEX COUNT: ", " (budget: 20,000)");
          ("MANY MATERIALS: ", " (budget: 5)");
          ("MANY MESHES: ", " (may cause draw call overhead)")].
Proof.
  unfold budget_list. rewrite !in_app_iff.
  intros [H|[H|[H|H]]].
  - destruct (15000 <? total_faces m); [|contradiction].
    destruct H as [<-|[]]. eexists _, _, _. split; [reflexivity|].
    split; [apply str_of_int_grouped_chars | now left].
  - destruct (20000 <? total_vertices m); [|contradiction].
    destruct H as [<-|[]]. eexists _, _, _. split; [reflexivity|].
    split; [apply str_of_int_grouped_chars | right; now left].
  - destruct (5 <? material_count m); [|contradiction].
    destruct H as [<-|[]]. eexists _, _, _. split; [reflexivity|].
    split; [apply str_of_int_chars | right; right; now left].
  - destruct (20 <? mesh_count m); [|contradiction].
    destruct H as [<-|[]]. eexists _, _, _. split; [reflexivity|].
    split; [apply str_of_int_chars | right; right; right; now left].
Qed.

Lemma budget_warning_no_joint_count (m : metrics) (w : string) :
  In w (budget_list m) -> is_joint_count_warning w = false.
Proof.
  intros H.
  destruct (budget_warning_shapes m w H) as (pre & mid & post & -> & Hmid & Hpp).
  unfold is_joint_count_warning. apply orb_false_iff.
  cbn [In] in Hpp.
  destruct Hpp as [Hp|[Hp|[Hp|[Hp|[]]]]]; injection Hp as <- <-;
    split; apply number_between; try exact Hmid; reflexivity.
Qed.

Lemma filter_all {A : Type} (f : A -> bool) (l : list A) :
  (forall x, In x l -> f x = true) -> List.filter f l = l.
Proof.
  induction l as [|x l IH]; intros H; [reflexivity|].
  cbn [List.filter]. rewrite (H x) by now left.
  f_equal. apply IH. intros y Hy. apply H. now right.
Qed.

Lemma parser_warnings_kept (output : string) (m : metrics) :
  parse_assimp_info output = Ok m ->
  kept_warnings (warnings m) = warnings m.
Proof.
  intros H. destruct (parse_assimp_info_Ok output m H) as (_ & Hw & _).
  unfold kept_warnings. apply filter_all. intros w Hin.
  rewrite Hw in Hin. apply budget_warning_no_joint_count in Hin.
  unfold is_joint_count_warning in Hin. apply orb_false_iff in Hin as [_ ->].
  reflexivity.
Qed.

(** X14: the parser never emits a warning about a joint or bone count, so
    the rebuild of the warnings in [main] keeps every warning of a record
    the parser returned. *)
Theorem X14_parser_leaves_joint_warnings_out (output : string) (m : metrics) :
  parse_assimp_info output = Ok m ->
  List.Forall (fun w => is_joint_count_warning w = false) (warnings m)
  /\ kept_warnings (warnings m) = warnings m
  /\ forall joints,
       rebuild_warnings (warnings m) joints
       = (warnings m
          ++ (if 75 <? joints then [joint_warning joints] else []))%list.
Proof.
  intros H. split; [|split].
  - destruct (parse_assimp_info_Ok output m H) as (_ & -> & _).
    apply List.Forall_forall. apply budget_warning_no_joint_count.
  - now apply (parser_warnings_kept output).
  - intros joints.
    now rewrite rebuild_warnings_app, (parser_warnings_kept output m H).
Qed.

(** At the text of scenario A: the three budget warnings are kept. *)
Lemma X14_parser_leaves_joint_warnings_out_witness :
  exists m : metrics,
    parse_assimp_info scenario_A_text = Ok m
    /\ length (warnings m) = 3%nat
    /\ kept_warnings (warnings m) = warnings m.
Proof.
  eexists. split; [vm_compute; reflexivity|].
  split; [vm_compute; reflexivity|].
  apply (X14_parser_leaves_joint_warnings_out scenario_A_text).
  vm_compute. reflexivity.
Defined.


(** ** What the parser stores *)

Lemma int_of_digits_nonneg (ds : string) :
  Text.all_chars Text.is_digit ds = true -> 0 <= Text.int_of_digits ds.
Proof.
  intros H. apply int_of_digits_from_nonneg; [exact H | lia].
Qed.

Lemma digits1_digits (s ds rest : string) :
  Re.digits1 s = Some (ds, rest) ->
  Text.all_chars Text.is_digit ds = true.
Proof.
  unfold Re.digits1. pose proof (span_all Text.is_digit s) as H.
  destruct (Text.span Text.is_digit s) as [a b]. cbn [fst] in H.
  destruct a; [discriminate|]. now intros [= <- <-].
Qed.

Lemma mesh_row_nonneg (line : string) (row : mesh) :
  mesh_row line = Some row -> mesh_nonneg row.
Proof.
  unfold mesh_row, Re.match_mesh_line, Re.obind.
  destruct (Re.digits1 (Text.drop_while Text.is_space line)) as [[g1 s1]|];
    [|discriminate].
  destruct (Re.spaces1 s1) as [s2|]; [|discriminate].
  destruct (Re.char1 "(" s2) as [s3|]; [|discriminate].
  destruct (Text.span Re.not_rparen s3) as [name s4].
  destruct name as [|c name]; [discriminate|].
  destruct (Re.char1 ")" s4) as [s5|]; [|discriminate].
  destruct (Re.char1 ":" s5) as [s6|]; [|discriminate].
  destruct (Re.char1 "[" (Text.drop_while Text.is_space s6)) as [s7|];
    [|discriminate].
  destruct (Re.digits1 s7) as [[g2 s8]|] eqn:E2; [|discriminate].
  destruct (Re.char1 "/" (Text.drop_while Text.is_space s8)) as [s9|];
    [|discriminate].
  destruct (Re.digits1 (Text.drop_while Text.is_space s9)) as [[g3 s10]|] eqn:E3;
    [|discriminate].
  destruct (Re.char1 "/" (Text.drop_while Text.is_space s10)) as [s11|];
    [|discriminate].
  destruct (Re.digits1 (Text.drop_while Text.is_space s11)) as [[g4 s12]|] eqn:E4;
    [|discriminate].
  destruct (Re.char1 "|" (Text.drop_while Text.is_space s12)) as [s13|];
    [|discriminate].
  intros [= <-]. unfold mesh_nonneg.
  cbn [mesh_vertices mesh_bones mesh_faces].
  apply digits1_digits in E2, E3, E4.
  repeat split; now apply int_of_digits_nonneg.
Qed.

Lemma mesh_rows_nonneg (output : string) :
  List.Forall mesh_nonneg (mesh_rows output).
Proof.
  unfold mesh_rows.
  destruct (Re.search_mesh_section output) as [body|]; [|constructor].
  generalize (Text.split_on Text.newline (Text.strip body)). intros lines.
  induction lines as [|line lines IH]; [constructor|].
  rewrite omap_mesh_row_cons.
  destruct (mesh_row line) as [row|] eqn:E; [|exact IH].
  constructor; [now apply (mesh_row_nonneg line) | exact IH].
Qed.

Section FloatSigns.
Import Binary64.
Local Open Scope Q_scope.

Lemma rhe_nonneg (q : Q) : 0 <= q -> (0 <= rhe q)%Z.
Proof.
  intros Hq. destruct (rhe_bounds q) as [Hlo _].
  assert (H : inject_Z (-1) < inject_Z (rhe q)).
  { change (inject_Z (-1)) with (-1 # 1). lra. }
  rewrite <- Zlt_Qlt in H. lia.
Qed.

Lemma nearest_nonneg (q : Q) : 0 <= q -> 0 <= nearest q.
Proof.
  intros Hq. unfold nearest.
  destruct (Qeq_bool q 0); [lra|].
  rewrite Qred_correct.
  pose proof (pow2_pos (quantum q)) as Hu.
  apply Qmult_le_0_compat; [|lra].
  change 0 with (inject_Z 0). rewrite <- Zle_Qle. apply rhe_nonneg.
  apply Qle_shift_div_l; [exact Hu | lra].
Qed.

Lemma decimal_round_nonneg (nd : Z) (x : Q) :
  0 <= x -> 0 <= decimal_round nd x.
Proof.
  intros Hx. unfold decimal_round.
  assert (Hs : 0 < 10 ^ nd) by (apply Qpower_0_lt; reflexivity).
  apply Qle_shift_div_l; [exact Hs|].
  rewrite Qmult_0_l. change 0 with (inject_Z 0). rewrite <- Zle_Qle.
  apply rhe_nonneg. apply Qmult_le_0_compat; lra.
Qed.

Lemma round_float_nonneg (x : Q) (nd : Z) : 0 <= x -> 0 <= round_float x nd.
Proof.
  intros Hx. unfold round_float.
  now apply nearest_nonneg, decimal_round_nonneg.
Qed.

Lemma truediv_1024_nonneg (a : Z) (x : Q) :
  (0 <= a)%Z -> truediv a 1024 = Ok x -> 0 <= x.
Proof.
  intros Ha. rewrite truediv_1024.
  destruct (finite _); [|discriminate]. intros [= <-].
  apply nearest_nonneg.
  apply Qle_shift_div_l; [reflexivity|].
  rewrite Qmult_0_l. change 0 with (inject_Z 0). now rewrite <- Zle_Qle.
Qed.

End FloatSigns.

Lemma parse_scalar_nonneg (output : string) (m : metrics) (key : scalar_key) :
  parse_assimp_info output = Ok m -> 0 <= get_scalar key m.
Proof.
  intros H. destruct (parse_assimp_info_Ok output m H) as (Hs & _).
  rewrite Hs. apply stored_count_nonneg.
Qed.

(** X15: nothing the parser stores is negative: the eight counts, the
    counts of every mesh row and the four memory estimates. *)
Theorem X15_parsed_metrics_are_not_negative (output : string) (m : metrics) :
  parse_assimp_info output = Ok m ->
  (forall key, 0 <= get_scalar key m)
  /\ List.Forall mesh_nonneg (meshes m)
  /\ (0 <= value_of (vertex_buffer_kb m))%Q
  /\ (0 <= value_of (index_buffer_kb m))%Q
  /\ (0 <= value_of (bone_matrices_kb m))%Q
  /\ (0 <= value_of (total_gpu_memory_kb m))%Q.
Proof.
  intros H.
  pose proof (parse_scalar_nonneg output m KTotalVertices H) as Hv.
  pose proof (parse_scalar_nonneg output m KTotalFaces H) as Hf.
  pose proof (parse_scalar_nonneg output m KNodeCount H) as Hn.
  cbn [get_scalar] in Hv, Hf, Hn.
  split; [intros key; now apply (parse_scalar_nonneg output)|].
  split; [rewrite (parse_assimp_info_meshes output m H);
          apply mesh_rows_nonneg|].
  destruct (parse_assimp_info_Ok output m H)
    as (_ & _ & vbk & ibk & bmk & total & Tv & Ti & Tb & Tt & -> & -> & -> & ->).
  cbn [value_of].
  split; [|split; [|split]]; apply round_float_nonneg;
    (eapply truediv_1024_nonneg; [|eassumption]); lia.
Qed.

(** At the text with one mesh row. *)
Lemma X15_parsed_metrics_are_not_negative_witness :
  exists m : metrics,
    parse_assimp_info cube_text = Ok m
    /\ length (meshes m) = 1%nat
    /\ List.Forall mesh_nonneg (meshes m).
Proof.
  eexists. split; [vm_compute; reflexivity|].
  split; [vm_compute; reflexivity|].
  apply (X15_parsed_metrics_are_not_negative cube_text).
  vm_compute. reflexivity.
Defined.


(** X16: a text in which [Meshes:] does not occur gives a record with no
    mesh rows and a mesh count of 0, also when the text holds lines of the
    shape of a mesh row. *)
Theorem X16_no_mesh_section_no_rows (output : string) (m : metrics) :
  Text.contains "Meshes:" output = false ->
  parse_assimp_info output = Ok m ->
  meshes m = [] /\ mesh_count m = 0.
Proof.
  intros Hc H. split.
  - rewrite (parse_assimp_info_meshes output m H). unfold mesh_rows.
    now rewrite (search_mesh_section_absent output Hc).
  - destruct (parse_assimp_info_Ok output m H) as (Hs & _).
    specialize (Hs KMeshCount).
    change (mesh_count m = stored_count KMeshCount output) in Hs.
    rewrite Hs.
    now apply (stored_count_absent KMeshCount output).
Qed.

(** At a text that holds a mesh row and no mesh section. *)
Lemma X16_no_mesh_section_no_rows_witness :
  exists m : metrics,
    parse_assimp_info stray_row_text = Ok m
    /\ total_vertices m = 24
    /\ meshes m = [] /\ mesh_count m = 0.
Proof.
  eexists. split; [vm_compute; reflexivity|].
  split; [vm_compute; reflexivity|].
  apply (X16_no_mesh_section_no_rows stray_row_text); vm_compute; reflexivity.
Defined.


(** ** Entries of freshly analysed files *)

(** X17: when a converted file has no precomputed record and its analysis
    fails, the turn still appends an entry: every count in it is 0, the
    estimates and the file size are the integer 0, there are no mesh rows,
    the joint count is that of one dump made after the failed analysis,
    and the only warning the entry can hold is the joint warning. *)
Theorem X17_failed_analysis_gives_an_empty_entry (assimp : tool)
    (pre : gmap string Dict.t) (fbx : Path.t) (st st' : state)
    (e : Entry.t) :
  process_file assimp pre fbx st = (Some e, st') ->
  pre !! Path.name fbx = None ->
  info_fails assimp fbx (after_conversion fbx st) ->
  (Entry.total_vertices e = 0 /\ Entry.total_faces e = 0
   /\ Entry.mesh_count e = 0 /\ Entry.node_count e = 0
   /\ Entry.max_depth e = 0 /\ Entry.material_count e = 0
   /\ Entry.texture_count e = 0)
  /\ (Entry.file_size_mb e = NInt 0 /\ Entry.total_gpu_memory_kb e = NInt 0
      /\ Entry.vertex_buffer_kb e = NInt 0 /\ Entry.index_buffer_kb e = NInt 0
      /\ Entry.bone_matrices_kb e = NInt 0)
  /\ Entry.meshes e = []
  /\ Entry.real_joint_count e
     = fst (count_real_joints assimp fbx
              (log_call (Info fbx) (after_conversion fbx st)))
  /\ Entry.warnings e
     = (if 75 <? Entry.real_joint_count e
        then [joint_warning (Entry.real_joint_count e)] else [])
  /\ calls st'
     = (calls st
        ++ [Export fbx (glb_rel_of fbx); Info fbx; Dump fbx])%list.
Proof.
  intros Hrun Hpre Hfail.
  destruct (process_file_Some' assimp pre fbx st st' e Hrun)
    as (d & st2 & joints & st3 & Hsel & Hset & -> & ->).
  rewrite (select_metrics_fresh assimp pre fbx _ Hpre) in Hsel.
  destruct (analyze_fbx_run assimp fbx (after_conversion fbx st))
    as [(_ & msg & Ha)|(r & m & Hr & Hrc & Hp & _)].
  - rewrite Ha in Hsel. injection Hsel as <- <-.
    rewrite (settle_joints_recount assimp (Dict.of_error msg) fbx _ I) in Hset.
    pose proof (f_equal fst Hset) as Hj. pose proof (f_equal snd Hset) as Hs.
    cbn [fst snd] in Hj, Hs. rewrite count_real_joints_state in Hs.
    subst joints st3.
    split; [repeat split|]. split; [repeat split|]. split; [reflexivity|].
    split; [reflexivity|]. split.
    + cbn [build_entry Entry.warnings Entry.real_joint_count Dict.of_error
           Dict.warnings Dict.get].
      now rewrite rebuild_warnings_app.
    + cbn [append_entry calls log_call after_conversion count_converted].
      now rewrite <- !app_assoc.
  - unfold info_fails in Hfail. rewrite Hr in Hfail.
    destruct Hfail as [Hf|[ex Hf]]; [contradiction | congruence].
Qed.

(** At a tool whose analysis exits with status 1: the entry is empty but
    for the two joints of the dump. *)
Lemma X17_failed_analysis_gives_an_empty_entry_witness :
  exists e : Entry.t,
    fst (process_file info_failing_tool ∅ "rigs/a.fbx" initial_state) = Some e
    /\ Entry.total_vertices e = 0
    /\ Entry.real_joint_count e = 2
    /\ Entry.warnings e = [].
Proof.
  eexists. split; [vm_compute; reflexivity|].
  lazymatch goal with
  | |- Entry.total_vertices ?e = _ /\ _ => set (E := e)
  end.
  assert (H1 : fst (process_file info_failing_tool ∅ "rigs/a.fbx"
                      initial_state) = Some E)
    by (vm_compute; reflexivity).
  apply run_eta in H1.
  assert (H2 : (∅ : gmap string Dict.t) !! Path.name "rigs/a.fbx" = None)
    by (vm_compute; reflexivity).
  assert (H3 : info_fails info_failing_tool "rigs/a.fbx"
                 (after_conversion "rigs/a.fbx" initial_state))
    by (vm_compute; left; discriminate).
  pose proof (X17_failed_analysis_gives_an_empty_entry _ _ _ _ _ _ H1 H2 H3)
    as ((Hv & _) & _ & _ & Hj & Hw & _).
  split; [exact Hv|]. split; [rewrite Hj | rewrite Hw, Hj];
    vm_compute; reflexivity.
Defined.


(** X18: when a converted file has no precomputed record and its analysis
    succeeds, the entry holds the parsed counts and mesh rows as they are
    and the four estimates rounded once more, to one place; its file size
    is the integer 0, since the parser stores none; every warning of the
    parser is kept and the joint warning follows them; and a dump that
    failed during the analysis is made a second time for the entry. *)
Theorem X18_fresh_entry_mirrors_the_parsed_record (assimp : tool)
    (pre : gmap string Dict.t) (fbx : Path.t) (st st' : state)
    (e : Entry.t) (r : completed) (m : metrics) :
  process_file assimp pre fbx st = (Some e, st') ->
  pre !! Path.name fbx = None ->
  assimp (calls (after_conversion fbx st)) (Info fbx) = Completed r ->
  returncode r = 0 ->
  parse_assimp_info (stdout r) = Ok m ->
  (Entry.total_vertices e = total_vertices m
   /\ Entry.total_faces e = total_faces m
   /\ Entry.mesh_count e = mesh_count m
   /\ Entry.node_count e = node_count m
   /\ Entry.max_depth e = max_depth m
   /\ Entry.material_count e = material_count m
   /\ Entry.texture_count e = texture_count m)
  /\ Entry.meshes e = mesh_rows (stdout r)
  /\ Entry.file_size_mb e = NInt 0
  /\ (Entry.total_gpu_memory_kb e = py_round (total_gpu_memory_kb m) 1
      /\ Entry.vertex_buffer_kb e = py_round (vertex_buffer_kb m) 1
      /\ Entry.index_buffer_kb e = py_round (index_buffer_kb m) 1
      /\ Entry.bone_matrices_kb e = py_round (bone_matrices_kb m) 1)
  /\ Entry.warnings e
     = (warnings m
        ++ (if 75 <? Entry.real_joint_count e
            then [joint_warning (Entry.real_joint_count e)] else []))%list
  /\ (0 <= fst (count_real_joints assimp fbx
                  (log_call (Info fbx) (after_conversion fbx st))) ->
      Entry.real_joint_count e
      = fst (count_real_joints assimp fbx
               (log_call (Info fbx) (after_conversion fbx st)))
      /\ calls st'
         = (calls st
            ++ [Export fbx (glb_rel_of fbx); Info fbx; Dump fbx])%list)
  /\ (fst (count_real_joints assimp fbx
             (log_call (Info fbx) (after_conversion fbx st))) < 0 ->
      Entry.real_joint_count e
      = fst (count_real_joints assimp fbx
               (log_call (Dump fbx)
                  (log_call (Info fbx) (after_conversion fbx st))))
      /\ calls st'
         = (calls st
            ++ [Export fbx (glb_rel_of fbx); Info fbx; Dump fbx; Dump fbx])%list).
Proof.
  intros Hrun Hpre Hinfo Hrc Hparse.
  destruct (process_file_Some' assimp pre fbx st st' e Hrun)
    as (d & st2 & joints & st3 & Hsel & Hset & -> & ->).
  rewrite (select_metrics_fresh assimp pre fbx _ Hpre) in Hsel.
  destruct (analyze_fbx_run assimp fbx (after_conversion fbx st))
    as [(Hfail & _)|(r' & m' & Hr & _ & Hp & Ha)].
  { unfold info_fails in Hfail. rewrite Hinfo in Hfail.
    destruct Hfail as [Hf|[ex Hf]]; [contradiction | congruence]. }
  assert (r' = r) as -> by congruence.
  assert (m' = m) as -> by congruence.
  rewrite Ha in Hsel. injection Hsel as <- <-.
  set (s1 := log_call (Info fbx) (after_conversion fbx st)) in *.
  set (j0 := fst (count_real_joints assimp fbx s1)) in *.
  change (settle_joints assimp (dict_of_metrics m j0) fbx
            (log_call (Dump fbx) s1) = (joints, st3)) in Hset.
  split; [repeat split|].
  split; [now apply parse_assimp_info_meshes|].
  split; [reflexivity|]. split; [repeat split|].
  split.
  { cbn [build_entry Entry.warnings Entry.real_joint_count dict_of_metrics
         Dict.warnings Dict.get].
    now rewrite rebuild_warnings_app, (parser_warnings_kept (stdout r) m). }
  cbn [build_entry Entry.real_joint_count append_entry calls].
  split.
  - intros Hpos.
    rewrite (settle_joints_trusted assimp (dict_of_metrics m j0) fbx _ j0
               eq_refl Hpos) in Hset.
    injection Hset as <- <-. split; [reflexivity|].
    unfold s1. cbn [calls log_call after_conversion count_converted].
    now rewrite <- !app_assoc.
  - intros Hneg.
    assert (Hun : joints_untrusted (dict_of_metrics m j0)) by exact Hneg.
    rewrite (settle_joints_recount assimp (dict_of_metrics m j0) fbx _ Hun)
      in Hset.
    pose proof (f_equal fst Hset) as Hj. pose proof (f_equal snd Hset) as Hs.
    cbn [fst snd] in Hj, Hs. rewrite count_real_joints_state in Hs.
    subst joints st3. split; [reflexivity|].
    unfold s1. cbn [calls log_call after_conversion count_converted].
    now rewrite <- !app_assoc.
Qed.

(** At the text with one mesh row and a dump of two joints. *)
Lemma X18_fresh_entry_mirrors_the_parsed_record_witness :
  exists e : Entry.t,
    fst (process_file (fixed_tool cube_text (dump_of ["Hips"; "Spine"])) ∅
           "rigs/a.fbx" initial_state) = Some e
    /\ Entry.total_vertices e = 24
    /\ Entry.meshes e
       = [{| mesh_name := "Cube"; mesh_vertices := 24; mesh_bones := 0;
             mesh_faces := 12 |}]
    /\ Entry.file_size_mb e = NInt 0.
Proof.
  eexists. split; [vm_compute; reflexivity|].
  lazymatch goal with
  | |- Entry.total_vertices ?e = _ /\ _ => set (E := e)
  end.
  assert (H1 : fst (process_file
                      (fixed_tool cube_text (dump_of ["Hips"; "Spine"])) ∅
                      "rigs/a.fbx" initial_state) = Some E)
    by (vm_compute; reflexivity).
  apply run_eta in H1.
  assert (H2 : (∅ : gmap string Dict.t) !! Path.name "rigs/a.fbx" = None)
    by (vm_compute; reflexivity).
  assert (Hp : exists m, parse_assimp_info cube_text = Ok m)
    by (eexists; vm_compute; reflexivity).
  destruct Hp as [m Hp].
  pose proof (X18_fresh_entry_mirrors_the_parsed_record _ _ _ _ _ _
                {| returncode := 0; stdout := cube_text; stderr := "" |} m
                H1 H2 eq_refl eq_refl Hp)
    as ((Hv & _) & Hm & Hsz & _).
  split; [|split; [|exact Hsz]].
  - rewrite Hv.
    assert (Ev : Ok (total_vertices m) = Ok 24).
    { change (Ok (total_vertices m))
        with (rbind (Ok m) (fun x => Ok (total_vertices x))).
      rewrite <- Hp. vm_compute. reflexivity. }
    now injection Ev.
  - rewrite Hm. vm_compute. reflexivity.
Defined.


(** ** The precomputed records *)

Lemma insert_entries_absent (k : string) (entries : list (string * Dict.t))
    (m : gmap string Dict.t) :
  (forall d, ~ In (k, d) entries) ->
  fold_left (fun lookup '(file_name, entry) => <[file_name := entry]> lookup)
    entries m !! k = m !! k.
Proof.
  revert m. induction entries as [|[k' d'] entries IH]; intros m H;
    [reflexivity|].
  cbn [fold_left]. rewrite IH.
  - apply lookup_insert_ne. intros ->. apply (H d'). now left.
  - intros d Hd. apply (H d). now right.
Qed.

Lemma insert_entries_last (k : string) (d : Dict.t)
    (before after : list (string * Dict.t)) (m : gmap string Dict.t) :
  (forall d', ~ In (k, d') after) ->
  fold_left (fun lookup '(file_name, entry) => <[file_name := entry]> lookup)
    (before ++ (k, d) :: after) m !! k = Some d.
Proof.
  intros H. rewrite fold_left_app. cbn [fold_left].
  rewrite (insert_entries_absent k after _ H). apply lookup_insert_eq.
Qed.

Lemma load_precomputed_fold (files : list (option (list (string * Dict.t)))) :
  load_precomputed files
  = fold_left (fun lookup '(file_name, entry) => <[file_name := entry]> lookup)
      (loaded_entries files) ∅.
Proof.
  unfold load_precomputed, loaded_entries.
  generalize (∅ : gmap string Dict.t).
  induction files as [|data files IH]; intros m; [reflexivity|].
  cbn [fold_left flat_map]. rewrite fold_left_app, IH.
  now destruct data.
Qed.

(** X19: the lookup table of precomputed records holds, under a file
    name, the last entry with that name in reading order, so an entry of
    the second data file replaces one of the first; a name that no entry
    carries is not a key; and with no data file the table is empty. *)
Theorem X19_last_precomputed_entry_wins
    (files : list (option (list (string * Dict.t)))) :
  (forall k d before after,
     loaded_entries files = (before ++ (k, d) :: after)%list ->
     (forall d', ~ In (k, d') after) ->
     load_precomputed files !! k = Some d)
  /\ (forall k,
        (forall d, ~ In (k, d) (loaded_entries files)) ->
        load_precomputed files !! k = None)
  /\ (List.Forall (fun data => data = None) files ->
      load_precomputed files = ∅).
Proof.
  rewrite load_precomputed_fold. split; [|split].
  - intros k d before after -> H. now apply insert_entries_last.
  - intros k H. now rewrite (insert_entries_absent k _ _ H).
  - intros H.
    assert (E : loaded_entries files = []).
    { unfold loaded_entries. induction H as [|data files -> _ IH];
        [reflexivity | exact IH]. }
    now rewrite E.
Qed.

(** At two data files that both hold a record for one file name: the
    record of the second file is the one in the table. *)
Lemma X19_last_precomputed_entry_wins_witness :
  load_precomputed sample_data !! "a.fbx" = Some (dict_with (Some 20) []).
Proof.
  destruct (X19_last_precomputed_entry_wins sample_data) as (H & _).
  apply (H "a.fbx" (dict_with (Some 20) [])
           [("a.fbx", dict_with (Some 10) []); ("b.fbx", dict_with None [])]
           []); [reflexivity|].
  intros d' [].
Defined.


(** X20: when the first occurrence of a metric's label is followed by
    optional white space and a count, and then by something other than a
    digit, every record the parser returns holds that count; the turn of
    the loop for the metric stores it when it has at most 4300 digits, and
    raises a [ValueError] when it has more, in which case the parser
    returns no record. *)
Theorem X20_count_after_first_label_is_read_back (key : scalar_key) (n : Z)
    (output : string) :
  reads key n output ->
  (within_limit (Text.str_of_int n) ->
   forall m0, scan_scalar output m0 key = Ok (set_scalar key n m0))
  /\ (~ within_limit (Text.str_of_int n) ->
      (forall m0,
         scan_scalar output m0 key
         = Raise (ValueError (String.length (Text.str_of_int n))))
      /\ forall m, parse_assimp_info output <> Ok m)
  /\ (forall m, parse_assimp_info output = Ok m -> get_scalar key m = n).
Proof.
  intros Hr. pose proof (reads_search key n output Hr) as Hs.
  assert (Hn : 0 <= n) by now destruct Hr.
  split; [|split].
  - intros Hl m0. unfold scan_scalar.
    rewrite Hs, (int_of_str_within _ Hl). cbn [rbind].
    now rewrite (int_of_digits_str n Hn).
  - intros Hl. split.
    + intros m0. unfold scan_scalar.
      now rewrite Hs, (int_of_str_beyond _ Hl).
    + intros m Hm. apply Hl.
      apply (parse_assimp_info_limits output m Hm). left. now exists key.
  - intros m Hm. destruct (parse_assimp_info_Ok output m Hm) as (Hc & _).
    rewrite Hc. now apply reads_stored_count.
Qed.

(** At a vertex count on the second line of a text. *)
Lemma X20_count_after_first_label_is_read_back_witness :
  scan_scalar ("Faces: 12" ++ Text.nl ++ "Vertices: 25000" ++ Text.nl)
    initial_metrics KTotalVertices
  = Ok (set_scalar KTotalVertices 25000 initial_metrics).
Proof.
  assert (Hr : reads KTotalVertices 25000
                 ("Faces: 12" ++ Text.nl ++ "Vertices: 25000" ++ Text.nl)).
  { split; [lia|]. exists ("Faces: 12" ++ Text.nl), " ", Text.nl.
    split; [reflexivity|]. split; [reflexivity|]. split; [reflexivity|].
    first_occurrence. }
  destruct (X20_count_after_first_label_is_read_back _ _ _ Hr) as [H _].
  apply H. unfold within_limit, max_str_digits. vm_compute. discriminate.
Defined.

Lemma blank_start (ws s : string) :
  blank ws -> ws <> "" -> starts_outside Text.is_digit (ws ++ s) = true.
Proof.
  intros Hws Hne. rewrite (starts_outside_app _ _ _ Hne).
  destruct ws as [|c ws]; [contradiction|].
  unfold blank in Hws. cbn [Text.all_chars] in Hws.
  apply andb_prop in Hws as [Hc _].
  cbn [starts_outside]. now rewrite (space_not_digit c Hc).
Qed.

Ltac row_side :=
  first [ assumption | reflexivity
        | apply digits_start_outside_space; assumption
        | apply blank_start; assumption
        | apply blank_then_other; [assumption | reflexivity] ].

Lemma match_mesh_line_row (index vertices bones faces : Z)
    (name ws0 ws1 ws2 ws3 ws4 ws5 ws6 ws7 rest : string) :
  0 <= index -> 0 <= vertices -> 0 <= bones -> 0 <= faces ->
  name <> "" -> Text.all_chars Re.not_rparen name = true ->
  blank ws0 -> blank ws1 -> ws1 <> "" -> blank ws2 -> blank ws3 ->
  blank ws4 -> blank ws5 -> blank ws6 -> blank ws7 ->
  Re.match_mesh_line
    (ws0 ++ Text.str_of_int index ++ ws1 ++ "(" ++ name ++ "):" ++ ws2
     ++ "[" ++ Text.str_of_int vertices ++ ws3 ++ "/" ++ ws4
     ++ Text.str_of_int bones ++ ws5 ++ "/" ++ ws6
     ++ Text.str_of_int faces ++ ws7 ++ "|" ++ rest)
  = Some (name, Text.str_of_int vertices, Text.str_of_int bones,
          Text.str_of_int faces).
Proof.
  intros Hi Hv Hb Hf Hne Hname H0 H1 Hne1 H2 H3 H4 H5 H6 H7.
  destruct (str_of_int_digits index Hi) as [Di Ni].
  destruct (str_of_int_digits vertices Hv) as [Dv Nv].
  destruct (str_of_int_digits bones Hb) as [Db Nb].
  destruct (str_of_int_digits faces Hf) as [Df Nf].
  unfold Re.match_mesh_line.
  rewrite ?append_cons, ?append_nil_l.
  rewrite (drop_while_run _ ws0) by row_side.
  rewrite digits1_run by row_side. cbn [Re.obind].
  rewrite (spaces1_run ws1) by row_side. cbn [Re.obind].
  rewrite char1_here. cbn [Re.obind].
  rewrite (span_run Re.not_rparen name) by row_side.
  rewrite char1_here. cbn [Re.obind].
  rewrite char1_here. cbn [Re.obind].
  rewrite (drop_while_run _ ws2) by row_side.
  rewrite char1_here. cbn [Re.obind].
  rewrite digits1_run by row_side. cbn [Re.obind].
  rewrite (drop_while_run _ ws3) by row_side.
  rewrite char1_here. cbn [Re.obind].
  rewrite (drop_while_run _ ws4) by row_side.
  rewrite digits1_run by row_side. cbn [Re.obind].
  rewrite (drop_while_run _ ws5) by row_side.
  rewrite char1_here. cbn [Re.obind].
  rewrite (drop_while_run _ ws6) by row_side.
  rewrite digits1_run by row_side. cbn [Re.obind].
  rewrite (drop_while_run _ ws7) by row_side.
  rewrite char1_here. cbn [Re.obind].
  destruct name as [|c name]; [contradiction | reflexivity].
Qed.

(** X21: on a line that holds, between optional runs of white space, an
    index, a name in parentheses, a colon and in square brackets three
    counts separated by slashes and closed by a vertical bar, the turn of
    the loop over the mesh section appends the mesh row with that name and
    those three counts when each count has at most 4300 digits; when the
    vertex count has more, the turn raises a [ValueError]. *)
Theorem X21_mesh_row_is_read_back (index vertices bones faces : Z)
    (name ws0 ws1 ws2 ws3 ws4 ws5 ws6 ws7 rest line : string) :
  0 <= index -> 0 <= vertices -> 0 <= bones -> 0 <= faces ->
  name <> "" -> Text.all_chars Re.not_rparen name = true ->
  blank ws0 -> blank ws1 -> ws1 <> "" -> blank ws2 -> blank ws3 ->
  blank ws4 -> blank ws5 -> blank ws6 -> blank ws7 ->
  line = ws0 ++ Text.str_of_int index ++ ws1 ++ "(" ++ name ++ "):" ++ ws2
         ++ "[" ++ Text.str_of_int vertices ++ ws3 ++ "/" ++ ws4
         ++ Text.str_of_int bones ++ ws5 ++ "/" ++ ws6
         ++ Text.str_of_int faces ++ ws7 ++ "|" ++ rest ->
  (within_limit (Text.str_of_int vertices) ->
   within_limit (Text.str_of_int bones) ->
   within_limit (Text.str_of_int faces) ->
   mesh_of_line line
   = Ok (Some {| mesh_name := name; mesh_vertices := vertices;
                 mesh_bones := bones; mesh_faces := faces |}))
  /\ (~ within_limit (Text.str_of_int vertices) ->
      mesh_of_line line
      = Raise (ValueError (String.length (Text.str_of_int vertices)))).
Proof.
  intros Hi Hv Hb Hf Hne Hname H0 H1 Hne1 H2 H3 H4 H5 H6 H7 ->.
  pose proof (match_mesh_line_row index vertices bones faces name
                ws0 ws1 ws2 ws3 ws4 ws5 ws6 ws7 rest
                Hi Hv Hb Hf Hne Hname H0 H1 Hne1 H2 H3 H4 H5 H6 H7) as Hm.
  unfold mesh_of_line. rewrite Hm. split.
  - intros Lv Lb Lf.
    rewrite (int_of_str_within _ Lv), (int_of_str_within _ Lb),
      (int_of_str_within _ Lf).
    cbn [rbind]. now rewrite !int_of_digits_str.
  - intros Lv. now rewrite (int_of_str_beyond _ Lv).
Qed.

(** At the row of the cube, as the tool prints it. *)
Lemma X21_mesh_row_is_read_back_witness :
  mesh_of_line "    0 (Cube): [24 / 0 / 12 | triangle]"
  = Ok (Some {| mesh_name := "Cube"; mesh_vertices := 24; mesh_bones := 0;
                mesh_faces := 12 |}).
Proof.
  refine (proj1 (X21_mesh_row_is_read_back 0 24 0 12 "Cube" "    " " " " "
                   " " " " " " " " " " " triangle]"
                   "    0 (Cube): [24 / 0 / 12 | triangle]"
                   _ _ _ _ _ _ _ _ _ _ _ _ _ _ _ _) _ _ _);
    try lia; try discriminate; try reflexivity;
    unfold within_limit, max_str_digits; vm_compute; discriminate.
Defined.

(** ** The order in which the files are processed *)

Lemma parts_leb_total (a b : list string) :
  parts_leb a b = true \/ parts_leb b a = true.
Proof.
  revert b. induction a as [|x a IH]; intros [|y b]; cbn [parts_leb]; auto.
  rewrite (String.eqb_sym y x).
  destruct (String.eqb x y); [apply IH | apply String.leb_total].
Qed.

Lemma parts_leb_trans (a b c : list string) :
  parts_leb a b = true -> parts_leb b c = true -> parts_leb a c = true.
Proof.
  revert b c. induction a as [|x a IH]; intros [|y b] [|z c];
    cbn [parts_leb]; try discriminate; try reflexivity.
  destruct (String.eqb_spec x y) as [Exy|Hxy];
    destruct (String.eqb_spec y z) as [Eyz|Hyz].
  - subst y z. rewrite String.eqb_refl. apply IH.
  - subst y. apply String.eqb_neq in Hyz. now rewrite Hyz.
  - subst z. apply String.eqb_neq in Hxy. now rewrite Hxy.
  - intros H1 H2. destruct (String.eqb_spec x z) as [Exz|Hxz].
    + subst z. destruct Hxy. now apply String.leb_antisym.
    + now apply (string_leb_trans x y z).
Qed.

Lemma dedup_resolved_first (resolve : Path.t -> string)
    (R : Path.t -> Path.t -> Prop) (files : list Path.t) :
  (forall f, R f f) ->
  StronglySorted R files ->
  forall seen,
    StronglySorted R (dedup_resolved resolve seen files)
    /\ forall f g,
         In f (dedup_resolved resolve seen files) -> In g files ->
         resolve g = resolve f -> R f g.
Proof.
  intros Hrefl. induction 1 as [|x rest Hs IH Hx]; intros seen.
  - split; [constructor | intros f g []].
  - cbn [dedup_resolved].
    destruct (dedup_resolved_spec resolve rest seen) as (_ & Sa & _).
    destruct (dedup_resolved_spec resolve rest ({[resolve x]} ∪ seen))
      as (_ & Sb & _).
    destruct (decide (resolve x ∈ seen)) as [Hin|Hnin].
    + destruct (IH seen) as [I1 I2]. split; [exact I1|].
      intros f g Hf [<-|Hg] E; [|now apply I2].
      destruct (Sa f Hf) as [_ Hn]. rewrite <- E in Hn. contradiction.
    + destruct (IH ({[resolve x]} ∪ seen)) as [I1 I2]. split.
      * constructor; [exact I1|].
        apply List.Forall_forall. intros f Hf.
        destruct (Sb f Hf) as [Hf' _].
        apply (proj1 (List.Forall_forall _ _) Hx f Hf').
      * intros f g [<-|Hf] [<-|Hg] E.
        -- apply Hrefl.
        -- apply (proj1 (List.Forall_forall _ _) Hx g Hg).
        -- destruct (Sb f Hf) as [_ Hn]. destruct Hn.
           apply elem_of_union. left. apply elem_of_singleton.
           now symmetry.
        -- now apply I2.
Qed.

(** X22: the files are processed in ascending order of their paths,
    compared component by component, and of the discovered files that
    resolve to one path the least is the one that is kept. *)
Theorem X22_files_are_processed_in_path_order (resolve : Path.t -> string)
    (fbx_files : list Path.t) :
  StronglySorted
    (fun a b => parts_leb (Path.parts a) (Path.parts b) = true)
    (unique_fbx resolve fbx_files)
  /\ forall f g,
       In f (unique_fbx resolve fbx_files) -> In g fbx_files ->
       resolve g = resolve f ->
       parts_leb (Path.parts f) (Path.parts g) = true.
Proof.
  unfold unique_fbx.
  set (leb := fun a b : Path.t => parts_leb (Path.parts a) (Path.parts b)).
  assert (Htot : forall a b, leb a b = true \/ leb b a = true)
    by (intros a b; apply parts_leb_total).
  assert (Htr : forall a b c, leb a b = true -> leb b c = true ->
                              leb a c = true)
    by (intros a b c; apply parts_leb_trans).
  destruct (stable_sort_sorted leb Htot Htr fbx_files) as [_ Hs].
  destruct (dedup_resolved_first resolve (fun a b => leb a b = true)
              (stable_sort leb fbx_files)
              (fun f => match Htot f f with or_introl H | or_intror H => H end)
              Hs ∅) as [H1 H2].
  split; [exact H1|].
  intros f g Hf Hg E. apply (H2 f g Hf); [|exact E].
  now apply stable_sort_In.
Qed.

(** ** A run on precomputed records *)

Section PrecomputedRun.
Variable assimp : tool.

Lemma process_file_precomputed (pre : gmap string Dict.t) (fbx : Path.t)
    (st : state) (d : Dict.t) (n : Z) :
  should_skip fbx = false ->
  pre !! Path.name fbx = Some d ->
  Dict.real_joint_count d = Some n -> 0 <= n ->
  calls (snd (process_file assimp pre fbx st))
  = (calls st ++ [Export fbx (glb_rel_of fbx)])%list.
Proof.
  intros Hs Hd Hn Hpos.
  destruct (process_file_cases assimp pre fbx st)
    as [[Hs' _]|[[_ ->]|[_ (e & st' & E)]]]; [congruence|reflexivity|].
  rewrite E. cbn [snd].
  destruct (process_file_Some' assimp pre fbx st st' e E)
    as (d' & st2 & joints & st3 & Hsel & Hset & _ & ->).
  rewrite (select_metrics_precomputed assimp pre fbx _ d Hd) in Hsel.
  injection Hsel as <- <-.
  rewrite (settle_joints_trusted assimp d fbx _ n Hn Hpos) in Hset.
  injection Hset as _ <-. reflexivity.
Qed.

Lemma process_files_precomputed (pre : gmap string Dict.t)
    (files : list Path.t) :
  (forall f, In f files -> should_skip f = false ->
             exists d n, pre !! Path.name f = Some d
                         /\ Dict.real_joint_count d = Some n /\ 0 <= n) ->
  forall st,
    calls (snd (process_files assimp pre files st))
    = (calls st
       ++ map (fun f => Export f (glb_rel_of f)) (not_skipped files))%list.
Proof.
  induction files as [|f rest IH]; intros H st.
  - cbn. now rewrite app_nil_r.
  - cbn [process_files]. unfold bind, ret.
    destruct (process_file assimp pre f st) as [e st1] eqn:E1.
    destruct (process_files assimp pre rest st1) as [es st2] eqn:E2.
    cbn [snd].
    assert (H2 : calls st2
                 = (calls st1
                    ++ map (fun f => Export f (glb_rel_of f))
                         (not_skipped rest))%list).
    { rewrite <- (IH (fun g Hg => H g (or_intror Hg)) st1). now rewrite E2. }
    rewrite H2. unfold not_skipped. cbn [List.filter].
    destruct (should_skip f) eqn:Hs; cbn [negb map].
    + destruct (process_file_cases assimp pre f st)
        as [[_ E]|[[Hs' _]|[Hs' _]]]; try congruence.
      rewrite E in E1. now injection E1 as _ <-.
    + destruct (H f (or_introl eq_refl) Hs) as (d & n & Hd & Hn & Hpos).
      pose proof (process_file_precomputed pre f st d n Hs Hd Hn Hpos) as Hc.
      rewrite E1 in Hc. cbn [snd] in Hc. rewrite Hc, <- app_assoc.
      reflexivity.
Qed.

End PrecomputedRun.

(** X23: when every discovered file that is not skipped has a precomputed
    record with a joint count that is not negative, a whole run makes no
    analysis and no dump: the runs of the tool are the exports, one for
    each file of the deduplicated list that is not skipped. *)
Theorem X23_precomputed_run_only_exports (assimp : tool)
    (files : list (option (list (string * Dict.t))))
    (resolve : Path.t -> string) (fbx_files : list Path.t) :
  (forall f, In f fbx_files -> should_skip f = false ->
             exists d n,
               load_precomputed files !! Path.name f = Some d
               /\ Dict.real_joint_count d = Some n /\ 0 <= n) ->
  calls (main assimp files resolve fbx_files)
  = map (fun f => Export f (glb_rel_of f))
      (not_skipped (unique_fbx resolve fbx_files)).
Proof.
  intros H. rewrite main_eq. unfold loop_end.
  cbn [sort_manifest calls].
  rewrite process_files_precomputed; [reflexivity|].
  intros f Hf. apply H. now apply (unique_fbx_In resolve).
Qed.

(** At one rig whose record the second data file holds, with 20 joints,
    and a tool whose analysis would fail. *)
Lemma X23_precomputed_run_only_exports_witness :
  calls (main info_failing_tool sample_data id ["rigs/a.fbx"])
  = [Export "rigs/a.fbx" "models/rigs/a.glb"].
Proof.
  rewrite (X23_precomputed_run_only_exports info_failing_tool sample_data id
             ["rigs/a.fbx"]).
  - vm_compute. reflexivity.
  - intros f [<-|[]] _. exists (dict_with (Some 20) []), 20.
    split; [vm_compute; reflexivity|]. split; [reflexivity | lia].
Defined.
